(** * WeatherStationDashboard: the time-series pipeline, embedded and verified

    A shallow embedding of
    - [src/dashboard/weather_dash_polars.py] (readers, merge, daily
      annotations, window filter, shading, the three charts, today's high
      and low, the current conditions),
    - [src/tasks/get_nws_forecast.py] (frames, lookup tables, the log and
      the script),
    - [src/api/main.py] (dew point, ingest endpoint).

    Conventions of the embedding:
    - a naive [datetime] is the number of microseconds since
      1970-01-01T00:00:00 on the proleptic Gregorian calendar (what Python's
      [datetime] arithmetic and a polars [Datetime] column compute on);
    - a [Float64] column cell read from a CSV file is a rational [Q]; a null
      cell is [None];
    - a data frame is the list of its rows, in table order;
    - a function whose body sits in [try: ... except Exception: log] returns
      [None] where the Python function logs and falls through;
    - the binary64 arithmetic of the endpoint is computed on primitive
      floats; the single-precision aggregation of the wind direction is
      carried out on the real numbers its floats stand for, every rounded
      operation and library function a parameter;
    - functions of libraries whose values the source does not fix (time
      zones, sunrise, [strptime], [numpy.log]) are parameters. *)

From Stdlib Require Import ZArith QArith Qround List String Ascii Bool Lia.
From Stdlib Require Import Permutation Sorted.
From Stdlib Require Import Reals Lra Floats Uint63.
From Stdlib Require Lqa.
Import ListNotations.

Close Scope Q_scope.
Close Scope R_scope.
Open Scope Z_scope.

Set Warnings "-inexact-float".

(** ** Naive datetimes *)

Module Datetime.

Definition datetime := Z.

Definition us_per_second : Z := 1000000.
Definition us_per_minute : Z := 60 * us_per_second.
Definition us_per_hour : Z := 60 * us_per_minute.
Definition us_per_day : Z := 24 * us_per_hour.

(** [datetime.timedelta(days=d, minutes=m)] *)
Definition timedelta (days minutes : Z) : Z :=
  days * us_per_day + minutes * us_per_minute.

(** Days since the epoch of the calendar date of [t], and the time of day. *)
Definition date_ordinal (t : datetime) : Z := t / us_per_day.
Definition time_of_day (t : datetime) : Z := t mod us_per_day.

Definition hour (t : datetime) : Z := time_of_day t / us_per_hour.
Definition minute (t : datetime) : Z := (time_of_day t / us_per_minute) mod 60.
Definition second (t : datetime) : Z := (time_of_day t / us_per_second) mod 60.
Definition microsecond (t : datetime) : Z := t mod us_per_second.

(** The calendar: days since the epoch to (year, month, day) and back, on the
    proleptic Gregorian calendar (eras of 400 years, years starting in
    March). *)
Definition civil_from_days (z0 : Z) : Z * Z * Z :=
  let z := z0 + 719468 in
  let era := z / 146097 in
  let doe := z - era * 146097 in
  let yoe := (doe - doe / 1460 + doe / 36524 - doe / 146096) / 365 in
  let y := yoe + era * 400 in
  let doy := doe - (365 * yoe + yoe / 4 - yoe / 100) in
  let mp := (5 * doy + 2) / 153 in
  let d := doy - (153 * mp + 2) / 5 + 1 in
  let m := if mp <? 10 then mp + 3 else mp - 9 in
  (if m <=? 2 then y + 1 else y, m, d).

Definition days_from_civil (y0 m d : Z) : Z :=
  let y := if m <=? 2 then y0 - 1 else y0 in
  let era := y / 400 in
  let yoe := y - era * 400 in
  let doy := (153 * (if 2 <? m then m - 3 else m + 9) + 2) / 5 + d - 1 in
  let doe := yoe * 365 + yoe / 4 - yoe / 100 + doy in
  era * 146097 + doe - 719468.

(** [datetime.datetime(y, m, d, hh, mm, ss, us)] *)
Definition make (y m d hh mm ss us : Z) : datetime :=
  days_from_civil y m d * us_per_day
  + hh * us_per_hour + mm * us_per_minute + ss * us_per_second + us.

(** polars [dt.day()]: the day of the month, 1..31. *)
Definition dt_day (t : datetime) : Z :=
  let '(_, _, d) := civil_from_days (date_ordinal t) in d.

(** [t.replace(hour=hh, minute=mm, second=ss)]: the date and the microsecond
    field are kept. *)
Definition replace_hms (t : datetime) (hh mm ss : Z) : datetime :=
  date_ordinal t * us_per_day
  + hh * us_per_hour + mm * us_per_minute + ss * us_per_second
  + microsecond t.

(** [t.replace(hour=hh, minute=mm, second=ss, microsecond=us)] *)
Definition replace_hmsu (t : datetime) (hh mm ss us : Z) : datetime :=
  date_ordinal t * us_per_day
  + hh * us_per_hour + mm * us_per_minute + ss * us_per_second + us.

End Datetime.

Import Datetime.

(** ** Cells, columns and sorting *)

(** A nullable [Float64] cell. *)
Definition cell := option Q.

Definition Qltb (x y : Q) : bool := negb (Qle_bool y x).

(** polars [max()] and [min()] of a column: nulls are ignored, and the result
    is null when the column holds no value. *)
Fixpoint col_max (c : list cell) : cell :=
  match c with
  | [] => None
  | None :: c' => col_max c'
  | Some x :: c' =>
      match col_max c' with
      | None => Some x
      | Some y => Some (if Qltb x y then y else x)
      end
  end.

Fixpoint col_min (c : list cell) : cell :=
  match c with
  | [] => None
  | None :: c' => col_min c'
  | Some x :: c' =>
      match col_min c' with
      | None => Some x
      | Some y => Some (if Qltb y x then y else x)
      end
  end.

(** [max()] of a datetime column and of a Boolean column. *)
Fixpoint Zcol_max (c : list Z) : option Z :=
  match c with
  | [] => None
  | x :: c' =>
      match Zcol_max c' with
      | None => Some x
      | Some y => Some (Z.max x y)
      end
  end.

Fixpoint Zcol_min (c : list Z) : option Z :=
  match c with
  | [] => None
  | x :: c' =>
      match Zcol_min c' with
      | None => Some x
      | Some y => Some (Z.min x y)
      end
  end.

Fixpoint bool_col_max (c : list (option bool)) : option bool :=
  match c with
  | [] => None
  | None :: c' => bool_col_max c'
  | Some b :: c' =>
      match bool_col_max c' with
      | None => Some b
      | Some b' => Some (b || b')
      end
  end.

(** The filter predicate [col == v] on a nullable cell: a null cell never
    passes a filter. *)
Definition cell_eqb (c : cell) (v : Q) : bool :=
  match c with
  | Some x => Qeq_bool x v
  | None => false
  end.

(** [sort(key)]: a stable insertion sort on an integer key, ascending or
    descending. *)
Section Sorting.

Context {A : Type} (key : A -> Z).

Fixpoint insert_asc (x : A) (l : list A) : list A :=
  match l with
  | [] => [x]
  | y :: l' => if key x <? key y then x :: l else y :: insert_asc x l'
  end.

Fixpoint insert_desc (x : A) (l : list A) : list A :=
  match l with
  | [] => [x]
  | y :: l' => if key y <? key x then x :: l else y :: insert_desc x l'
  end.

Definition sort_asc (l : list A) : list A := fold_right insert_asc [] l.
Definition sort_desc (l : list A) : list A := fold_right insert_desc [] l.

End Sorting.

(** ** Parsing the fixed timestamp format

    [str.strptime(pl.Datetime, format="%Y-%m-%d %H:%M:%S", strict=False)]:
    a string that is not of the form [YYYY-MM-DD HH:MM:SS], or that names no
    calendar date or time of day, gives a null ([strict=False]); it raises
    nothing. *)

Module Strptime.

Definition digit (c : ascii) : option Z :=
  let n := Z.of_nat (nat_of_ascii c) in
  if (48 <=? n) && (n <=? 57) then Some (n - 48) else None.

(** Exactly [n] decimal digits. *)
Fixpoint digits (n : nat) (acc : Z) (s : string) : option (Z * string) :=
  match n with
  | O => Some (acc, s)
  | S n' =>
      match s with
      | String c s' =>
          match digit c with
          | Some d => digits n' (10 * acc + d) s'
          | None => None
          end
      | EmptyString => None
      end
  end.

Definition expect (c : ascii) (s : string) : option string :=
  match s with
  | String c' s' => if Ascii.eqb c c' then Some s' else None
  | EmptyString => None
  end.

Definition is_leap (y : Z) : bool :=
  ((y mod 4 =? 0) && negb (y mod 100 =? 0)) || (y mod 400 =? 0).

Definition days_in_month (y m : Z) : Z :=
  if m =? 2 then (if is_leap y then 29 else 28)
  else if (m =? 4) || (m =? 6) || (m =? 9) || (m =? 11) then 30
  else 31.

Definition valid_fields (y m d hh mm ss : Z) : bool :=
  (1 <=? m) && (m <=? 12) && (1 <=? d) && (d <=? days_in_month y m)
  && (hh <? 24) && (mm <? 60) && (ss <? 60).

Definition bind {A B : Type} (o : option A) (f : A -> option B) : option B :=
  match o with
  | Some a => f a
  | None => None
  end.

Notation "'let?' x ':=' o 'in' k" := (bind o (fun x => k))
  (at level 10, x pattern, o at level 100, k at level 200).

(** The date separator is [" "] in the observation log and ["T"] in the
    serialised merged series. *)
Definition strptime (sep : ascii) (s : string) : option datetime :=
  let? (y, s) := digits 4 0 s in
  let? s := expect "-" s in
  let? (m, s) := digits 2 0 s in
  let? s := expect "-" s in
  let? (d, s) := digits 2 0 s in
  let? s := expect sep s in
  let? (hh, s) := digits 2 0 s in
  let? s := expect ":" s in
  let? (mm, s) := digits 2 0 s in
  let? s := expect ":" s in
  let? (ss, s) := digits 2 0 s in
  match s with
  | EmptyString =>
      if valid_fields y m d hh mm ss then Some (make y m d hh mm ss 0)
      else None
  | String _ _ => None
  end.

End Strptime.

(** ** Rows of the logs and of the frames *)

(** A row of the observation log, as [scan_csv] reads it. The instrument
    columns that [read_weather_observations] drops before any use ([tempinf],
    [humidityin], [baromrelin], [baromabsin], [humidity], [maxdailygust],
    [weeklyrainin], [monthlyrainin], [totalrainin], [solarradiation], [uv])
    are left out. *)
Record observation := {
  id : Q;
  dateutc : string;
  tempf : cell;
  dewpointf : cell;
  winddir : cell;
  windspeedmph : cell;
  windgustmph : cell;
  hourlyrainin : cell;
  eventrainin : cell;
  dailyrainin : cell
}.

(** A row of the frame [read_weather_observations] returns. *)
Record observation_row := {
  o_DATE : datetime;
  o_TEMP : cell;
  o_DEWPOINT : cell;
  o_WIND_SPEED : cell;
  o_WIND_DIRECTION : cell;
  o_GUST_SPEED : cell;
  o_RAIN_HOURLY : cell;
  o_RAIN_DAILIY : cell;
  o_RAIN_EVENT : cell
}.

(** A row of the forecast log; [id], [number], [endTime], [isDaytime],
    [forecast_descriptions_id] and [icon_id] are dropped on reading.
    [startTime] and [forecast_updated_time] are UTC instants. *)
Record prediction := {
  startTime : datetime;
  temperature : cell;
  probabilityOfPrecipitation : option Z;
  dewpoint : cell;
  windSpeed : cell;
  windDirection : cell;
  forecast_updated_time : datetime
}.

(** A row of the frame [read_weather_predictions] returns. *)
Record prediction_row := {
  p_DATE : datetime;
  p_TEMP : cell;
  p_DEWPOINT : cell;
  p_WIND_SPEED : cell;
  p_WIND_DIRECTION : cell;
  p_PRECIP_PROB : option Z;
  p_PREDICTION : option bool
}.

(** A row of the merged series: the union of the two frames' columns. *)
Record weather_row := {
  DATE : datetime;
  TEMP : cell;
  DEWPOINT : cell;
  WIND_SPEED : cell;
  WIND_DIRECTION : cell;
  GUST_SPEED : cell;
  RAIN_HOURLY : cell;
  RAIN_DAILIY : cell;
  RAIN_EVENT : cell;
  PRECIP_PROB : option Z;
  PREDICTION : option bool
}.

(** ** ObservationReader: [read_weather_observations] *)

(** [round(1)]: to one decimal, halves away from zero. *)
Definition round1 (x : Q) : Q :=
  let y := (x * 10)%Q in
  (if Qle_bool 0 y then Qfloor (y + (1 # 2)) else Qceiling (y - (1 # 2))) # 10.

(** [with_columns(... .alias("datect"))]: the parsed timestamp, read as UTC,
    converted to the local zone and made naive; null where parsing failed. *)
Definition datect (convert_time_zone : datetime -> datetime)
    (r : observation) : option datetime :=
  option_map convert_time_zone (Strptime.strptime " " (dateutc r)).

(** The renaming [select]: the row of the returned frame, for the local
    timestamp [t]. *)
Definition to_observation_row (t : datetime) (r : observation)
    : observation_row :=
  {| o_DATE := t;
     o_TEMP := tempf r;
     o_DEWPOINT := option_map round1 (dewpointf r);
     o_WIND_SPEED := windspeedmph r;
     o_WIND_DIRECTION := winddir r;
     o_GUST_SPEED := windgustmph r;
     o_RAIN_HOURLY := hourlyrainin r;
     o_RAIN_DAILIY := dailyrainin r;
     o_RAIN_EVENT := eventrainin r |}.

(** [filter(datect > utcnow() - timedelta(days=3))], then the [select]: a
    row with a null [datect] does not pass the filter. *)
Definition recent_row (convert_time_zone : datetime -> datetime)
    (utcnow : datetime) (r : observation) : option observation_row :=
  match datect convert_time_zone r with
  | Some t =>
      if utcnow - timedelta 3 0 <? t then Some (to_observation_row t r)
      else None
  | None => None
  end.

Fixpoint filter_map {A B : Type} (f : A -> option B) (l : list A) : list B :=
  match l with
  | [] => []
  | x :: l' =>
      match f x with
      | Some y => y :: filter_map f l'
      | None => filter_map f l'
      end
  end.

(** [filter(id >= id.max() - 4000)] *)
Definition last_4000 (rows : list observation) : list observation :=
  match col_max (map (fun r => Some (id r)) rows) with
  | Some m => filter (fun r => Qle_bool (m - 4000) (id r)) rows
  | None => []
  end.

(** The log is [None] when it is missing or unreadable: [scan_csv] raises,
    the exception is logged and the function returns nothing. *)
Definition read_weather_observations
    (convert_time_zone : datetime -> datetime) (utcnow : datetime)
    (log : option (list observation)) : option (list observation_row) :=
  match log with
  | None => None
  | Some rows =>
      Some (sort_desc o_DATE
              (filter_map (recent_row convert_time_zone utcnow)
                 (last_4000 rows)))
  end.

(** ** ForecastReader: [read_weather_predictions] *)

(** The filter's second operand:
    [utcnow().replace(tzinfo=utc) - timedelta(minutes=utcnow().minute)],
    with the two clock readings it takes. *)
Definition elapsed_before (utcnow1 utcnow2 : datetime) : datetime :=
  utcnow1 - timedelta 0 (minute utcnow2).

(** [pl.col("forecast_updated_time").max()]: null on an empty log. *)
Definition latest_batch (log : list prediction) : option datetime :=
  Zcol_max (map forecast_updated_time log).

(** [pl.col("forecast_updated_time") == forecast_update_date] *)
Definition in_latest_batch (log : list prediction) (r : prediction) : bool :=
  match latest_batch log with
  | Some u => forecast_updated_time r =? u
  | None => false
  end.

(** The conversions, [pl.lit(True).alias("PREDICTION")] and the renaming
    [select]. *)
Definition to_prediction_row (convert_time_zone : datetime -> datetime)
    (r : prediction) : prediction_row :=
  {| p_DATE := convert_time_zone (startTime r);
     p_TEMP := temperature r;
     p_DEWPOINT := dewpoint r;
     p_WIND_SPEED := windSpeed r;
     p_WIND_DIRECTION := windDirection r;
     p_PRECIP_PROB := probabilityOfPrecipitation r;
     p_PREDICTION := Some true |}.

(** The log is [None] when it is missing or unreadable; on a log without
    rows the frame returned is empty. *)
Definition read_weather_predictions
    (convert_time_zone : datetime -> datetime) (utcnow1 utcnow2 : datetime)
    (log : option (list prediction)) : option (list prediction_row) :=
  match log with
  | None => None
  | Some rows =>
      Some (sort_asc p_DATE
              (map (to_prediction_row convert_time_zone)
                 (filter (fun r => in_latest_batch rows r
                                   && (elapsed_before utcnow1 utcnow2
                                       <? startTime r))
                    rows)))
  end.

(** ** TimeSeriesMerger: [make_weather_df] *)

Definition of_observation_row (r : observation_row) : weather_row :=
  {| DATE := o_DATE r;
     TEMP := o_TEMP r;
     DEWPOINT := o_DEWPOINT r;
     WIND_SPEED := o_WIND_SPEED r;
     WIND_DIRECTION := o_WIND_DIRECTION r;
     GUST_SPEED := o_GUST_SPEED r;
     RAIN_HOURLY := o_RAIN_HOURLY r;
     RAIN_DAILIY := o_RAIN_DAILIY r;
     RAIN_EVENT := o_RAIN_EVENT r;
     PRECIP_PROB := None;
     PREDICTION := None |}.

Definition of_prediction_row (r : prediction_row) : weather_row :=
  {| DATE := p_DATE r;
     TEMP := p_TEMP r;
     DEWPOINT := p_DEWPOINT r;
     WIND_SPEED := p_WIND_SPEED r;
     WIND_DIRECTION := p_WIND_DIRECTION r;
     GUST_SPEED := None;
     RAIN_HOURLY := None;
     RAIN_DAILIY := None;
     RAIN_EVENT := None;
     PRECIP_PROB := p_PRECIP_PROB r;
     PREDICTION := p_PREDICTION r |}.

(** [pl.concat([observation_df, predictions_df], how="diagonal")]: the rows
    of the first frame, then those of the second, over the union of the
    columns; a column a frame lacks is null in its rows. *)
Definition concat_diagonal (observation_df : list observation_row)
    (predictions_df : list prediction_row) : list weather_row :=
  map of_observation_row observation_df
  ++ map of_prediction_row predictions_df.

(** A reader that failed hands over nothing, [pl.concat] raises on it, and
    [make_weather_df] logs and returns nothing. *)
Definition make_weather_df (observation_df : option (list observation_row))
    (predictions_df : option (list prediction_row))
    : option (list weather_row) :=
  match observation_df, predictions_df with
  | Some o, Some p => Some (concat_diagonal o p)
  | _, _ => None
  end.

(** ** AggregationEngine: [make_high_low_annotations_dict] *)

Inductive anno_type := High_Temp | Low_Temp | High_Windspeed.

Definition anno_type_eqb (a b : anno_type) : bool :=
  match a, b with
  | High_Temp, High_Temp => true
  | Low_Temp, Low_Temp => true
  | High_Windspeed, High_Windspeed => true
  | _, _ => false
  end.

(** The column each annotation type is read from. *)
Definition HIGH_LOW_ALIAS_COL_DICT (a : anno_type) : weather_row -> cell :=
  match a with
  | High_Temp => TEMP
  | Low_Temp => TEMP
  | High_Windspeed => WIND_SPEED
  end.

(** [HIGH_LOW_ALIAS_COL_DICT.keys()], in the dictionary's order. *)
Definition HIGH_LOW_KEYS : list anno_type :=
  [High_Temp; Low_Temp; High_Windspeed].

(** [unique()] of a column, each value at its first occurrence. polars
    promises no order for [unique()] and for the groups of [groupby]; what is
    proved below about them does not depend on the order. *)
Fixpoint unique {A : Type} (eqb : A -> A -> bool) (l : list A) : list A :=
  match l with
  | [] => []
  | x :: l' => x :: filter (fun y => negb (eqb x y)) (unique eqb l')
  end.

(** The group key [pl.col("DATE").dt.day()]. *)
Definition day_key (r : weather_row) : Z := dt_day (DATE r).

(** A row of [high_low_df]. *)
Record high_low := {
  hl_DATE : Z;
  hl_High_Temp : cell;
  hl_Low_Temp : cell;
  hl_High_Windspeed : cell
}.

(** [row[anno_type]] *)
Definition hl_value (a : anno_type) (row : high_low) : cell :=
  match a with
  | High_Temp => hl_High_Temp row
  | Low_Temp => hl_Low_Temp row
  | High_Windspeed => hl_High_Windspeed row
  end.

Definition day_group (weather_df : list weather_row) (k : Z)
    : list weather_row :=
  filter (fun r => day_key r =? k) weather_df.

(** The aggregates of one group: [max] and [min] of [TEMP], [max] of
    [WIND_SPEED]. *)
Definition agg_day (weather_df : list weather_row) (k : Z) : high_low :=
  let g := day_group weather_df k in
  {| hl_DATE := k;
     hl_High_Temp := col_max (map TEMP g);
     hl_Low_Temp := col_min (map TEMP g);
     hl_High_Windspeed := col_max (map WIND_SPEED g) |}.

(** [weather_df.groupby(pl.col("DATE").dt.day()).agg([...])] *)
Definition high_low_df (weather_df : list weather_row) : list high_low :=
  map (agg_day weather_df) (unique Z.eqb (map day_key weather_df)).

(** The annotations dictionary: keys in insertion order, each with its list
    of (timestamp, value) points. *)
Definition annotations_dict := list (anno_type * list (datetime * Q)).

Fixpoint dict_get (d : annotations_dict) (a : anno_type)
    : option (list (datetime * Q)) :=
  match d with
  | [] => None
  | (k, l) :: d' => if anno_type_eqb k a then Some l else dict_get d' a
  end.

(** [annotations_dict[a].append(x)] when the key is there,
    [annotations_dict[a] = [x]] when it is not. *)
Fixpoint dict_append (d : annotations_dict) (a : anno_type)
    (x : datetime * Q) : annotations_dict :=
  match d with
  | [] => [(a, [x])]
  | (k, l) :: d' =>
      if anno_type_eqb k a then (k, l ++ [x]) :: d'
      else (k, l) :: dict_append d' a x
  end.

(** The rows [this_df] is made of. *)
Definition this_df (weather_df : list weather_row) (row : high_low)
    (a : anno_type) (v : Q) : list weather_row :=
  filter (fun r => (day_key r =? hl_DATE row)
                   && cell_eqb (HIGH_LOW_ALIAS_COL_DICT a r) v)
         weather_df.

(** The body of the inner loop. [this_df["DATE"][0]] raises on an empty
    frame, which ends the function in its [except] branch: [None]. *)
Definition annotate (weather_df : list weather_row) (row : high_low)
    (acc : option annotations_dict) (a : anno_type)
    : option annotations_dict :=
  match acc with
  | None => None
  | Some d =>
      match hl_value a row with
      | None => Some d
      | Some v =>
          match this_df weather_df row a v with
          | [] => None
          | r0 :: _ => Some (dict_append d a (DATE r0, v))
          end
      end
  end.

Definition make_high_low_annotations_dict (weather_df : list weather_row)
    : option annotations_dict :=
  fold_left
    (fun acc row => fold_left (annotate weather_df row) HIGH_LOW_KEYS acc)
    (high_low_df weather_df) (Some []).

(** The points of one annotation type; none when the key is absent. *)
Definition annotations (d : annotations_dict) (a : anno_type)
    : list (datetime * Q) :=
  match dict_get d a with
  | Some l => l
  | None => []
  end.

(** ** WindowFilter: [filter_weather_df_by_date] *)

(** [(now() - timedelta(days=1)).replace(hour=0, minute=0, second=1)] *)
Definition default_plot_start_date (now : datetime) : datetime :=
  replace_hms (now - timedelta 1 0) 0 0 1.

(** [(now() + timedelta(days=1)).replace(hour=23, minute=59, second=59,
    microsecond=9999)] *)
Definition default_plot_end_date (now : datetime) : datetime :=
  replace_hmsu (now + timedelta 1 0) 23 59 59 9999.

(** [now1] and [now2] are the readings of the local clock the two defaults
    take. The [DATE] column is a datetime column here, so the string-parsing
    branch is not entered. *)
Definition filter_weather_df_by_date (weather_df : list weather_row)
    (plot_start_date plot_end_date : option datetime) (now1 now2 : datetime)
    : list weather_row :=
  let plot_start_date :=
    match plot_start_date with
    | Some s => s
    | None => default_plot_start_date now1
    end in
  let plot_end_date :=
    match plot_end_date with
    | Some e => e
    | None => default_plot_end_date now2
    end in
  filter (fun r => (plot_start_date <=? DATE r) && (DATE r <=? plot_end_date))
         weather_df.

(** ** Wind chart: [make_wind_fig] *)

(** Python's [int()] of a quotient: truncation towards zero. *)
Definition int_of_Q (x : Q) : Z :=
  if Qle_bool 0 x then Qfloor x else Qceiling x.

(** [delta.total_seconds()], as an exact quotient. *)
Definition total_seconds (delta : Z) : Q := delta # 1000000.

(** The bucket width in minutes, from the first and the last timestamp of
    the windowed frame. On an empty frame both are [None], the subtraction
    raises and the inner [except] sets 2. *)
Definition gb_min (plot_df : list weather_row) : Z :=
  let g :=
    match Zcol_min (map DATE plot_df), Zcol_max (map DATE plot_df) with
    | Some plot_start_date, Some plot_end_date =>
        let delta := plot_end_date - plot_start_date in
        if Qltb (60 * 15) (total_seconds delta)
        then int_of_Q (total_seconds delta / 60 / 180)
        else 15
    | _, _ => 2
    end in
  if g <? 2 then 2 else g.

(** The lower boundary of the window of width [every] that holds [t]. *)
Definition window_start (every : Z) (t : datetime) : datetime :=
  t / every * every.

(** [groupby_dynamic(pl.col("DATE"), every=...)] on a frame sorted by
    [DATE]: one group per non-empty window, in time order. *)
Fixpoint groupby_dynamic (every : Z) (sorted : list weather_row)
    : list (datetime * list weather_row) :=
  match sorted with
  | [] => []
  | r :: l =>
      let w := window_start every (DATE r) in
      match groupby_dynamic every l with
      | (k, g) :: rest =>
          if w =? k then (k, r :: g) :: rest else (w, [r]) :: (k, g) :: rest
      | [] => [(w, [r])]
      end
  end.

(** A row of the aggregated frame, without its [WIND_DIRECTION] (a real
    number, see [Circular] below). *)
Record wind_bucket := {
  b_DATE : datetime;
  b_WIND_SPEED : cell;
  b_TEMP : cell;
  b_PREDICTION : option bool
}.

Definition agg_bucket (g : datetime * list weather_row) : wind_bucket :=
  {| b_DATE := fst g;
     b_WIND_SPEED := col_max (map WIND_SPEED (snd g));
     b_TEMP := col_max (map TEMP (snd g));
     b_PREDICTION := bool_col_max (map PREDICTION (snd g)) |}.

Definition wind_buckets (plot_df : list weather_row)
    : list (datetime * list weather_row) :=
  groupby_dynamic (gb_min plot_df * us_per_minute) (sort_asc DATE plot_df).

(** One marker of the wind chart. *)
Record scatter := {
  s_x : datetime;
  s_y : cell;
  s_color : string
}.

(** The loop body: [if row["PREDICTION"] is True: ... else: ...] *)
Definition wind_scatter (row : wind_bucket) : scatter :=
  match b_PREDICTION row with
  | Some true =>
      {| s_x := b_DATE row; s_y := b_WIND_SPEED row;
         s_color := "chartreuse" |}
  | _ =>
      {| s_x := b_DATE row; s_y := b_WIND_SPEED row;
         s_color := "dodgerblue" |}
  end.

Definition wind_scatters (weather_df : list weather_row)
    (plot_start_date plot_end_date : option datetime) (now1 now2 : datetime)
    : list scatter :=
  let plot_df :=
    filter_weather_df_by_date weather_df plot_start_date plot_end_date
      now1 now2 in
  map (fun g => wind_scatter (agg_bucket g)) (wind_buckets plot_df).

(** ** Lookup tables: [add_new_forecast_descriptions], [add_new_forecast_icons] *)

(** The columns of [NWS_df] the two functions read: the text, and the id the
    left join found for it (null when the text is not in the table yet). *)
Record nws_period := {
  shortForecast : string;
  forecast_descriptions_id : option Z;
  icon : string;
  icon_id : option Z
}.

Definition lookup_table := list (Z * string).

(** [with_row_count()]: rows numbered from 0. *)
Fixpoint with_row_count {A : Type} (row_nr : Z) (l : list A)
    : list (Z * A) :=
  match l with
  | [] => []
  | a :: l' => (row_nr, a) :: with_row_count (row_nr + 1) l'
  end.

Definition is_null {A : Type} (o : option A) : bool :=
  match o with
  | Some _ => false
  | None => true
  end.

(** The common body of the two functions, for the text column [text] and
    the id column [text_id]. The result is the table written back to the
    file when the function returns [True], and [None] when it returns
    [False] and writes nothing. *)
Definition add_new_texts (text : nws_period -> string)
    (text_id : nws_period -> option Z) (NWS_df : list nws_period)
    (table : lookup_table) : option lookup_table :=
  let new_texts :=
    unique String.eqb
      (map text (filter (fun r => is_null (text_id r)) NWS_df)) in
  if 0 <? Z.of_nat (List.length new_texts) then
    let max_id :=
      match Zcol_max (map fst table) with
      | Some m => m
      | None => 0
      end in
    Some (table
          ++ map (fun p => (fst p + max_id, snd p))
               (with_row_count 0 new_texts))
  else None.

Definition add_new_forecast_descriptions :=
  add_new_texts shortForecast forecast_descriptions_id.

Definition add_new_forecast_icons := add_new_texts icon icon_id.

(** ** Wind direction of a bucket: the circular mean *)

Module Circular.

Local Open Scope R_scope.

(** The floating-point functions the aggregation goes through, on the real
    numbers that the floats stand for: polars [radians()], [degrees()] and
    [cast(pl.Float32)], numpy's [sin], [cos], [sum] and [arctan2] on single
    precision, the constant [pi] and the rounding of an arithmetic
    operation (applied to the exact result of the operation on its float
    operands), both in the precision of the array operations and in that of
    the scalar operations, which is single or double with the version of
    numpy. A NaN is no real number: it is the [None] of
    [bucket_WIND_DIRECTION]. *)
Record numerics := {
  radians : R -> R;
  cast_Float32 : R -> R;
  pi_array : R;
  fl_array : R -> R;
  np_sin : R -> R;
  np_cos : R -> R;
  np_sum : list R -> R;
  np_arctan2 : R -> R -> R;
  pi_scalar : R;
  fl_scalar : R -> R;
  degrees : R -> R
}.

(** [scipy.stats.circmean(samples)] with the defaults [high=2*pi] and
    [low=0] the call leaves in place:
    [sin_samp = sin((samples - low)*2.*pi / (high - low))], and the same
    for [cos_samp]; [sin_sum = sin_samp.sum()], [cos_sum = cos_samp.sum()];
    [res = arctan2(sin_sum, cos_sum)]; [res += 2*pi] where [res < 0]; the
    result is [res*(high - low)/2.0/pi + low]. Subtracting and adding 0 and
    multiplying and dividing by 2 are exact, and written as they are; the
    other operations round. *)
Definition recast (lib : numerics) (x : R) : R :=
  fl_array lib (fl_array lib ((x - 0) * 2 * pi_array lib)
                / (2 * pi_array lib - 0)).

Definition sin_sum (lib : numerics) (samples : list R) : R :=
  np_sum lib (map (fun x => np_sin lib (recast lib x)) samples).

Definition cos_sum (lib : numerics) (samples : list R) : R :=
  np_sum lib (map (fun x => np_cos lib (recast lib x)) samples).

Definition circmean (lib : numerics) (samples : list R) : R :=
  let res := np_arctan2 lib (sin_sum lib samples) (cos_sum lib samples) in
  let res :=
    if Rlt_dec res 0 then fl_scalar lib (res + 2 * pi_scalar lib) else res in
  fl_scalar lib (fl_scalar lib (res * (2 * pi_scalar lib - 0))
                 / 2 / pi_scalar lib) + 0.

(** The aggregation of the [WIND_DIRECTION] column of a bucket:
    [.radians().cast(pl.Float32).apply(circmean).degrees()]. *)
Definition samples (lib : numerics) (directions : list R) : list R :=
  map (fun d => cast_Float32 lib (radians lib d)) directions.

Definition WIND_DIRECTION_agg (lib : numerics) (directions : list R) : R :=
  degrees lib (circmean lib (samples lib directions)).

(** The directions of the rows of a bucket; [None] when a row has a null
    direction (it reaches [circmean] as a NaN, and the mean of the bucket
    is a NaN). *)
Fixpoint directions (g : list weather_row) : option (list R) :=
  match g with
  | [] => Some []
  | r :: g' =>
      match WIND_DIRECTION r, directions g' with
      | Some d, Some l => Some (Q2R d :: l)
      | _, _ => None
      end
  end.

(** The [WIND_DIRECTION] of the aggregated row of a bucket. *)
Definition bucket_WIND_DIRECTION (lib : numerics) (g : list weather_row)
    : option R :=
  option_map (WIND_DIRECTION_agg lib) (directions g).

End Circular.

(** ** Day and night shading: [add_background_shading_to_figure] *)

(** [t.replace(second=ss)]: the other fields, the microsecond among them,
    are kept. *)
Definition replace_second (t : datetime) (ss : Z) : datetime :=
  t - second t * us_per_second + ss * us_per_second.

(** What the function adds to a figure: a vertical line, drawn one
    millisecond after [x], or a rectangle over the whole height between the
    abscissas [x0] and [x1], in whichever order they come. *)
Inductive shape :=
| vline (x : datetime) (line_color : string)
| vrect (x0 x1 : datetime).

(** The body of the loop, for one [day]. [sunrise] and [sunset] stand for
    [astral_location.sunrise(day)] and [astral_location.sunset(day)], made
    naive. *)
Definition shade_day (sunrise sunset : datetime -> datetime)
    (plot_start_date plot_end_date day : datetime) : list shape :=
  let AM_midnight := replace_hms day 0 0 0 in
  let PM_midnight := replace_hms day 23 59 59 in
  (if plot_start_date <=? AM_midnight then
     vline AM_midnight "gray"
     :: (if sunrise day <=? plot_end_date then
           [vline (sunrise day) "orange"; vrect AM_midnight (sunrise day)]
         else [vrect AM_midnight plot_end_date])
   else
     (if sunrise day <=? plot_end_date then
        [vline (sunrise day) "orange"; vrect plot_start_date (sunrise day)]
      else [vrect plot_start_date plot_end_date]))
  ++ (if plot_start_date <=? sunset day then
        vline (sunset day) "orange"
        :: (if PM_midnight <=? plot_end_date then
              [vrect (sunset day) PM_midnight]
            else [vrect (sunset day) plot_end_date])
      else
        (if PM_midnight <? plot_end_date then
           [vrect plot_start_date PM_midnight]
         else [vrect plot_start_date plot_end_date])).

(** [range((plot_end_date - plot_start_date).days + 2)]: [timedelta.days] is
    the floor of the difference in days. *)
Definition shaded_days (plot_start_date plot_end_date : datetime) : list Z :=
  map Z.of_nat
    (seq 0 (Z.to_nat ((plot_end_date - plot_start_date) / us_per_day + 2))).

(** The shapes the function adds. A bound that is [None] (the frame it was
    read from is empty) raises inside the function, which logs and returns
    nothing. *)
Definition add_background_shading_to_figure
    (sunrise sunset : datetime -> datetime)
    (plot_start_date plot_end_date : option datetime) : option (list shape) :=
  match plot_start_date, plot_end_date with
  | Some plot_start_date, Some plot_end_date =>
      let plot_start_date := replace_second plot_start_date 0 in
      Some (flat_map
              (fun day_num =>
                 shade_day sunrise sunset plot_start_date plot_end_date
                   (plot_start_date + timedelta day_num 0))
              (shaded_days plot_start_date plot_end_date))
  | _, _ => None
  end.

(** ** The three charts *)

Definition TEMP_PLOT_PADDING : Q := 5.
Definition WIND_PLOT_PADDING : Q := 2.
Definition RAIN_PLOT_PADDING : Q := 1.

(** [frame.filter(pl.col("PREDICTION").is_null())] and
    [frame.filter(pl.col("PREDICTION") == True)] *)
Definition observed_rows (plot_df : list weather_row) : list weather_row :=
  filter (fun r => is_null (PREDICTION r)) plot_df.

Definition predicted_rows (plot_df : list weather_row) : list weather_row :=
  filter (fun r => match PREDICTION r with Some true => true | _ => false end)
         plot_df.

(** A line trace: the [x] and [y] columns, row by row. *)
Definition line (col : weather_row -> cell) (rows : list weather_row)
    : list (datetime * cell) :=
  map (fun r => (DATE r, col r)) rows.

(** A high or low marker of the temperature chart. *)
Record temp_marker := {
  mk_x : datetime;
  mk_y : Q;
  mk_textposition : string
}.

Definition TEMP_ANNOTATIONS : list anno_type := [High_Temp; Low_Temp].

(** ["High" in anno_type] *)
Definition is_high (a : anno_type) : bool :=
  match a with
  | Low_Temp => false
  | High_Temp | High_Windspeed => true
  end.

(** The markers of one annotation type: the points strictly after the first
    and up to the last visible timestamp. *)
Definition temp_markers (plot_start_date plot_end_date : datetime)
    (a : anno_type) (points : list (datetime * Q)) : list temp_marker :=
  map (fun p => {| mk_x := fst p; mk_y := snd p;
                   mk_textposition :=
                     if is_high a then "bottom center" else "top center" |})
      (filter (fun p => (plot_start_date <? fst p) && (fst p <=? plot_end_date))
              points).

(** The temperature chart, by its parts. *)
Record temp_figure := {
  tf_yaxis : Q * Q;
  tf_xaxis : datetime * datetime;
  tf_shapes : list shape;
  tf_temp : list (datetime * cell);
  tf_dew : list (datetime * cell);
  tf_predicted_temp : list (datetime * cell);
  tf_predicted_dew : list (datetime * cell);
  tf_markers : list temp_marker;
  tf_freezing_line : bool
}.

(** The markers of all the types of [TEMP_ANNOTATIONS]; a type that is not a
    key of the dictionary raises. *)
Fixpoint all_temp_markers (plot_start_date plot_end_date : datetime)
    (d : annotations_dict) (types : list anno_type)
    : option (list temp_marker) :=
  match types with
  | [] => Some []
  | a :: types' =>
      match dict_get d a,
            all_temp_markers plot_start_date plot_end_date d types' with
      | Some points, Some ms =>
          Some (temp_markers plot_start_date plot_end_date a points ++ ms)
      | _, _ => None
      end
  end.

(** [make_temp_fig]: [None] where an exception ends the function (an empty
    window, a column without a value, a missing annotation type). *)
Definition make_temp_fig (sunrise sunset : datetime -> datetime)
    (weather_df : list weather_row)
    (plot_start_date plot_end_date : option datetime) (now1 now2 : datetime)
    : option temp_figure :=
  let plot_df :=
    filter_weather_df_by_date weather_df plot_start_date plot_end_date
      now1 now2 in
  let plot_start_date := Zcol_min (map DATE plot_df) in
  let plot_end_date := Zcol_max (map DATE plot_df) in
  match col_min (map DEWPOINT weather_df), col_max (map TEMP weather_df) with
  | Some lowest, Some highest =>
      let min_temp := (lowest - TEMP_PLOT_PADDING)%Q in
      let max_temp := (highest + TEMP_PLOT_PADDING)%Q in
      match add_background_shading_to_figure sunrise sunset
              plot_start_date plot_end_date,
            plot_start_date, plot_end_date,
            make_high_low_annotations_dict weather_df with
      | Some shapes, Some x0, Some x1, Some annotations_dict =>
          match all_temp_markers x0 x1 annotations_dict TEMP_ANNOTATIONS with
          | Some markers =>
              Some {| tf_yaxis := (min_temp, max_temp);
                      tf_xaxis := (x0, x1);
                      tf_shapes := shapes;
                      tf_temp := line TEMP (observed_rows plot_df);
                      tf_dew := line DEWPOINT (observed_rows plot_df);
                      tf_predicted_temp := line TEMP (predicted_rows plot_df);
                      tf_predicted_dew :=
                        line DEWPOINT (predicted_rows plot_df);
                      tf_markers := markers;
                      tf_freezing_line :=
                        Qltb 32 max_temp && Qltb min_temp 32 |}
          | None => None
          end
      | _, _, _, _ => None
      end
  | _, _ => None
  end.

(** The wind chart, by its parts. *)
Record wind_figure := {
  wf_yaxis : Q * Q;
  wf_xaxis : datetime * datetime;
  wf_shapes : list shape;
  wf_scatters : list scatter
}.

Definition make_wind_fig (sunrise sunset : datetime -> datetime)
    (weather_df : list weather_row)
    (plot_start_date plot_end_date : option datetime) (now1 now2 : datetime)
    : option wind_figure :=
  let plot_df :=
    filter_weather_df_by_date weather_df plot_start_date plot_end_date
      now1 now2 in
  match col_max (map WIND_SPEED weather_df),
        Zcol_min (map DATE plot_df), Zcol_max (map DATE plot_df),
        add_background_shading_to_figure sunrise sunset
          (Zcol_min (map DATE plot_df)) (Zcol_max (map DATE plot_df)) with
  | Some fastest, Some x0, Some x1, Some shapes =>
      Some {| wf_yaxis := (0, fastest + WIND_PLOT_PADDING)%Q;
              wf_xaxis := (x0, x1);
              wf_shapes := shapes;
              wf_scatters :=
                map (fun g => wind_scatter (agg_bucket g))
                    (wind_buckets plot_df) |}
  | _, _, _, _ => None
  end.

(** A point of the probability trace: the value drawn and the percentage
    kept as hover data. *)
Record probability_point := {
  pp_x : datetime;
  pp_y : cell;
  pp_customdata : option Z
}.

(** The rain chart, by its parts. *)
Record rain_figure := {
  rf_yaxis : Q * Q;
  rf_xaxis : datetime * datetime;
  rf_shapes : list shape;
  rf_daily_rain : list (datetime * cell);
  rf_probability : list probability_point
}.

(** The upper end of the rain axis. *)
Definition max_rain (weather_df : list weather_row) : Q :=
  match col_max (map RAIN_DAILIY weather_df) with
  | Some wettest => (wettest + RAIN_PLOT_PADDING)%Q
  | None => RAIN_PLOT_PADDING
  end.

(** [pl.col("PRECIP_PROB") / 100 * max_rain] *)
Definition PRECIP_PROB_SCALED (top : Q) (r : weather_row) : cell :=
  option_map (fun p => (inject_Z p / 100 * top)%Q) (PRECIP_PROB r).

Definition make_rain_fig (sunrise sunset : datetime -> datetime)
    (weather_df : list weather_row)
    (plot_start_date plot_end_date : option datetime) (now1 now2 : datetime)
    : option rain_figure :=
  let plot_df :=
    filter_weather_df_by_date weather_df plot_start_date plot_end_date
      now1 now2 in
  let top := max_rain weather_df in
  match Zcol_min (map DATE plot_df), Zcol_max (map DATE plot_df),
        add_background_shading_to_figure sunrise sunset
          (Zcol_min (map DATE plot_df)) (Zcol_max (map DATE plot_df)) with
  | Some x0, Some x1, Some shapes =>
      Some {| rf_yaxis := (0, top)%Q;
              rf_xaxis := (x0, x1);
              rf_shapes := shapes;
              rf_daily_rain := line RAIN_DAILIY (observed_rows plot_df);
              rf_probability :=
                map (fun r => {| pp_x := DATE r;
                                 pp_y := PRECIP_PROB_SCALED top r;
                                 pp_customdata := PRECIP_PROB r |})
                    (predicted_rows plot_df) |}
  | _, _, _ => None
  end.

(** ** The range of the other two charts: [filter_other_plots] *)

(** The formats tried on the two ends of the range, in this order. *)
Definition RANGE_FORMATS : list string :=
  ["%Y-%m-%d %H:%M:%S.%f"; "%Y-%m-%dT%H:%M:%S.%f";
   "%Y-%m-%dT%H:%M:%S"; "%Y-%m-%d %H:%M:%S"]%string.

(** [relayoutData], a dictionary from strings to strings. *)
Definition relayout := list (string * string).

Fixpoint relayout_get (d : relayout) (k : string) : option string :=
  match d with
  | [] => None
  | (k', v) :: d' => if String.eqb k' k then Some v else relayout_get d' k
  end.

(** One attempt: both ends are looked up and parsed in the format [fmt];
    a missing key or a text that is not in the format raises, which ends
    the attempt. [strptime text fmt] stands for Python's
    [datetime.datetime.strptime]. *)
Definition parse_range (strptime : string -> string -> option datetime)
    (d : relayout) (fmt : string) : option (datetime * datetime) :=
  match relayout_get d "xaxis.range[0]" with
  | Some lo =>
      match strptime lo fmt with
      | Some x_min =>
          match relayout_get d "xaxis.range[1]" with
          | Some hi =>
              match strptime hi fmt with
              | Some x_max => Some (x_min, x_max)
              | None => None
              end
          | None => None
          end
      | None => None
      end
  | None => None
  end.

(** The nested [try] blocks: the first format under which the attempt
    succeeds. *)
Fixpoint first_range (strptime : string -> string -> option datetime)
    (d : relayout) (formats : list string) : option (datetime * datetime) :=
  match formats with
  | [] => None
  | fmt :: formats' =>
      match parse_range strptime d fmt with
      | Some w => Some w
      | None => first_range strptime d formats'
      end
  end.

(** The range the two charts are drawn on: [None] for the default one,
    which is also what the outer [except] falls back to. *)
Definition requested_range (strptime : string -> string -> option datetime)
    (relayoutdata : option relayout) : option (datetime * datetime) :=
  match relayoutdata with
  | Some d =>
      match relayout_get d "xaxis.range[0]" with
      | Some _ => first_range strptime d RANGE_FORMATS
      | None => None
      end
  | None => None
  end.

(** [filter_other_plots], on the frame [weather_dicts_to_df] returns. The
    four clock readings are those of the two charts' default ranges. *)
Definition filter_other_plots (sunrise sunset : datetime -> datetime)
    (strptime : string -> string -> option datetime)
    (relayoutdata : option relayout) (weather_df : list weather_row)
    (now1 now2 now3 now4 : datetime)
    : option wind_figure * option rain_figure :=
  let w := requested_range strptime relayoutdata in
  (make_wind_fig sunrise sunset weather_df
     (option_map fst w) (option_map snd w) now1 now2,
   make_rain_fig sunrise sunset weather_df
     (option_map fst w) (option_map snd w) now3 now4).

(** ** Today's high and low: [query_high_low] *)

(** [midnight_today] is [now().replace(hour=0, minute=0, second=0)]; the
    rows counted are those of the last 4000 whose local timestamp is not
    before it. The three aggregates are null when no row is counted. *)
Definition query_high_low (convert_time_zone : datetime -> datetime)
    (now : datetime) (log : option (list observation))
    : option (cell * cell * cell) :=
  match log with
  | None => None
  | Some rows =>
      let midnight_today := replace_hms now 0 0 0 in
      let today :=
        filter (fun r => match datect convert_time_zone r with
                         | Some t => midnight_today <=? t
                         | None => false
                         end)
               (last_4000 rows) in
      Some (col_max (map tempf today), col_min (map tempf today),
            col_max (map windspeedmph today))
  end.

(** ** The ingest endpoint and the current conditions *)

Module Station.

(** The query parameters of a station report that reach the log
    ([stationtype], [PASSKEY] and [batt_co2] do not). *)
Record report := {
  r_dateutc : string;
  r_tempinf : float;
  r_humidityin : float;
  r_baromrelin : float;
  r_baromabsin : float;
  r_tempf : float;
  r_humidity : float;
  r_winddir : float;
  r_windspeedmph : float;
  r_windgustmph : float;
  r_maxdailygust : float;
  r_hourlyrainin : float;
  r_eventrainin : float;
  r_dailyrainin : float;
  r_weeklyrainin : float;
  r_monthlyrainin : float;
  r_totalrainin : float;
  r_solarradiation : float;
  r_uv : float
}.

(** A row of the observation log, column by column as the endpoint writes
    it and as polars reads it back: a cell is null where the file has no
    value. The log is modelled by its rows, so that a value written to it
    is the value read from it. *)
Record row := {
  id : cell;
  dateutc : string;
  tempinf : option float;
  humidityin : option float;
  baromrelin : option float;
  baromabsin : option float;
  tempf : option float;
  humidity : option float;
  dew_point : option float;
  winddir : option float;
  windspeedmph : option float;
  windgustmph : option float;
  maxdailygust : option float;
  hourlyrainin : option float;
  eventrainin : option float;
  dailyrainin : option float;
  weeklyrainin : option float;
  monthlyrainin : option float;
  totalrainin : option float;
  solarradiation : option float;
  uv : option float
}.

(** [get_dew_point_f] on binary64 floats, as Python evaluates it,
    operation by operation, with [numpy.log] as a parameter. The first
    division is between Python floats and raises [ZeroDivisionError] on a
    zero divisor ([None]); the later ones involve the numpy scalar [np.log]
    returns and follow IEEE 754. *)
Definition get_dew_point_f (np_log : float -> float)
    (t_air_f rel_humidity : float) : option float :=
  let t_air_c := ((t_air_f - 32) * 5 / 9)%float in
  let A := 17.27%float in
  let B := 237.7%float in
  if (B + t_air_c =? 0)%float then None
  else
    let alpha :=
      (((A * t_air_c) / (B + t_air_c)) + np_log (rel_humidity / 100.0))%float in
    let dp_c := ((B * alpha) / (A - alpha))%float in
    let dp_f := ((dp_c * 9 / 5) + 32)%float in
    Some dp_f.

(** [select(["id"]).max()]: null on a log without an id. *)
Definition max_id (log : list row) : cell := col_max (map id log).

(** The row [add_observation] writes. *)
Definition new_row (row_id : Q) (dew_point : float) (rep : report) : row :=
  {| id := Some row_id;
     dateutc := r_dateutc rep;
     tempinf := Some (r_tempinf rep);
     humidityin := Some (r_humidityin rep);
     baromrelin := Some (r_baromrelin rep);
     baromabsin := Some (r_baromabsin rep);
     tempf := Some (r_tempf rep);
     humidity := Some (r_humidity rep);
     dew_point := Some dew_point;
     winddir := Some (r_winddir rep);
     windspeedmph := Some (r_windspeedmph rep);
     windgustmph := Some (r_windgustmph rep);
     maxdailygust := Some (r_maxdailygust rep);
     hourlyrainin := Some (r_hourlyrainin rep);
     eventrainin := Some (r_eventrainin rep);
     dailyrainin := Some (r_dailyrainin rep);
     weeklyrainin := Some (r_weeklyrainin rep);
     monthlyrainin := Some (r_monthlyrainin rep);
     totalrainin := Some (r_totalrainin rep);
     solarradiation := Some (r_solarradiation rep);
     uv := Some (r_uv rep) |}.

(** [add_observation]: the log after the request and the response, or
    [None] when the request fails with an exception and the log is left as
    it was (the dew point divides by zero, or the log has no id, so that
    its largest id is null and adding one to it raises). *)
Definition add_observation (np_log : float -> float) (log : list row)
    (rep : report) : option (list row * string) :=
  match get_dew_point_f np_log (r_tempf rep) (r_humidity rep) with
  | Some dew_point =>
      match max_id log with
      | Some m =>
          let row_id := (m + 1)%Q in
          Some (log ++ [new_row row_id dew_point rep], r_dateutc rep)
      | None => None
      end
  | None => None
  end.

(** [filter(pl.col("id") == pl.col("id").max())]: a null id is not equal
    to anything. *)
Definition has_id (m : Q) (r : row) : bool :=
  match id r with
  | Some i => Qeq_bool i m
  | None => false
  end.

(** [query_most_recent_data]: the nine values of the first row whose id is
    the largest; [None] on a log that is missing or has no such row
    (indexing the empty frame raises). *)
Definition query_most_recent_data (log : option (list row))
    : option (option float * option float * option float * option float
              * option float * option float * option float * option float
              * option float) :=
  match log with
  | None => None
  | Some rows =>
      match max_id rows with
      | Some m =>
          match filter (has_id m) rows with
          | r :: _ =>
              Some (tempf r, windspeedmph r, winddir r, humidity r,
                    windgustmph r, baromrelin r, dailyrainin r, uv r,
                    solarradiation r)
          | [] => None
          end
      | None => None
      end
  end.

End Station.

(** ** The forecast task: [make_forecast_frames], [add_new_predictions]
    and the script *)

Module NWS.

(** A period of the response, as the data frame built from it with
    [NWS_REQUEST_SCHEMA] holds it, the two structs unnested to their
    [value]. *)
Record period := {
  number : Z;
  startTime : string;
  endTime : string;
  isDaytime : bool;
  temperature : Z;
  probabilityOfPrecipitation : option Z;
  dewpoint : option float;
  windSpeed : string;
  windDirection : string;
  icon : string;
  shortForecast : string
}.

(** What the script reads of the response. *)
Record response := {
  status_code : Z;
  updated : string;
  periods : list period
}.

End NWS.

Module Frame.

(** A row of [NWS_df]: the columns transformed in place, the update time
    of the forecast, and in [texts] the two text columns with the ids the
    joins found for them. *)
Record row := {
  number : Z;
  startTime : option datetime;
  endTime : option datetime;
  isDaytime : bool;
  temperature : Z;
  probabilityOfPrecipitation : option Z;
  dewpoint : option Z;
  windSpeed : option Z;
  windDirection : option Z;
  forecast_updated_time : option datetime;
  texts : nws_period
}.

End Frame.

Module Log.

(** A row of the forecast log as the task writes it. *)
Record prediction := {
  id : cell;
  number : Z;
  startTime : option datetime;
  endTime : option datetime;
  isDaytime : bool;
  temperature : Z;
  probabilityOfPrecipitation : option Z;
  dewpoint : option Z;
  windSpeed : option Z;
  windDirection : option Z;
  forecast_updated_time : option datetime;
  forecast_descriptions_id : option Z;
  icon_id : option Z
}.

End Log.

Module Forecast.

Definition WIND_DIR_REPLACE_DICT : list (string * Z) :=
  [("N", 0); ("NW", 315); ("W", 270); ("SW", 225);
   ("S", 180); ("SE", 135); ("E", 90); ("NE", 45)]%string.

(** [map_dict]: null for a key the dictionary does not have. *)
Fixpoint map_dict (d : list (string * Z)) (k : string) : option Z :=
  match d with
  | [] => None
  | (k', v) :: d' => if String.eqb k' k then Some v else map_dict d' k
  end.

(** [str.split(" ").list.first()] *)
Fixpoint first_word (s : string) : string :=
  match s with
  | EmptyString => EmptyString
  | String c s' =>
      if Ascii.eqb c " " then EmptyString else String c (first_word s')
  end.

(** [cast(pl.Int8)] of an integer: the cast fails on a value out of
    range. *)
Definition cast_Int8 (v : Z) : option Z :=
  if (-128 <=? v) && (v <=? 127) then Some v else None.

(** A cast on a nullable cell: null stays null, and the cast fails when it
    fails on the value. *)
Definition cast_cell {A : Type} (cast : A -> option Z) (o : option A)
    : option (option Z) :=
  match o with
  | None => Some None
  | Some v => option_map Some (cast v)
  end.

(** Collecting a frame whose rows are computed by [f]: an exception when
    [f] fails on a row. *)
Fixpoint collect {A B : Type} (f : A -> option B) (l : list A)
    : option (list B) :=
  match l with
  | [] => Some []
  | a :: l' =>
      match f a, collect f l' with
      | Some b, Some bs => Some (b :: bs)
      | _, _ => None
      end
  end.

(** [join(table, on=text, how="left")], for one row of the left frame: the
    ids of the rows of the table with its text, a single null when there
    is none. *)
Definition join_left (text : string) (table : lookup_table)
    : list (option Z) :=
  match filter (fun e => String.eqb (snd e) text) table with
  | [] => [None]
  | matches => map (fun e => Some (fst e)) matches
  end.

(** The three files of the task; a missing file is an empty frame. *)
Record files := {
  predictions : list Log.prediction;
  descriptions : lookup_table;
  icons : lookup_table
}.

Section Task.

(** polars [str.strptime(pl.Datetime, "%Y-%m-%dT%H:%M:%S%z", strict=False)]:
    the UTC instant, null when the string does not parse. *)
Variable strptime : string -> option datetime.

(** [datetime.datetime.fromisoformat], as a UTC instant; [None] when it
    raises, or returns a naive datetime so that the comparison with the
    log's aware one raises. *)
Variable fromisoformat : string -> option datetime.

(** [cast(pl.Int16)] of a string and of a float; [None] when the cast
    fails and the query raises. *)
Variable cast_Int16 : string -> option Z.
Variable float_cast_Int16 : float -> option Z.

(** The [with_columns] step on one period; the ids are null until the
    joins. *)
Definition with_columns (updated : string) (p : NWS.period)
    : option Frame.row :=
  match cast_Int16 (first_word (NWS.windSpeed p)),
        cast_cell float_cast_Int16
          (option_map (fun c => (c * 9 / 5 + 32)%float) (NWS.dewpoint p)),
        cast_cell cast_Int8 (NWS.probabilityOfPrecipitation p) with
  | Some windSpeed, Some dewpoint, Some probabilityOfPrecipitation =>
      Some {| Frame.number := NWS.number p;
              Frame.startTime := strptime (NWS.startTime p);
              Frame.endTime := strptime (NWS.endTime p);
              Frame.isDaytime := NWS.isDaytime p;
              Frame.temperature := NWS.temperature p;
              Frame.probabilityOfPrecipitation := probabilityOfPrecipitation;
              Frame.dewpoint := dewpoint;
              Frame.windSpeed := Some windSpeed;
              Frame.windDirection :=
                map_dict WIND_DIR_REPLACE_DICT (NWS.windDirection p);
              Frame.forecast_updated_time := strptime updated;
              Frame.texts :=
                {| shortForecast := NWS.shortForecast p;
                   forecast_descriptions_id := None;
                   icon := NWS.icon p;
                   icon_id := None |} |}
  | _, _, _ => None
  end.

(** A row with the ids of one match of each join. *)
Definition joined (r : Frame.row) (d i : option Z) : Frame.row :=
  {| Frame.number := Frame.number r;
     Frame.startTime := Frame.startTime r;
     Frame.endTime := Frame.endTime r;
     Frame.isDaytime := Frame.isDaytime r;
     Frame.temperature := Frame.temperature r;
     Frame.probabilityOfPrecipitation := Frame.probabilityOfPrecipitation r;
     Frame.dewpoint := Frame.dewpoint r;
     Frame.windSpeed := Frame.windSpeed r;
     Frame.windDirection := Frame.windDirection r;
     Frame.forecast_updated_time := Frame.forecast_updated_time r;
     Frame.texts :=
       {| shortForecast := shortForecast (Frame.texts r);
          forecast_descriptions_id := d;
          icon := icon (Frame.texts r);
          icon_id := i |} |}.

(** The two left joins on one row: one row per pair of matches. *)
Definition join_tables (forecast_descriptions forecast_icons : lookup_table)
    (r : Frame.row) : list Frame.row :=
  flat_map
    (fun d =>
       map (fun i => joined r d i)
           (join_left (icon (Frame.texts r)) forecast_icons))
    (join_left (shortForecast (Frame.texts r)) forecast_descriptions).

(** [make_forecast_frames], on the two lookup tables as the files have
    them; [None] when collecting the query raises. *)
Definition make_forecast_frames
    (forecast_descriptions forecast_icons : lookup_table)
    (NWS_r : NWS.response) : option (list Frame.row) :=
  match collect (with_columns (NWS.updated NWS_r)) (NWS.periods NWS_r) with
  | Some rows =>
      Some (flat_map (join_tables forecast_descriptions forecast_icons) rows)
  | None => None
  end.

(** The row [add_new_predictions] selects, with its id. *)
Definition to_prediction (max_prediction_id : Q) (r : Frame.row)
    : Log.prediction :=
  {| Log.id := Some (inject_Z (Frame.number r) + max_prediction_id)%Q;
     Log.number := Frame.number r;
     Log.startTime := Frame.startTime r;
     Log.endTime := Frame.endTime r;
     Log.isDaytime := Frame.isDaytime r;
     Log.temperature := Frame.temperature r;
     Log.probabilityOfPrecipitation := Frame.probabilityOfPrecipitation r;
     Log.dewpoint := Frame.dewpoint r;
     Log.windSpeed := Frame.windSpeed r;
     Log.windDirection := Frame.windDirection r;
     Log.forecast_updated_time := Frame.forecast_updated_time r;
     Log.forecast_descriptions_id := forecast_descriptions_id (Frame.texts r);
     Log.icon_id := icon_id (Frame.texts r) |}.

(** [add_new_predictions]: the log it writes. The two frames have the same
    columns, so that the concatenation goes through. *)
Definition add_new_predictions (new_NWS_df : list Frame.row)
    (forecast_predictions : list Log.prediction) : list Log.prediction :=
  let max_prediction_id :=
    match col_max (map Log.id forecast_predictions) with
    | Some m => m
    | None => 0%Q
    end in
  forecast_predictions ++ map (to_prediction max_prediction_id) new_NWS_df.

(** A lookup table after [add_new_forecast_descriptions] or
    [add_new_forecast_icons]: written when the function returns [True]. *)
Definition written (table : lookup_table) (added : option lookup_table)
    : lookup_table :=
  match added with
  | Some table' => table'
  | None => table
  end.

(** The largest update time of the log, with the script's default for a
    log that has none: a year before the clock reading. *)
Definition max_forecast_updated_time_in_CSV (utcnow : datetime)
    (forecast_predictions : list Log.prediction) : datetime :=
  match Zcol_max (filter_map Log.forecast_updated_time
                    forecast_predictions) with
  | Some m => m
  | None => utcnow - timedelta 365 0
  end.

(** The branch of the script that stores a forecast: the frames, the two
    lookup tables, the frames again when a table has changed, and the
    log. An exception ends it with the files as they are at that
    point. *)
Definition store (NWS_r : NWS.response) (st : files) : files :=
  match make_forecast_frames (descriptions st) (icons st) NWS_r with
  | None => st
  | Some new_NWS_df =>
      let added_forecast_descriptions :=
        add_new_forecast_descriptions
          (map Frame.texts new_NWS_df) (descriptions st) in
      let added_icons :=
        add_new_forecast_icons (map Frame.texts new_NWS_df) (icons st) in
      let forecast_descriptions :=
        written (descriptions st) added_forecast_descriptions in
      let forecast_icons := written (icons st) added_icons in
      let rerun :=
        negb (is_null added_forecast_descriptions)
        || negb (is_null added_icons) in
      match (if rerun
             then make_forecast_frames forecast_descriptions forecast_icons
                    NWS_r
             else Some new_NWS_df) with
      | Some new_NWS_df =>
          {| predictions := add_new_predictions new_NWS_df (predictions st);
             descriptions := forecast_descriptions;
             icons := forecast_icons |}
      | None =>
          {| predictions := predictions st;
             descriptions := forecast_descriptions;
             icons := forecast_icons |}
      end
  end.

(** The script: the files after one run, with the clock reading [utcnow]
    and the response of the request ([None] when the request or the
    decoding of its body raises). *)
Definition task (utcnow : datetime) (request : option NWS.response)
    (st : files) : files :=
  match request with
  | None => st
  | Some NWS_r =>
      if NWS.status_code NWS_r =? 200 then
        match fromisoformat (NWS.updated NWS_r) with
        | None => st
        | Some forecast_updated_time =>
            if forecast_updated_time
               <=? max_forecast_updated_time_in_CSV utcnow (predictions st)
            then st
            else store NWS_r st
        end
      else st
  end.

End Task.

End Forecast.

(** ** Vocabulary of the statements about annotations *)

(** [v] is the extreme value of its kind against the cell value [x]: an
    upper bound for the two highs, a lower bound for the low. *)
Definition extreme (a : anno_type) (v x : Q) : Prop :=
  match a with
  | Low_Temp => (v <= x)%Q
  | High_Temp | High_Windspeed => (x <= v)%Q
  end.

(** The point one row of [high_low_df] contributes to the annotations of
    type [a]: none when the extremum is null or [this_df] is empty. *)
Definition day_point (weather_df : list weather_row) (a : anno_type)
    (row : high_low) : list (datetime * Q) :=
  match hl_value a row with
  | Some v =>
      match this_df weather_df row a v with
      | r0 :: _ => [(DATE r0, v)]
      | [] => []
      end
  | None => []
  end.

(** Every non-null extremum of the row is the value of a row of its day. *)
Definition attained (weather_df : list weather_row) (row : high_low) : Prop :=
  forall a v, hl_value a row = Some v -> this_df weather_df row a v <> [].

(** ** Vocabulary of the statements about shading *)

(** The instant [t] lies under the shape: between the two abscissas of a
    rectangle, in whichever order they come. *)
Definition covers (s : shape) (t : datetime) : Prop :=
  match s with
  | vrect x0 x1 => Z.min x0 x1 <= t <= Z.max x0 x1
  | vline _ _ => False
  end.

(** The instant [t] is in the night of [day], as the loop sees it: from
    [AM_midnight] to sunrise or from sunset to [PM_midnight]. *)
Definition night_of (sunrise sunset : datetime -> datetime)
    (day t : datetime) : Prop :=
  replace_hms day 0 0 0 <= t <= sunrise day
  \/ sunset day <= t <= replace_hms day 23 59 59.

(** Sunrise and sunset fall in this order within [day]. *)
Definition sun_in_day (sunrise sunset : datetime -> datetime)
    (day : datetime) : Prop :=
  replace_hms day 0 0 0 <= sunrise day
  /\ sunrise day <= sunset day
  /\ sunset day <= replace_hms day 23 59 59.

(** ** Vocabulary of the statements about the wind direction *)

Module Angle.

Local Open Scope R_scope.

(** The angle in (-pi, pi] of the vector [(x, y)]; 0 for the null
    vector. *)
Definition arctan2 (y x : R) : R :=
  if Rlt_dec 0 x then atan (y / x)
  else if Rlt_dec x 0 then
         (if Rle_dec 0 y then atan (y / x) + PI else atan (y / x) - PI)
  else if Rlt_dec 0 y then PI / 2
  else if Rlt_dec y 0 then - (PI / 2)
  else 0.

Definition sum (l : list R) : R := fold_right Rplus 0 l.

(** The direction of a row in degrees (0 when it has none), and the sum of
    the unit vectors of the directions of a bucket, by its two
    components. *)
Definition bearing (r : weather_row) : R :=
  match WIND_DIRECTION r with
  | Some d => Q2R d
  | None => 0
  end.

Definition resultant_cos (g : list weather_row) : R :=
  sum (map (fun r => cos (bearing r * (PI / 180))) g).

Definition resultant_sin (g : list weather_row) : R :=
  sum (map (fun r => sin (bearing r * (PI / 180))) g).

(** The linear mean, for comparison. *)
Definition linear_mean (l : list R) : R := sum l / INR (List.length l).

(** The functions of [lib] are accurate to [e] on the arguments of the
    aggregation: directions from 0 to 360 degrees, radians and
    intermediate results up to 100 in absolute value. [numpy.arctan2] is
    compared away from the null vector, and may return -pi in place of pi
    for a vector on the negative axis (when its ordinate is the float -0).
    A float sum of [n] terms of absolute value at most 2 has at most [n]
    rounding errors on partial sums of at most [2 n]. Single precision
    meets these bounds with [e = 2^-18], the error of rounding a number
    between 64 and 100; they are absolute, so that they hold of results
    near zero as well. *)
Record accurate (e : R) (lib : Circular.numerics) : Prop := {
  radians_accurate :
    forall d, 0 <= d <= 360 ->
      Rabs (Circular.radians lib d - d * (PI / 180)) <= e;
  cast_Float32_accurate :
    forall x, Rabs x <= 100 -> Rabs (Circular.cast_Float32 lib x - x) <= e;
  pi_array_accurate : Rabs (Circular.pi_array lib - PI) <= e;
  fl_array_accurate :
    forall x, Rabs x <= 100 -> Rabs (Circular.fl_array lib x - x) <= e;
  np_sin_accurate :
    forall x, Rabs x <= 100 -> Rabs (Circular.np_sin lib x - sin x) <= e;
  np_cos_accurate :
    forall x, Rabs x <= 100 -> Rabs (Circular.np_cos lib x - cos x) <= e;
  np_sum_accurate :
    forall l, (forall x, In x l -> Rabs x <= 2) ->
      Rabs (Circular.np_sum lib l - sum l)
      <= e * (INR (List.length l) * INR (List.length l));
  np_arctan2_accurate :
    forall y x, x <> 0 \/ y <> 0 ->
      Rabs (Circular.np_arctan2 lib y x - arctan2 y x) <= e
      \/ (y = 0 /\ x < 0 /\ Rabs (Circular.np_arctan2 lib y x - - PI) <= e);
  pi_scalar_accurate : Rabs (Circular.pi_scalar lib - PI) <= e;
  fl_scalar_accurate :
    forall x, Rabs x <= 100 -> Rabs (Circular.fl_scalar lib x - x) <= e;
  degrees_accurate :
    forall x, Rabs x <= 10 ->
      Rabs (Circular.degrees lib x - x * (180 / PI)) <= 64 * e
}.

End Angle.

(** ** Sample data

    Rows used where a statement is evaluated on a concrete input. Wall-clock
    times are US/Central standard time (UTC-6, January). *)

Definition central_standard_time (t : datetime) : datetime :=
  t - 6 * us_per_hour.

(** An observed row of the merged series with the given timestamp,
    temperature and wind speed. *)
Definition observed (t : datetime) (temp wind : Q) : weather_row :=
  {| DATE := t; TEMP := Some temp; DEWPOINT := Some (temp - 10)%Q;
     WIND_SPEED := Some wind; WIND_DIRECTION := Some 180%Q;
     GUST_SPEED := Some wind; RAIN_HOURLY := Some 0%Q;
     RAIN_DAILIY := Some 0%Q; RAIN_EVENT := Some 0%Q;
     PRECIP_PROB := None; PREDICTION := None |}.

(** A forecast row of the merged series. *)
Definition predicted (t : datetime) (temp wind : Q) : weather_row :=
  {| DATE := t; TEMP := Some temp; DEWPOINT := Some (temp - 10)%Q;
     WIND_SPEED := Some wind; WIND_DIRECTION := Some 180%Q;
     GUST_SPEED := None; RAIN_HOURLY := None;
     RAIN_DAILIY := None; RAIN_EVENT := None;
     PRECIP_PROB := Some 20; PREDICTION := Some true |}.

(** An observed row with the given wind direction, in degrees. *)
Definition blowing (t : datetime) (direction : Q) : weather_row :=
  {| DATE := t; TEMP := Some 30%Q; DEWPOINT := Some 20%Q;
     WIND_SPEED := Some 5%Q; WIND_DIRECTION := Some direction;
     GUST_SPEED := Some 7%Q; RAIN_HOURLY := Some 0%Q;
     RAIN_DAILIY := Some 0%Q; RAIN_EVENT := Some 0%Q;
     PRECIP_PROB := None; PREDICTION := None |}.

(** Sunrise at 07:00 and sunset at 17:00, every day. *)
Definition sunrise_at_7 (day : datetime) : datetime := replace_hmsu day 7 0 0 0.
Definition sunset_at_17 (day : datetime) : datetime := replace_hmsu day 17 0 0 0.

(** A merged series of one winter day, as the readers leave it: three
    observed rows, newest first, then two forecast rows. *)
Definition winter_day : list weather_row :=
  [observed (make 2024 1 10 12 0 0 0) 30 5;
   observed (make 2024 1 10 11 0 0 0) 34 9;
   observed (make 2024 1 10 10 0 0 0) 29 7;
   predicted (make 2024 1 10 13 0 0 0) 33 6;
   predicted (make 2024 1 10 14 0 0 0) 31 4].

(** The clock reading that goes with it. *)
Definition winter_noon : datetime := make 2024 1 10 12 5 0 0.

(** A stand-in for Python's [strptime] on the four formats of
    [RANGE_FORMATS]: zero-padded fields, and one to six digits of
    fraction where the format has [%f]. *)
Fixpoint fraction (n : nat) (acc : Z) (s : string) : option Z :=
  match s, n with
  | EmptyString, _ => Some (acc * 10 ^ Z.of_nat n)
  | String c s', S n' =>
      match Strptime.digit c with
      | Some d => fraction n' (10 * acc + d) s'
      | None => None
      end
  | String _ _, O => None
  end.

Definition python_strptime (text fmt : string) : option datetime :=
  let with_fraction sep :=
    match Strptime.strptime sep (substring 0 19 text),
          substring 19 (String.length text - 19) text with
    | Some t, String "." (String c frac) =>
        option_map (Z.add t) (fraction 6 0 (String c frac))
    | _, _ => None
    end in
  if String.eqb fmt "%Y-%m-%d %H:%M:%S.%f" then with_fraction " "%char
  else if String.eqb fmt "%Y-%m-%dT%H:%M:%S.%f" then with_fraction "T"%char
  else if String.eqb fmt "%Y-%m-%dT%H:%M:%S" then Strptime.strptime "T" text
  else if String.eqb fmt "%Y-%m-%d %H:%M:%S" then Strptime.strptime " " text
  else None.

(** Two rows of an observation log: a well-formed one, and one whose
    timestamp is not in the fixed format. *)
Definition logged (n : Q) (stamp : string) (temp : Q) : observation :=
  {| id := n; dateutc := stamp; tempf := Some temp;
     dewpointf := Some (temp - 10)%Q; winddir := Some 180%Q;
     windspeedmph := Some 5%Q; windgustmph := Some 7%Q;
     hourlyrainin := Some 0%Q; eventrainin := Some 0%Q;
     dailyrainin := Some 0%Q |}.

(** A row of a forecast log. *)
Definition forecast (start updated : datetime) (temp : Q) : prediction :=
  {| startTime := start; temperature := Some temp;
     probabilityOfPrecipitation := Some 20; dewpoint := Some (temp - 10)%Q;
     windSpeed := Some 5%Q; windDirection := Some 180%Q;
     forecast_updated_time := updated |}.

(** Stand-ins for the library functions of the forecast task: time stamps
    with the offset [+00:00], unsigned decimal numbers, and the truncation
    of a finite float; the two casts fail out of the range of [Int16]. *)
Definition iso_utc (s : string) : option datetime :=
  if String.eqb (substring 19 6 s) "+00:00" && Nat.eqb (String.length s) 25
  then Strptime.strptime "T" (substring 0 19 s)
  else None.

(** A stand-in for [datetime.fromisoformat]: it reads the same time stamps,
    and also those with a space between the date and the time, which the
    format of the polars parser does not admit. *)
Definition fromisoformat_utc (s : string) : option datetime :=
  if String.eqb (substring 19 6 s) "+00:00" && Nat.eqb (String.length s) 25
  then match Strptime.strptime "T" (substring 0 19 s) with
       | Some t => Some t
       | None => Strptime.strptime " " (substring 0 19 s)
       end
  else None.

Fixpoint decimal (acc : Z) (s : string) : option Z :=
  match s with
  | EmptyString => Some acc
  | String c s' =>
      match Strptime.digit c with
      | Some d => decimal (10 * acc + d) s'
      | None => None
      end
  end.

Definition decimal_Int16 (s : string) : option Z :=
  match s with
  | EmptyString => None
  | String _ _ =>
      match decimal 0 s with
      | Some v => if v <=? 32767 then Some v else None
      | None => None
      end
  end.

Definition truncated_Int16 (f : float) : option Z :=
  match Prim2SF f with
  | S754_zero _ => Some 0
  | S754_finite s m e =>
      let magnitude :=
        if 0 <=? e then Z.pos m * 2 ^ e else Z.pos m / 2 ^ (- e) in
      let v := if s then - magnitude else magnitude in
      if (-32768 <=? v) && (v <=? 32767) then Some v else None
  | S754_infinity _ | S754_nan => None
  end.

(** A response of the service with three hourly periods, two of them with
    the same description and icon, and the files of a task that has stored
    one description so far. *)
Definition hourly (n : Z) (start stop : string) (temp : Z) (dew : float)
    (wind direction picture short : string) : NWS.period :=
  {| NWS.number := n;
     NWS.startTime := start;
     NWS.endTime := stop;
     NWS.isDaytime := true;
     NWS.temperature := temp;
     NWS.probabilityOfPrecipitation := Some 20;
     NWS.dewpoint := Some dew;
     NWS.windSpeed := wind;
     NWS.windDirection := direction;
     NWS.icon := picture;
     NWS.shortForecast := short |}.

Definition three_hours : NWS.response :=
  {| NWS.status_code := 200;
     NWS.updated := "2024-01-10T11:30:00+00:00";
     NWS.periods :=
       [hourly 1 "2024-01-10T12:00:00+00:00" "2024-01-10T13:00:00+00:00"
          31 (-5)%float "5 mph" "NW" "snow.png" "Snow";
        hourly 2 "2024-01-10T13:00:00+00:00" "2024-01-10T14:00:00+00:00"
          33 (-4.5)%float "5 to 10 mph" "NNW" "sun.png" "Sunny";
        hourly 3 "2024-01-10T14:00:00+00:00" "2024-01-10T15:00:00+00:00"
          32 (-5)%float "10 mph" "N" "snow.png" "Snow"]%string |}.

Definition one_description : Forecast.files :=
  {| Forecast.predictions := [];
     Forecast.descriptions := [(0, "Sunny"%string)];
     Forecast.icons := [] |}.

(** A stand-in for [numpy.log] where only its value at 1.0 is read:
    [log(1.0)] is [0.0]. *)
Definition log_of_one (x : float) : float :=
  if (x =? 1)%float then 0%float else nan.




(** A report of the station at saturation, and a log with one earlier
    row. *)
Definition saturated_report : Station.report :=
  {| Station.r_dateutc := "2024-01-10 18:00:00";
     Station.r_tempinf := 68;
     Station.r_humidityin := 40;
     Station.r_baromrelin := 29.9;
     Station.r_baromabsin := 29.4;
     Station.r_tempf := 18;
     Station.r_humidity := 100;
     Station.r_winddir := 350;
     Station.r_windspeedmph := 5;
     Station.r_windgustmph := 9;
     Station.r_maxdailygust := 12;
     Station.r_hourlyrainin := 0;
     Station.r_eventrainin := 0;
     Station.r_dailyrainin := 0;
     Station.r_weeklyrainin := 0;
     Station.r_monthlyrainin := 0.5;
     Station.r_totalrainin := 20;
     Station.r_solarradiation := 100;
     Station.r_uv := 1 |}.

Definition one_row_log : list Station.row :=
  [Station.new_row 41 17.5
     {| Station.r_dateutc := "2024-01-10 17:59:00";
        Station.r_tempinf := 68;
        Station.r_humidityin := 40;
        Station.r_baromrelin := 29.9;
        Station.r_baromabsin := 29.4;
        Station.r_tempf := 17.5;
        Station.r_humidity := 100;
        Station.r_winddir := 340;
        Station.r_windspeedmph := 4;
        Station.r_windgustmph := 9;
        Station.r_maxdailygust := 12;
        Station.r_hourlyrainin := 0;
        Station.r_eventrainin := 0;
        Station.r_dailyrainin := 0;
        Station.r_weeklyrainin := 0;
        Station.r_monthlyrainin := 0.5;
        Station.r_totalrainin := 20;
        Station.r_solarradiation := 90;
        Station.r_uv := 1 |}].

(** The functions of the aggregation without rounding: the exact ones. *)
Definition exact_numerics : Circular.numerics :=
  {| Circular.radians := fun d => (d * (PI / 180))%R;
     Circular.cast_Float32 := fun x => x;
     Circular.pi_array := PI;
     Circular.fl_array := fun x => x;
     Circular.np_sin := sin;
     Circular.np_cos := cos;
     Circular.np_sum := Angle.sum;
     Circular.np_arctan2 := Angle.arctan2;
     Circular.pi_scalar := PI;
     Circular.fl_scalar := fun x => x;
     Circular.degrees := fun x => (x * (180 / PI))%R |}.

(** A forecast row whose wind is none of the eight of
    [WIND_DIR_REPLACE_DICT] ("NNW", say): its direction is null. *)
Definition intermediate_wind (t : datetime) : weather_row :=
  {| DATE := t; TEMP := Some 33%Q; DEWPOINT := Some 23%Q;
     WIND_SPEED := Some 6%Q; WIND_DIRECTION := None;
     GUST_SPEED := None; RAIN_HOURLY := None;
     RAIN_DAILIY := None; RAIN_EVENT := None;
     PRECIP_PROB := Some 20; PREDICTION := Some true |}.

(** * Properties *)

(** ** The embedding at work *)

Example make_epoch : make 1970 1 1 0 0 0 0 = 0.
Proof. reflexivity. Qed.

Example civil_leap_day :
  civil_from_days (days_from_civil 2024 2 29) = (2024, 2, 29).
Proof. reflexivity. Qed.

Example dt_day_of_stamp : dt_day (make 2024 1 10 11 30 0 0) = 10.
Proof. reflexivity. Qed.

Example strptime_fixed_format :
  Strptime.strptime " " "2024-01-10 18:00:00"
  = Some (make 2024 1 10 18 0 0 0).
Proof. reflexivity. Qed.

Example strptime_not_a_date :
  Strptime.strptime " " "2024-02-30 18:00:00" = None.
Proof. reflexivity. Qed.

Example replace_keeps_microsecond :
  replace_hms (make 2024 1 10 12 34 56 789) 0 0 1
  = make 2024 1 10 0 0 1 789.
Proof. reflexivity. Qed.

Example round1_half : round1 (1205 # 100) = (121 # 10)%Q.
Proof. reflexivity. Qed.

(** The end-to-end case of the specification: five observations and one
    batch of three future periods give eight rows, five with a null flag and
    three with [true]. The clock reads 2024-01-10 18:05:00 UTC. *)
Example merged_five_and_three :
  let now := make 2024 1 10 18 5 0 0 in
  let updated := make 2024 1 10 17 40 0 0 in
  let weather_df :=
    make_weather_df
      (read_weather_observations central_standard_time now
         (Some [logged 1 "2024-01-10 17:56:00" 30;
                logged 2 "2024-01-10 17:57:00" 30;
                logged 3 "2024-01-10 17:58:00" 31;
                logged 4 "2024-01-10 17:59:00" 31;
                logged 5 "2024-01-10 18:00:00" 31]))
      (read_weather_predictions central_standard_time now now
         (Some [forecast (make 2024 1 10 19 0 0 0) updated 32;
                forecast (make 2024 1 10 20 0 0 0) updated 33;
                forecast (make 2024 1 10 21 0 0 0) updated 33])) in
  option_map (map PREDICTION) weather_df
  = Some [None; None; None; None; None; Some true; Some true; Some true].
Proof. vm_compute. reflexivity. Qed.

(** ** Lists, sorting and columns *)

Lemma insert_asc_perm {A : Type} (key : A -> Z) (a : A) (l : list A) :
  Permutation (insert_asc key a l) (a :: l).
Proof.
  induction l as [|b l IH]; simpl.
  - apply Permutation_refl.
  - destruct (key a <? key b).
    + apply Permutation_refl.
    + eapply perm_trans; [apply perm_skip, IH | apply perm_swap].
Qed.

Lemma sort_asc_perm {A : Type} (key : A -> Z) (l : list A) :
  Permutation (sort_asc key l) l.
Proof.
  induction l as [|a l IH]; simpl.
  - apply perm_nil.
  - eapply perm_trans; [apply insert_asc_perm | apply perm_skip, IH].
Qed.

Lemma insert_desc_perm {A : Type} (key : A -> Z) (a : A) (l : list A) :
  Permutation (insert_desc key a l) (a :: l).
Proof.
  induction l as [|b l IH]; simpl.
  - apply Permutation_refl.
  - destruct (key b <? key a).
    + apply Permutation_refl.
    + eapply perm_trans; [apply perm_skip, IH | apply perm_swap].
Qed.

Lemma sort_desc_perm {A : Type} (key : A -> Z) (l : list A) :
  Permutation (sort_desc key l) l.
Proof.
  induction l as [|a l IH]; simpl.
  - apply perm_nil.
  - eapply perm_trans; [apply insert_desc_perm | apply perm_skip, IH].
Qed.

Lemma in_filter_map {A B : Type} (f : A -> option B) (l : list A) (b : B) :
  In b (filter_map f l) <-> exists a, In a l /\ f a = Some b.
Proof.
  induction l as [|a l IH]; simpl.
  - split; [intros [] | intros (a & [] & _)].
  - destruct (f a) as [b'|] eqn:E; simpl; rewrite IH; split.
    + intros [<- | (a' & Ha & Hf)]; eauto.
    + intros (a' & [<- | Ha] & Hf); [left; congruence | eauto].
    + intros (a' & Ha & Hf); eauto.
    + intros (a' & [<- | Ha] & Hf); [congruence | eauto].
Qed.

Lemma bool_col_max_true (c : list (option bool)) :
  bool_col_max c = Some true <-> In (Some true) c.
Proof.
  induction c as [|[b|] c IH]; simpl.
  - split; [discriminate | intros []].
  - destruct (bool_col_max c) as [b'|] eqn:E.
    + split.
      * intros H. injection H as H.
        destruct b; [now left | right; apply IH; simpl in H; now subst].
      * intros [H | H]; [injection H as ->; reflexivity |].
        apply IH in H. injection H as ->. now rewrite orb_true_r.
    + split.
      * intros H; now left.
      * intros [H | H]; [assumption | apply IH in H; discriminate].
  - rewrite IH. split; [now right | intros [H | H]; [discriminate | assumption]].
Qed.

Lemma bool_col_max_null (c : list (option bool)) :
  bool_col_max c = None <-> forall o, In o c -> o = None.
Proof.
  induction c as [|[b|] c IH]; simpl.
  - split; [intros _ o [] | reflexivity].
  - split.
    + destruct (bool_col_max c); discriminate.
    + intros H. specialize (H (Some b) (or_introl eq_refl)). discriminate.
  - rewrite IH. split.
    + intros H o [<- | Ho]; auto.
    + intros H o Ho; auto.
Qed.

(** ** The merge (C2) *)

Lemma concat_diagonal_length (o : list observation_row)
    (p : list prediction_row) :
  List.length (concat_diagonal o p) = (List.length o + List.length p)%nat.
Proof.
  unfold concat_diagonal. now rewrite length_app, !length_map.
Qed.

Lemma read_weather_predictions_flag tz now1 now2 log out :
  read_weather_predictions tz now1 now2 log = Some out ->
  forall r, In r out -> p_PREDICTION r = Some true.
Proof.
  destruct log as [rows|]; [|discriminate].
  intros H r Hr. injection H as <-.
  apply (Permutation_in _ (sort_asc_perm _ _)) in Hr.
  apply in_map_iff in Hr as (f & <- & _). reflexivity.
Qed.

(** C2. Whatever the observation frame and the forecast log, reading the
    forecast and merging gives a series with as many rows as the two frames
    together (nothing is deduplicated): first the observation rows, each with
    a null [PREDICTION] and a null [PRECIP_PROB], then the forecast rows, each
    with [PREDICTION] true and null gust and rain columns; the columns the
    two frames share are carried over unchanged. *)
Theorem make_weather_df_provenance :
  forall (convert_time_zone : datetime -> datetime) (utcnow1 utcnow2 : datetime)
         (observation_df : list observation_row) (log : list prediction),
  exists predictions_df weather_df,
    read_weather_predictions convert_time_zone utcnow1 utcnow2 (Some log)
      = Some predictions_df
    /\ make_weather_df (Some observation_df) (Some predictions_df)
       = Some weather_df
    /\ List.length weather_df
       = (List.length observation_df + List.length predictions_df)%nat
    /\ (forall i o, nth_error observation_df i = Some o ->
          exists w, nth_error weather_df i = Some w
            /\ PREDICTION w = None /\ PRECIP_PROB w = None
            /\ w = of_observation_row o)
    /\ (forall i p, nth_error predictions_df i = Some p ->
          exists w,
            nth_error weather_df (List.length observation_df + i) = Some w
            /\ PREDICTION w = Some true
            /\ GUST_SPEED w = None /\ RAIN_HOURLY w = None
            /\ RAIN_DAILIY w = None /\ RAIN_EVENT w = None
            /\ w = of_prediction_row p).
Proof.
  intros tz now1 now2 o log.
  destruct (read_weather_predictions tz now1 now2 (Some log)) as [p|] eqn:E;
    [|discriminate].
  exists p, (concat_diagonal o p).
  split; [reflexivity|]. split; [reflexivity|].
  split; [apply concat_diagonal_length|]. split.
  - intros i r Hr. exists (of_observation_row r).
    split; [|repeat split].
    unfold concat_diagonal. rewrite nth_error_app1.
    + now rewrite nth_error_map, Hr.
    + rewrite length_map. apply nth_error_Some. congruence.
  - intros i r Hr. exists (of_prediction_row r).
    assert (Hin : In r p) by (eapply nth_error_In; eassumption).
    pose proof (read_weather_predictions_flag _ _ _ _ _ E r Hin) as Hflag.
    split; [|repeat split; assumption].
    unfold concat_diagonal. rewrite nth_error_app2.
    + rewrite length_map.
      replace (List.length o + i - List.length o)%nat with i by lia.
      now rewrite nth_error_map, Hr.
    + rewrite length_map. lia.
Qed.

(** ** The window filter (C4) *)

Lemma date_ordinal_shift (t d : Z) :
  date_ordinal (t + d * us_per_day) = date_ordinal t + d.
Proof. unfold date_ordinal. now rewrite Z.div_add. Qed.

Lemma microsecond_shift (t d : Z) :
  microsecond (t + d * us_per_day) = microsecond t.
Proof.
  unfold microsecond.
  change us_per_day with (86400 * us_per_second).
  rewrite Z.mul_assoc. now apply Z.mod_add.
Qed.

Lemma default_plot_start_date_eq (now : datetime) :
  default_plot_start_date now
  = (date_ordinal now - 1) * us_per_day + us_per_second + microsecond now.
Proof.
  unfold default_plot_start_date, replace_hms, timedelta.
  replace (now - (1 * us_per_day + 0 * us_per_minute))
    with (now + (-1) * us_per_day) by ring.
  rewrite date_ordinal_shift, microsecond_shift. unfold datetime. ring.
Qed.

Lemma default_plot_end_date_eq (now : datetime) :
  default_plot_end_date now
  = (date_ordinal now + 1) * us_per_day
    + (23 * us_per_hour + 59 * us_per_minute + 59 * us_per_second) + 9999.
Proof.
  unfold default_plot_end_date, replace_hmsu, timedelta.
  replace (now + (1 * us_per_day + 0 * us_per_minute))
    with (now + 1 * us_per_day) by ring.
  rewrite date_ordinal_shift. unfold datetime. ring.
Qed.

(** C4, as the code has it. With no explicit range the filter keeps, in
    table order, exactly the rows whose timestamp lies between [start] and
    [stop], both included. [stop] is tomorrow at 23:59:59.009999
    ([microsecond=9999]). [start] lies in the second that begins yesterday
    at 00:00:01: [replace] leaves the microsecond field of the clock reading
    as it is. So no row before yesterday 00:00:01 or after [stop] is
    returned, and every row from yesterday 00:00:02 to [stop] is. *)
Theorem filter_weather_df_by_date_default_range :
  forall (weather_df : list weather_row) (now1 now2 : datetime),
    let yesterday := (date_ordinal now1 - 1) * us_per_day in
    let start := yesterday + us_per_second + microsecond now1 in
    let stop :=
      (date_ordinal now2 + 1) * us_per_day
      + (23 * us_per_hour + 59 * us_per_minute + 59 * us_per_second)
      + 9999 in
    let plot_df := filter_weather_df_by_date weather_df None None now1 now2 in
    plot_df
    = filter (fun r => (start <=? DATE r) && (DATE r <=? stop)) weather_df
    /\ (forall r, In r plot_df ->
          In r weather_df
          /\ yesterday + us_per_second <= DATE r <= stop)
    /\ (forall r, In r weather_df ->
          yesterday + 2 * us_per_second <= DATE r <= stop ->
          In r plot_df)
    /\ yesterday + us_per_second <= start < yesterday + 2 * us_per_second.
Proof.
  intros weather_df now1 now2 yesterday start stop plot_df.
  assert (E : plot_df
              = filter (fun r => (start <=? DATE r) && (DATE r <=? stop))
                  weather_df).
  { unfold plot_df, filter_weather_df_by_date.
    rewrite default_plot_start_date_eq, default_plot_end_date_eq.
    reflexivity. }
  assert (M : 0 <= microsecond now1 < us_per_second)
    by (apply Z.mod_pos_bound; reflexivity).
  assert (S : yesterday + us_per_second <= start
              < yesterday + 2 * us_per_second) by (unfold start; lia).
  split; [exact E|]. split; [|split; [|exact S]].
  - intros r. rewrite E, filter_In, andb_true_iff, !Z.leb_le.
    intros [Hr Hd]. split; [exact Hr | lia].
  - intros r Hr Hd. rewrite E, filter_In, andb_true_iff, !Z.leb_le.
    split; [exact Hr | lia].
Qed.

(** C4 as stated fails at both ends of the range. The clock reads
    2024-01-10 12:00:00.500000. A row of yesterday 00:00:01 is inside the
    stated range and is dropped; a row of tomorrow 23:59:59.005 is outside
    the stated range (it ends at 23:59:59.0009) and is kept. *)
Lemma filter_weather_df_by_date_default_bounds :
  let now := make 2024 1 10 12 0 0 500000 in
  let r1 := observed (make 2024 1 9 0 0 1 0) 30 5 in
  let r2 := predicted (make 2024 1 11 23 59 59 5000) 40 5 in
  let stated r :=
    (make 2024 1 9 0 0 1 0 <=? DATE r)
    && (DATE r <=? make 2024 1 11 23 59 59 900) in
  filter_weather_df_by_date [r1; r2] None None now now = [r2]
  /\ stated r1 = true /\ stated r2 = false.
Proof. repeat split; vm_compute; reflexivity. Qed.

(** ** The wind chart: bucket width (C8) *)

Lemma Zcol_min_le (c : list Z) (m : Z) :
  Zcol_min c = Some m -> forall z, In z c -> m <= z.
Proof.
  revert m. induction c as [|a c IH]; simpl; intros m H z Hz; [contradiction|].
  destruct (Zcol_min c) as [m'|] eqn:E.
  - injection H as <-. destruct Hz as [<- | Hz]; [lia|].
    specialize (IH m' eq_refl z Hz). lia.
  - injection H as <-. destruct Hz as [<- | Hz]; [lia|].
    destruct c; [contradiction | simpl in E].
    destruct (Zcol_min c); discriminate.
Qed.

Lemma Zcol_max_ge (c : list Z) (m : Z) :
  Zcol_max c = Some m -> forall z, In z c -> z <= m.
Proof.
  revert m. induction c as [|a c IH]; simpl; intros m H z Hz; [contradiction|].
  destruct (Zcol_max c) as [m'|] eqn:E.
  - injection H as <-. destruct Hz as [<- | Hz]; [lia|].
    specialize (IH m' eq_refl z Hz). lia.
  - injection H as <-. destruct Hz as [<- | Hz]; [lia|].
    destruct c; [contradiction | simpl in E].
    destruct (Zcol_max c); discriminate.
Qed.

Lemma Zcol_max_in (c : list Z) (m : Z) : Zcol_max c = Some m -> In m c.
Proof.
  revert m. induction c as [|a c IH]; simpl; intros m H; [discriminate|].
  destruct (Zcol_max c) as [m'|] eqn:E.
  - injection H as <-. destruct (Z.max_spec a m') as [[_ ->] | [_ ->]]; auto.
  - injection H as <-. now left.
Qed.

Lemma Zcol_min_in (c : list Z) (m : Z) : Zcol_min c = Some m -> In m c.
Proof.
  revert m. induction c as [|a c IH]; simpl; intros m H; [discriminate|].
  destruct (Zcol_min c) as [m'|] eqn:E.
  - injection H as <-. destruct (Z.min_spec a m') as [[_ ->] | [_ ->]]; auto.
  - injection H as <-. now left.
Qed.

Lemma Qltb_total_seconds (n delta : Z) :
  Qltb (inject_Z n) (total_seconds delta) = (n * 1000000 <? delta).
Proof.
  unfold Qltb, total_seconds, Qle_bool, inject_Z; simpl.
  destruct (Z.leb_spec (delta * 1) (n * 1000000));
    destruct (Z.ltb_spec (n * 1000000) delta); simpl; try reflexivity; lia.
Qed.

Lemma int_of_Q_bucket (delta : Z) :
  0 <= delta ->
  int_of_Q (total_seconds delta / 60 / 180) = delta / (180 * us_per_minute).
Proof.
  intros H. unfold int_of_Q, total_seconds.
  assert (E : ((delta # 1000000) / 60 / 180
               = (delta * 1 * 1 # 10800000000))%Q) by reflexivity.
  rewrite E.
  assert (P : Qle_bool 0 (delta * 1 * 1 # 10800000000) = true).
  { apply Qle_bool_iff. unfold Qle; simpl. lia. }
  rewrite P. unfold Qfloor.
  replace (delta * 1 * 1) with delta by ring. reflexivity.
Qed.

(** C8, as the code has it. With [delta] the time from the first to the last
    row of the windowed frame: when [delta] exceeds 15 minutes the bucket
    width is [delta] in seconds / 60 / 180, truncated, and at least 2
    minutes; when [delta] is at most 15 minutes the width is 15 minutes; on
    an empty frame it is 2 minutes. *)
Theorem gb_min_by_window :
  forall (plot_df : list weather_row) (plot_start_date plot_end_date : datetime),
    Zcol_min (map DATE plot_df) = Some plot_start_date ->
    Zcol_max (map DATE plot_df) = Some plot_end_date ->
    let delta := plot_end_date - plot_start_date in
    (15 * us_per_minute < delta ->
       gb_min plot_df = Z.max 2 (delta / (180 * us_per_minute)))
    /\ (delta <= 15 * us_per_minute -> gb_min plot_df = 15)
    /\ gb_min [] = 2.
Proof.
  intros plot_df s e Hs He delta.
  assert (Hd : 0 <= delta).
  { pose proof (Zcol_min_le _ _ Hs e (Zcol_max_in _ _ He)). unfold delta. lia. }
  unfold gb_min. rewrite Hs, He. fold delta.
  change (60 * 15)%Q with (inject_Z 900).
  rewrite Qltb_total_seconds, int_of_Q_bucket by exact Hd.
  change (15 * us_per_minute) with (900 * 1000000).
  split; [|split; [|reflexivity]]; intros H.
  - destruct (Z.ltb_spec (900 * 1000000) delta) as [_|]; [|lia].
    destruct (Z.ltb_spec (delta / (180 * us_per_minute)) 2); lia.
  - destruct (Z.ltb_spec (900 * 1000000) delta) as [|_]; [lia|]. reflexivity.
Qed.

Lemma gb_min_by_window_witness :
  gb_min [observed (make 2024 1 10 0 0 0 0) 30 5;
          observed (make 2024 1 10 12 0 0 0) 40 5] = 4.
Proof.
  destruct (gb_min_by_window
              [observed (make 2024 1 10 0 0 0 0) 30 5;
               observed (make 2024 1 10 12 0 0 0) 40 5]
              (make 2024 1 10 0 0 0 0) (make 2024 1 10 12 0 0 0)
              eq_refl eq_refl) as [H _].
  rewrite H; [reflexivity | vm_compute; reflexivity].
Defined.

(** C8 as stated fails on a window of ten minutes: the code sets 15 minutes,
    where the stated rule (seconds / 60 / 180, truncated, at least 2) gives
    2. *)
Lemma gb_min_ten_minute_window :
  gb_min [observed (make 2024 1 10 12 0 0 0) 30 5;
          observed (make 2024 1 10 12 10 0 0) 31 5] = 15
  /\ Z.max 2 (int_of_Q (total_seconds (10 * us_per_minute) / 60 / 180)) = 2.
Proof. split; vm_compute; reflexivity. Qed.

(** ** The wind chart: buckets and marker style (C10) *)

Lemma groupby_dynamic_groups (every : Z) (sorted : list weather_row) :
  Forall (fun g => snd g <> []
                   /\ forall r, In r (snd g) ->
                        In r sorted /\ window_start every (DATE r) = fst g)
         (groupby_dynamic every sorted).
Proof.
  induction sorted as [|r l IH]; simpl; [constructor|].
  assert (W : forall k g,
             snd (k, g) <> []
             /\ (forall r0, In r0 (snd (k, g)) ->
                   In r0 l /\ window_start every (DATE r0) = fst (k, g)) ->
             snd (k, g) <> []
             /\ (forall r0, In r0 (snd (k, g)) ->
                   In r0 (r :: l) /\ window_start every (DATE r0) = fst (k, g))).
  { intros k g [Hne Hg]. split; [exact Hne|].
    intros r0 Hr0. destruct (Hg r0 Hr0). split; [now right | assumption]. }
  assert (IH' : Forall (fun g => snd g <> []
                   /\ forall r0, In r0 (snd g) ->
                        In r0 (r :: l)
                        /\ window_start every (DATE r0) = fst g)
                  (groupby_dynamic every l)).
  { eapply Forall_impl; [|exact IH]. intros [k g]. apply W. }
  destruct (groupby_dynamic every l) as [|[k g] rest].
  - constructor; [|constructor]. simpl. split; [discriminate|].
    intros r0 [<- | []]. split; [now left | reflexivity].
  - inversion IH' as [|? ? [Hne Hg] Hrest]; subst.
    destruct (Z.eqb_spec (window_start every (DATE r)) k) as [Ek|Ek].
    + constructor; [|assumption]. simpl. split; [discriminate|].
      intros r0 [<- | Hr0]; [split; [now left | assumption]|].
      apply Hg, Hr0.
    + constructor; [|constructor; [split|]; assumption].
      simpl. split; [discriminate|].
      intros r0 [<- | []]. split; [now left | reflexivity].
Qed.

Lemma groupby_dynamic_concat (every : Z) (sorted : list weather_row) :
  List.concat (map snd (groupby_dynamic every sorted)) = sorted.
Proof.
  induction sorted as [|r l IH]; simpl; [reflexivity|].
  destruct (groupby_dynamic every l) as [|[k g] rest]; simpl in *.
  - now rewrite <- IH.
  - destruct (window_start every (DATE r) =? k); simpl; now rewrite <- IH.
Qed.

(** C10. Every bucket of the wind chart is a non-empty set of rows of the
    windowed frame that fall into one window, and every row is in a bucket.
    The bucket's flag is the maximum of its rows' [PREDICTION] cells with
    nulls ignored: true as soon as one row is a forecast row, null when all
    are null. The marker is drawn in the predicted style ("chartreuse") in
    the first case, also when observed rows share the bucket, and in the
    observed style ("dodgerblue") in the second. *)
Theorem wind_bucket_marker_style :
  forall (plot_df : list weather_row),
    Permutation (List.concat (map snd (wind_buckets plot_df))) plot_df
    /\ Forall
         (fun g =>
            let row := agg_bucket g in
            snd g <> []
            /\ (forall r, In r (snd g) ->
                  In r plot_df
                  /\ window_start (gb_min plot_df * us_per_minute) (DATE r)
                     = fst g)
            /\ ((exists r, In r (snd g) /\ PREDICTION r = Some true) ->
                  b_PREDICTION row = Some true
                  /\ s_color (wind_scatter row) = "chartreuse"%string)
            /\ ((forall r, In r (snd g) -> PREDICTION r = None) ->
                  b_PREDICTION row = None
                  /\ s_color (wind_scatter row) = "dodgerblue"%string))
         (wind_buckets plot_df).
Proof.
  intros plot_df. unfold wind_buckets. split.
  - rewrite groupby_dynamic_concat. apply sort_asc_perm.
  - eapply Forall_impl; [|apply groupby_dynamic_groups].
    intros [k g] [Hne Hg]. simpl in *. split; [exact Hne|]. split.
    + intros r Hr. destruct (Hg r Hr) as [Hin Hw]. split; [|exact Hw].
      eapply Permutation_in; [apply sort_asc_perm | exact Hin].
    + split.
      * intros (r & Hr & Hp).
        assert (E : bool_col_max (map PREDICTION g) = Some true).
        { apply bool_col_max_true. rewrite <- Hp. now apply in_map. }
        unfold wind_scatter, agg_bucket; simpl. now rewrite E.
      * intros Hall.
        assert (E : bool_col_max (map PREDICTION g) = None).
        { apply bool_col_max_null. intros o Ho.
          apply in_map_iff in Ho as (r & <- & Hr). now apply Hall. }
        unfold wind_scatter, agg_bucket; simpl. now rewrite E.
Qed.

(** ** The forecast reader (C3) *)

Lemma Zcol_max_some (c : list Z) (z : Z) :
  In z c -> exists m, Zcol_max c = Some m.
Proof.
  destruct c as [|a c]; [intros []|]. intros _. simpl.
  destruct (Zcol_max c); eauto.
Qed.

Lemma in_latest_batch_iff (log : list prediction) (r : prediction) :
  In r log ->
  in_latest_batch log r = true
  <-> forall r', In r' log ->
        forecast_updated_time r' <= forecast_updated_time r.
Proof.
  intros Hr. unfold in_latest_batch, latest_batch.
  assert (Hin : In (forecast_updated_time r) (map forecast_updated_time log))
    by now apply in_map.
  destruct (Zcol_max_some _ _ Hin) as [m Hm]. rewrite Hm, Z.eqb_eq.
  pose proof (Zcol_max_ge _ _ Hm) as Hge.
  pose proof (Zcol_max_in _ _ Hm) as Hmem.
  split.
  - intros E r' Hr'. rewrite E. apply Hge. now apply in_map.
  - intros Hall. apply in_map_iff in Hmem as (r0 & <- & Hr0).
    specialize (Hall r0 Hr0). specialize (Hge _ Hin). lia.
Qed.

Lemma elapsed_before_top_of_hour (now : datetime) :
  elapsed_before now now
  = now / us_per_hour * us_per_hour + now mod us_per_minute.
Proof.
  unfold elapsed_before, timedelta, minute, time_of_day.
  unfold us_per_day, us_per_hour, us_per_minute, us_per_second, datetime.
  Z.div_mod_to_equations. lia.
Qed.

(** For a period that starts on the hour, subtracting the minute field
    changes nothing: the filter passes it exactly when it starts after the
    clock reading. *)
Lemma elapsed_before_on_the_hour (now start : datetime) :
  start mod us_per_hour = 0 ->
  (elapsed_before now now <? start) = (now <? start).
Proof.
  intros Hs. rewrite elapsed_before_top_of_hour.
  destruct (Z.ltb_spec now start); destruct (Z.ltb_spec
    (now / us_per_hour * us_per_hour + now mod us_per_minute) start);
    try reflexivity; exfalso;
    unfold us_per_hour, us_per_minute, us_per_second, datetime in *;
    Z.div_mod_to_equations; lia.
Qed.

(** What the reader returns. It never fails on a readable log. It returns,
    sorted by start time, the rows of the latest batch (no other batch has a
    later [forecast_updated_time]) whose start time is strictly after the
    clock reading minus its minute field, and no other row. That bound is
    the top of the current hour plus the seconds and microseconds of the
    reading. *)
Theorem read_weather_predictions_latest_batch :
  forall (convert_time_zone : datetime -> datetime) (utcnow1 utcnow2 : datetime)
         (log : list prediction),
  exists out,
    read_weather_predictions convert_time_zone utcnow1 utcnow2 (Some log)
      = Some out
    /\ Permutation out
         (map (to_prediction_row convert_time_zone)
            (filter (fun r => in_latest_batch log r
                              && (elapsed_before utcnow1 utcnow2
                                  <? startTime r)) log))
    /\ (forall p, In p out <->
          exists r, In r log
            /\ p = to_prediction_row convert_time_zone r
            /\ (forall r', In r' log ->
                  forecast_updated_time r' <= forecast_updated_time r)
            /\ elapsed_before utcnow1 utcnow2 < startTime r)
    /\ (forall now,
          elapsed_before now now
          = now / us_per_hour * us_per_hour + now mod us_per_minute
          /\ 0 <= now mod us_per_minute < us_per_minute).
Proof.
  intros tz now1 now2 log. eexists. split; [reflexivity|].
  split; [apply sort_asc_perm|]. split.
  - intros p. split.
    + intros Hp. apply (Permutation_in _ (sort_asc_perm _ _)) in Hp.
      apply in_map_iff in Hp as (r & <- & Hr).
      apply filter_In in Hr as (Hr & Hc).
      apply andb_true_iff in Hc as (Hb & Hs).
      exists r. split; [exact Hr|]. split; [reflexivity|]. split.
      * now apply in_latest_batch_iff.
      * now apply Z.ltb_lt.
    + intros (r & Hr & -> & Hb & Hs).
      apply (Permutation_in _ (Permutation_sym (sort_asc_perm _ _))).
      apply in_map, filter_In. split; [exact Hr|].
      apply andb_true_iff. split.
      * now apply in_latest_batch_iff.
      * now apply Z.ltb_lt.
  - intros now. split; [apply elapsed_before_top_of_hour|].
    apply Z.mod_pos_bound. reflexivity.
Qed.

(** C3 fails on the code for the period that starts at the top of the
    current hour. The clock reads 2024-01-10 18:30:15 UTC; the only row of
    the log starts at 18:00:00 UTC, at the top of the current hour, and
    belongs to the latest batch; the reader returns no row. Subtracting the
    minute field leaves the seconds of the clock in the bound, and the
    comparison is strict. *)
Theorem read_weather_predictions_current_period :
  let now := make 2024 1 10 18 30 15 0 in
  let r := forecast (make 2024 1 10 18 0 0 0) (make 2024 1 10 17 40 0 0) 40 in
  read_weather_predictions central_standard_time now now (Some [r]) = Some []
  /\ in_latest_batch [r] r = true
  /\ (now / us_per_hour * us_per_hour <=? startTime r) = true.
Proof. repeat split; vm_compute; reflexivity. Qed.

(** ** The observation reader (C5) *)

Lemma recent_row_iff (tz : datetime -> datetime) (utcnow : datetime)
    (r : observation) (o : observation_row) :
  recent_row tz utcnow r = Some o
  <-> exists t, Strptime.strptime " " (dateutc r) = Some t
        /\ utcnow - timedelta 3 0 < tz t
        /\ o = to_observation_row (tz t) r.
Proof.
  unfold recent_row, datect.
  destruct (Strptime.strptime " " (dateutc r)) as [t|]; simpl.
  - destruct (Z.ltb_spec (utcnow - timedelta 3 0) (tz t)) as [Hlt|Hge].
    + split.
      * intros H. injection H as <-. eauto.
      * intros (t' & Ht & _ & ->). injection Ht as <-. reflexivity.
    + split; [discriminate|].
      intros (t' & Ht & Hlt & _). injection Ht as <-. lia.
  - split; [discriminate | intros (t' & Ht & _); discriminate].
Qed.

(** C5, as the code has it. On a log that can be read the reader does not
    fail, whatever the timestamps: it returns one row for each of the last
    4000 log rows whose timestamp parses under the fixed format and is, in
    local time, later than the clock reading minus three days. A row whose
    timestamp does not parse gets a null timestamp ([strict=False]) and is
    dropped by the three-day filter; the other rows are returned. *)
Theorem read_weather_observations_drops_unparsed :
  forall (convert_time_zone : datetime -> datetime) (utcnow : datetime)
         (rows : list observation),
  exists out,
    read_weather_observations convert_time_zone utcnow (Some rows) = Some out
    /\ (forall o, In o out <->
          exists r t, In r (last_4000 rows)
            /\ Strptime.strptime " " (dateutc r) = Some t
            /\ utcnow - timedelta 3 0 < convert_time_zone t
            /\ o = to_observation_row (convert_time_zone t) r)
    /\ List.length out
       = List.length
           (filter (fun r => match recent_row convert_time_zone utcnow r with
                             | Some _ => true
                             | None => false
                             end) (last_4000 rows)).
Proof.
  intros tz utcnow rows. eexists. split; [reflexivity|]. split.
  - intros o. split.
    + intros Ho. apply (Permutation_in _ (sort_desc_perm _ _)) in Ho.
      apply in_filter_map in Ho as (r & Hr & Hf).
      apply recent_row_iff in Hf as (t & Ht & Hlt & ->). eauto 6.
    + intros (r & t & Hr & Ht & Hlt & ->).
      apply (Permutation_in _ (Permutation_sym (sort_desc_perm _ _))).
      apply in_filter_map. exists r. split; [exact Hr|].
      apply recent_row_iff. eauto.
  - rewrite (Permutation_length (sort_desc_perm _ _)).
    induction (last_4000 rows) as [|r l IH]; simpl; [reflexivity|].
    destruct (recent_row tz utcnow r); simpl; now rewrite IH.
Qed.

(** C5 as stated fails on a log of two rows of which the second has a
    timestamp that is not in the fixed format: the read does not fail, it
    returns the first row (in local time) and leaves the second out. The
    clock reads 2024-01-10 18:05:00 UTC. *)
Lemma read_weather_observations_partial_result :
  let log := [logged 1 "2024-01-10 18:00:00" 30;
              logged 2 "10/01/2024 18:01" 31] in
  Strptime.strptime " " "10/01/2024 18:01" = None
  /\ read_weather_observations central_standard_time
       (make 2024 1 10 18 5 0 0) (Some log)
     = Some [to_observation_row (make 2024 1 10 12 0 0 0)
               (logged 1 "2024-01-10 18:00:00" 30)].
Proof. split; vm_compute; reflexivity. Qed.

(** ** The lookup tables (C9) *)

Lemma with_row_count_shift {A : Type} (n k : Z) (l : list A) :
  map (fun p => (fst p + k, snd p)) (with_row_count n l)
  = with_row_count (n + k) l.
Proof.
  revert n. induction l as [|a l IH]; intros n; simpl; [reflexivity|].
  rewrite IH. do 2 f_equal. ring.
Qed.

(** On a table that is not empty, the first new text is numbered with the
    maximum id of the table, and the others follow it. *)
Lemma add_new_texts_ids (text : nws_period -> string)
    (text_id : nws_period -> option Z) (NWS_df : list nws_period)
    (table : lookup_table) (m : Z) (t : string) (rest : list string) :
  Zcol_max (map fst table) = Some m ->
  unique String.eqb (map text (filter (fun r => is_null (text_id r)) NWS_df))
  = t :: rest ->
  add_new_texts text text_id NWS_df table
  = Some (table ++ (m, t) :: with_row_count (m + 1) rest)
  /\ In m (map fst table).
Proof.
  intros Hm Hu. unfold add_new_texts. rewrite Hu, Hm.
  split; [|now apply Zcol_max_in].
  cbn [List.length with_row_count map fst snd].
  rewrite with_row_count_shift.
  destruct (Z.ltb_spec 0 (Z.of_nat (S (List.length rest)))) as [_|H]; [|lia].
  replace (0 + m) with m by lia.
  replace (0 + 1 + m) with (m + 1) by lia. reflexivity.
Qed.

(** C9 fails on the code: with the table [(0, "Sunny")] and one new
    description "Cloudy", the new row is written with id 0, the current
    maximum id, which the row of "Sunny" already has; the claim asks for
    id 1. The icon table is updated by the same code. *)
Theorem add_new_forecast_descriptions_reuses_max_id :
  let NWS_df :=
    [ {| shortForecast := "Sunny"; forecast_descriptions_id := Some 0;
         icon := "skc"; icon_id := Some 0 |};
      {| shortForecast := "Cloudy"; forecast_descriptions_id := None;
         icon := "ovc"; icon_id := None |} ] in
  add_new_forecast_descriptions NWS_df [(0, "Sunny"%string)]
  = Some [(0, "Sunny"%string); (0, "Cloudy"%string)]
  /\ add_new_forecast_icons NWS_df [(0, "skc"%string)]
     = Some [(0, "skc"%string); (0, "ovc"%string)].
Proof. split; vm_compute; reflexivity. Qed.

(** ** Daily annotations (C1) *)

Lemma Qltb_true (x y : Q) : Qltb x y = true -> (x <= y)%Q.
Proof.
  unfold Qltb. intros H. apply negb_true_iff in H.
  destruct (Qlt_le_dec x y) as [Hlt|Hle]; [now apply Qlt_le_weak|].
  apply Qle_bool_iff in Hle. congruence.
Qed.

Lemma Qltb_false (x y : Q) : Qltb x y = false -> (y <= x)%Q.
Proof.
  unfold Qltb. intros H. apply negb_false_iff in H. now apply Qle_bool_iff.
Qed.

Lemma col_max_spec (c : list cell) (v : Q) :
  col_max c = Some v ->
  In (Some v) c /\ forall x, In (Some x) c -> (x <= v)%Q.
Proof.
  revert v. induction c as [|[x|] c IH]; simpl; intros v H.
  - discriminate.
  - destruct (col_max c) as [y|] eqn:E.
    + destruct (IH y eq_refl) as [Hin Hub].
      destruct (Qltb x y) eqn:L; injection H as <-.
      * split; [now right|]. intros z [Hz | Hz]; [|now apply Hub].
        injection Hz as <-. now apply Qltb_true.
      * split; [now left|]. intros z [Hz | Hz].
        -- injection Hz as <-. apply Qle_refl.
        -- apply (Qle_trans _ y); [exact (Hub _ Hz) | exact (Qltb_false _ _ L)].
    + injection H as <-. split; [now left|]. intros z [Hz | Hz].
      * injection Hz as <-. apply Qle_refl.
      * exfalso. clear IH. induction c as [|[w|] c IHc]; simpl in *.
        -- contradiction.
        -- destruct (col_max c); discriminate.
        -- destruct Hz as [Hz | Hz]; [discriminate | now apply IHc].
  - destruct (IH v H) as [Hin Hub]. split; [now right|].
    intros z [Hz | Hz]; [discriminate | now apply Hub].
Qed.

Lemma col_min_spec (c : list cell) (v : Q) :
  col_min c = Some v ->
  In (Some v) c /\ forall x, In (Some x) c -> (v <= x)%Q.
Proof.
  revert v. induction c as [|[x|] c IH]; simpl; intros v H.
  - discriminate.
  - destruct (col_min c) as [y|] eqn:E.
    + destruct (IH y eq_refl) as [Hin Hlb].
      destruct (Qltb y x) eqn:L; injection H as <-.
      * split; [now right|]. intros z [Hz | Hz]; [|now apply Hlb].
        injection Hz as <-. now apply Qltb_true.
      * split; [now left|]. intros z [Hz | Hz].
        -- injection Hz as <-. apply Qle_refl.
        -- apply (Qle_trans _ y); [exact (Qltb_false _ _ L) | exact (Hlb _ Hz)].
    + injection H as <-. split; [now left|]. intros z [Hz | Hz].
      * injection Hz as <-. apply Qle_refl.
      * exfalso. clear IH. induction c as [|[w|] c IHc]; simpl in *.
        -- contradiction.
        -- destruct (col_min c); discriminate.
        -- destruct Hz as [Hz | Hz]; [discriminate | now apply IHc].
  - destruct (IH v H) as [Hin Hlb]. split; [now right|].
    intros z [Hz | Hz]; [discriminate | now apply Hlb].
Qed.

Lemma col_max_some (c : list cell) (x : Q) :
  In (Some x) c -> exists v, col_max c = Some v.
Proof.
  induction c as [|[y|] c IH]; simpl.
  - intros [].
  - intros _. destruct (col_max c); eauto.
  - intros [H | H]; [discriminate | now apply IH].
Qed.

Lemma col_min_some (c : list cell) (x : Q) :
  In (Some x) c -> exists v, col_min c = Some v.
Proof.
  induction c as [|[y|] c IH]; simpl.
  - intros [].
  - intros _. destruct (col_min c); eauto.
  - intros [H | H]; [discriminate | now apply IH].
Qed.

Lemma unique_In (l : list Z) (z : Z) : In z (unique Z.eqb l) <-> In z l.
Proof.
  induction l as [|a l IH]; simpl; [tauto|].
  rewrite filter_In, IH, negb_true_iff, Z.eqb_neq.
  destruct (Z.eq_dec a z); intuition.
Qed.

Lemma unique_NoDup (l : list Z) : NoDup (unique Z.eqb l).
Proof.
  induction l as [|a l IH]; simpl; constructor.
  - rewrite filter_In, negb_true_iff, Z.eqb_neq. intros [_ H]. now apply H.
  - now apply NoDup_filter.
Qed.

Lemma filter_head_split {A : Type} (f : A -> bool) (l : list A) (a : A)
    (rest : list A) :
  filter f l = a :: rest ->
  exists l1 l2, l = l1 ++ a :: l2 /\ f a = true
                /\ forall b, In b l1 -> f b = false.
Proof.
  induction l as [|b l IH]; simpl; [discriminate|].
  destruct (f b) eqn:E.
  - intros H. injection H as -> _. exists [], l. repeat split; auto.
    intros b [].
  - intros H. destruct (IH H) as (l1 & l2 & -> & Ha & Hl1).
    exists (b :: l1), l2. repeat split; auto.
    intros b' [<- | Hb']; auto.
Qed.

Lemma anno_type_eqb_spec (a b : anno_type) :
  reflect (a = b) (anno_type_eqb a b).
Proof. destruct a, b; constructor; congruence. Qed.

Lemma annotations_dict_append (d : annotations_dict) (a a' : anno_type)
    (p : datetime * Q) :
  annotations (dict_append d a p) a'
  = annotations d a' ++ (if anno_type_eqb a a' then [p] else []).
Proof.
  unfold annotations. induction d as [|[k l] d IH]; simpl.
  - destruct (anno_type_eqb a a'); reflexivity.
  - destruct (anno_type_eqb_spec k a) as [->|Hka]; simpl.
    + destruct (anno_type_eqb a a'); [reflexivity | now rewrite app_nil_r].
    + destruct (anno_type_eqb_spec k a') as [->|Hka']; [|exact IH].
      destruct (anno_type_eqb_spec a a') as [->|_];
        [contradiction | now rewrite app_nil_r].
Qed.

Lemma annotate_step (weather_df : list weather_row) (row : high_low)
    (d : annotations_dict) (a : anno_type) :
  attained weather_df row ->
  exists d',
    annotate weather_df row (Some d) a = Some d'
    /\ forall a', annotations d' a'
                  = annotations d a'
                    ++ (if anno_type_eqb a a'
                        then day_point weather_df a row else []).
Proof.
  intros Hat. unfold annotate, day_point.
  destruct (hl_value a row) as [v|] eqn:Ev.
  - specialize (Hat a v Ev).
    destruct (this_df weather_df row a v) as [|r0 rest]; [contradiction|].
    eexists. split; [reflexivity|]. intros a'.
    apply annotations_dict_append.
  - exists d. split; [reflexivity|]. intros a'.
    destruct (anno_type_eqb a a'); now rewrite app_nil_r.
Qed.

Lemma annotate_row (weather_df : list weather_row) (row : high_low)
    (d : annotations_dict) :
  attained weather_df row ->
  exists d',
    fold_left (annotate weather_df row) HIGH_LOW_KEYS (Some d) = Some d'
    /\ forall a, annotations d' a
                 = annotations d a ++ day_point weather_df a row.
Proof.
  intros Hat. unfold HIGH_LOW_KEYS. cbn [fold_left].
  destruct (annotate_step weather_df row d High_Temp Hat) as (d1 & -> & H1).
  destruct (annotate_step weather_df row d1 Low_Temp Hat) as (d2 & -> & H2).
  destruct (annotate_step weather_df row d2 High_Windspeed Hat)
    as (d3 & -> & H3).
  exists d3. split; [reflexivity|]. intros a.
  rewrite H3, H2, H1. destruct a; simpl; now rewrite ?app_nil_r.
Qed.

Lemma annotate_rows (weather_df : list weather_row) (rows : list high_low) :
  Forall (attained weather_df) rows ->
  forall d, exists d',
    fold_left
      (fun acc row => fold_left (annotate weather_df row) HIGH_LOW_KEYS acc)
      rows (Some d) = Some d'
    /\ forall a, annotations d' a
                 = annotations d a ++ flat_map (day_point weather_df a) rows.
Proof.
  induction 1 as [|row rows Hrow Hrows IH]; intros d; cbn [fold_left flat_map].
  - exists d. split; [reflexivity|]. intros a. now rewrite app_nil_r.
  - destruct (annotate_row weather_df row d Hrow) as (d1 & -> & H1).
    destruct (IH d1) as (d2 & -> & H2).
    exists d2. split; [reflexivity|]. intros a.
    now rewrite H2, H1, app_assoc.
Qed.

Lemma cell_eqb_refl (v : Q) : cell_eqb (Some v) v = true.
Proof. simpl. apply Qeq_bool_iff. reflexivity. Qed.

Lemma agg_day_value (weather_df : list weather_row) (k : Z) (a : anno_type)
    (v : Q) :
  hl_value a (agg_day weather_df k) = Some v ->
  (exists r, In r weather_df /\ day_key r = k
             /\ HIGH_LOW_ALIAS_COL_DICT a r = Some v)
  /\ (forall r x, In r weather_df -> day_key r = k ->
        HIGH_LOW_ALIAS_COL_DICT a r = Some x -> extreme a v x).
Proof.
  assert (G : forall (col : weather_row -> cell) r,
             In r (day_group weather_df k)
             <-> In r weather_df /\ day_key r = k).
  { intros col r. unfold day_group. now rewrite filter_In, Z.eqb_eq. }
  assert (M : forall (col : weather_row -> cell) x,
             In (Some x) (map col (day_group weather_df k))
             <-> exists r, In r weather_df /\ day_key r = k /\ col r = Some x).
  { intros col x. rewrite in_map_iff. split.
    - intros (r & E & Hr). apply (G col) in Hr as [? ?]. eauto.
    - intros (r & Hr & Hk & E). exists r. split; [exact E|].
      apply (G col). auto. }
  destruct a; simpl; intros H.
  - apply col_max_spec in H as [Hin Hub]. split; [now apply M|].
    intros r x Hr Hk E. apply Hub, M. eauto.
  - apply col_min_spec in H as [Hin Hlb]. split; [now apply M|].
    intros r x Hr Hk E. apply Hlb, M. eauto.
  - apply col_max_spec in H as [Hin Hub]. split; [now apply M|].
    intros r x Hr Hk E. apply Hub, M. eauto.
Qed.

Lemma agg_day_attained (weather_df : list weather_row) (k : Z) :
  attained weather_df (agg_day weather_df k).
Proof.
  intros a v H. destruct (agg_day_value _ _ _ _ H) as [(r & Hr & Hk & E) _].
  assert (Hin : In r (this_df weather_df (agg_day weather_df k) a v)).
  { unfold this_df. apply filter_In. split; [exact Hr|].
    simpl. rewrite E, cell_eqb_refl, andb_true_r. now apply Z.eqb_eq. }
  intros E0. rewrite E0 in Hin. contradiction.
Qed.

Lemma agg_day_some (weather_df : list weather_row) (k : Z) (a : anno_type)
    (r : weather_row) (x : Q) :
  In r weather_df -> day_key r = k ->
  HIGH_LOW_ALIAS_COL_DICT a r = Some x ->
  exists v, hl_value a (agg_day weather_df k) = Some v.
Proof.
  intros Hr Hk E.
  assert (Hin : In (Some x)
                  (map (HIGH_LOW_ALIAS_COL_DICT a) (day_group weather_df k))).
  { rewrite <- E. apply in_map. unfold day_group.
    apply filter_In. split; [exact Hr | now apply Z.eqb_eq]. }
  destruct a; simpl in *;
    [eapply col_max_some | eapply col_min_some | eapply col_max_some];
    exact Hin.
Qed.

(** What a point of the day [k] is: its value is the day's extremum, and its
    timestamp is that of the first row, in table order, of the day's rows
    that hold this value. *)
Lemma day_point_spec (weather_df : list weather_row) (k : Z) (a : anno_type)
    (t : datetime) (v : Q) :
  In (t, v) (day_point weather_df a (agg_day weather_df k)) ->
  dt_day t = k
  /\ hl_value a (agg_day weather_df k) = Some v
  /\ exists l1 r l2,
       weather_df = l1 ++ r :: l2 /\ DATE r = t
       /\ cell_eqb (HIGH_LOW_ALIAS_COL_DICT a r) v = true
       /\ forall r', In r' l1 ->
            (day_key r' =? k) && cell_eqb (HIGH_LOW_ALIAS_COL_DICT a r') v
            = false.
Proof.
  unfold day_point.
  destruct (hl_value a (agg_day weather_df k)) as [v'|] eqn:Ev; [|intros []].
  destruct (this_df weather_df (agg_day weather_df k) a v') as [|r0 rest]
    eqn:Ef; [intros []|].
  intros [H | []]. injection H as <- <-.
  unfold this_df in Ef. simpl in Ef.
  destruct (filter_head_split _ _ _ _ Ef) as (l1 & l2 & -> & Hr0 & Hl1).
  apply andb_true_iff in Hr0 as [Hk Hv]. apply Z.eqb_eq in Hk.
  split; [exact Hk|]. split; [reflexivity|].
  exists l1, r0, l2. repeat split; assumption.
Qed.

Lemma make_high_low_annotations_dict_points (weather_df : list weather_row) :
  exists d,
    make_high_low_annotations_dict weather_df = Some d
    /\ forall a, annotations d a
                 = flat_map (day_point weather_df a) (high_low_df weather_df).
Proof.
  unfold make_high_low_annotations_dict.
  assert (Hat : Forall (attained weather_df) (high_low_df weather_df)).
  { apply Forall_forall. intros row Hrow.
    apply in_map_iff in Hrow as (k & <- & _). apply agg_day_attained. }
  destruct (annotate_rows weather_df _ Hat []) as (d & E & H).
  exists d. split; [exact E|]. intros a. now rewrite H.
Qed.

Lemma points_in (weather_df : list weather_row) (a : anno_type)
    (ks : list Z) (p : datetime * Q) :
  In p (flat_map (day_point weather_df a) (map (agg_day weather_df) ks))
  <-> exists k, In k ks /\ In p (day_point weather_df a (agg_day weather_df k)).
Proof.
  rewrite in_flat_map. split.
  - intros (row & Hrow & Hp). apply in_map_iff in Hrow as (k & <- & Hk). eauto.
  - intros (k & Hk & Hp). exists (agg_day weather_df k).
    split; [now apply in_map | exact Hp].
Qed.

Lemma day_point_at_most_one (weather_df : list weather_row) (a : anno_type)
    (row : high_low) :
  day_point weather_df a row = []
  \/ exists p, day_point weather_df a row = [p].
Proof.
  unfold day_point. destruct (hl_value a row) as [v|]; [|now left].
  destruct (this_df weather_df row a v); [now left | right; eauto].
Qed.

Lemma points_nodup (weather_df : list weather_row) (a : anno_type)
    (ks : list Z) :
  NoDup ks ->
  NoDup (map (fun p => dt_day (fst p))
           (flat_map (day_point weather_df a) (map (agg_day weather_df) ks))).
Proof.
  induction 1 as [|k ks Hk Hks IH]; simpl; [constructor|].
  destruct (day_point_at_most_one weather_df a (agg_day weather_df k))
    as [E | [[t v] E]]; rewrite E; simpl; [exact IH|].
  constructor; [|exact IH].
  assert (Ht : dt_day t = k).
  { apply (day_point_spec weather_df k a t v). rewrite E. now left. }
  rewrite Ht. intros Hin. apply in_map_iff in Hin as ([t' v'] & Ek & Hin).
  apply points_in in Hin as (k' & Hk' & Hp).
  apply day_point_spec in Hp as [Hd _]. simpl in Ek. congruence.
Qed.

(** C1, as the code has it. The function returns a dictionary on every
    series. Rows are grouped by the day-of-month number of their local
    timestamp. For each annotation type, there is exactly one point for
    each day on which some row has a value in the type's column, and no
    other point. The value of a point is the day's extremum (maximum of
    [TEMP], minimum of [TEMP], maximum of [WIND_SPEED]); its timestamp is
    that of the first row in table order, among the rows of that day whose
    value equals the extremum. *)
Theorem make_high_low_annotations_first_row :
  forall (weather_df : list weather_row),
  exists d,
    make_high_low_annotations_dict weather_df = Some d
    /\ forall a,
         NoDup (map (fun p => dt_day (fst p)) (annotations d a))
         /\ (forall k,
               (exists r x, In r weather_df /\ day_key r = k
                            /\ HIGH_LOW_ALIAS_COL_DICT a r = Some x)
               <-> (exists p, In p (annotations d a) /\ dt_day (fst p) = k))
         /\ (forall t v, In (t, v) (annotations d a) ->
               (forall r x, In r weather_df -> day_key r = dt_day t ->
                  HIGH_LOW_ALIAS_COL_DICT a r = Some x -> extreme a v x)
               /\ exists l1 r l2,
                    weather_df = l1 ++ r :: l2 /\ DATE r = t
                    /\ cell_eqb (HIGH_LOW_ALIAS_COL_DICT a r) v = true
                    /\ forall r', In r' l1 ->
                         (day_key r' =? dt_day t)
                         && cell_eqb (HIGH_LOW_ALIAS_COL_DICT a r') v
                         = false).
Proof.
  intros weather_df.
  destruct (make_high_low_annotations_dict_points weather_df) as (d & E & H).
  exists d. split; [exact E|]. intros a. rewrite H. unfold high_low_df.
  split; [apply points_nodup, unique_NoDup|]. split.
  - intros k. split.
    + intros (r & x & Hr & Hk & Ex).
      destruct (agg_day_some weather_df k a r x Hr Hk Ex) as [v Ev].
      pose proof (agg_day_attained weather_df k a v Ev) as Hne.
      destruct (this_df weather_df (agg_day weather_df k) a v)
        as [|r0 rest] eqn:Ef; [contradiction|].
      assert (Hp : In (DATE r0, v)
                     (day_point weather_df a (agg_day weather_df k))).
      { unfold day_point. rewrite Ev, Ef. now left. }
      exists (DATE r0, v). split.
      * apply points_in. exists k. split; [|exact Hp].
        apply unique_In. rewrite <- Hk. now apply in_map.
      * now apply (day_point_spec weather_df k a (DATE r0) v).
    + intros ([t v] & Hp & Hk). simpl in Hk.
      apply points_in in Hp as (k' & _ & Hp).
      apply day_point_spec in Hp as (Hd & Ev & _).
      destruct (agg_day_value _ _ _ _ Ev) as [(r & Hr & Hrk & Er) _].
      exists r, v. repeat split; congruence.
  - intros t v Hp. apply points_in in Hp as (k & _ & Hp).
    apply day_point_spec in Hp as (Hd & Ev & Hfirst). rewrite Hd. split.
    + intros r x Hr Hk Ex.
      now apply (proj2 (agg_day_value _ _ _ _ Ev) r x).
    + exact Hfirst.
Qed.

(** C1 as stated fails in two ways. First, the timestamp is that of the
    first row in table order, not the earliest: the observation reader sorts
    newest first, so with 70 degrees at 11:00 and at 10:00 on one day, ahead
    of 65 at 09:00, the high is annotated at 11:00. Second, rows are grouped
    by day-of-month number, not by calendar day: rows of 10 January and of
    10 February fall in one group and get one high between them. *)
Lemma make_high_low_annotations_latest_and_day_of_month :
  let df1 := [observed (make 2024 1 10 11 0 0 0) 70 5;
              observed (make 2024 1 10 10 0 0 0) 70 5;
              observed (make 2024 1 10 9 0 0 0) 65 5] in
  let df2 := [observed (make 2024 2 10 12 0 0 0) 50 5;
              observed (make 2024 1 10 12 0 0 0) 40 5] in
  option_map (fun d => annotations d High_Temp)
    (make_high_low_annotations_dict df1)
  = Some [(make 2024 1 10 11 0 0 0, 70%Q)]
  /\ (make 2024 1 10 10 0 0 0 <? make 2024 1 10 11 0 0 0) = true
  /\ option_map (fun d => annotations d High_Temp)
       (make_high_low_annotations_dict df2)
     = Some [(make 2024 2 10 12 0 0 0, 50%Q)].
Proof. repeat split; vm_compute; reflexivity. Qed.

(** ** Dew point (C7) *)

Module DewPointFacts.

Import Station.







End DewPointFacts.

(** ** Wind direction of a bucket (C6) *)

Module CircularFacts.

Import Circular Angle.
Local Open Scope R_scope.

Lemma Rabs_le_iff (x b : R) : Rabs x <= b <-> - b <= x <= b.
Proof. unfold Rabs. destruct (Rcase_abs x); lra. Qed.

Lemma PI_3 : 3 < PI.
Proof. pose proof PI2_3_2. lra. Qed.

Lemma Rabs_sin_le (z : R) : Rabs (sin z) <= Rabs z.
Proof.
  pose proof PI_3 as HPI.
  assert (Hpos : forall x, 0 < x -> - x <= sin x <= x).
  { intros x Hx. split; [|left; now apply sin_lt_x].
    destruct (Rle_dec x PI) as [Hle|Hgt].
    - pose proof (sin_ge_0 x (Rlt_le _ _ Hx) Hle). lra.
    - pose proof (SIN_bound x). lra. }
  apply Rabs_le_iff. unfold Rabs. destruct (Rcase_abs z) as [Hz|Hz].
  - specialize (Hpos (- z) ltac:(lra)). rewrite sin_neg in Hpos. lra.
  - destruct (Req_dec z 0) as [->|Hne]; [rewrite sin_0; lra|].
    specialize (Hpos z ltac:(lra)). lra.
Qed.

Lemma sin_lipschitz (p q : R) : Rabs (sin p - sin q) <= Rabs (p - q).
Proof.
  rewrite form4, !Rabs_mult.
  pose proof (Rabs_sin_le ((p - q) / 2)) as Hs.
  pose proof (COS_bound ((p + q) / 2)) as Hc.
  assert (Hc' : Rabs (cos ((p + q) / 2)) <= 1) by (apply Rabs_le_iff; lra).
  replace (Rabs ((p - q) / 2)) with (Rabs (p - q) / 2) in Hs.
  2:{ unfold Rdiv. rewrite Rabs_mult. f_equal. rewrite Rabs_right; lra. }
  rewrite (Rabs_right 2) by lra.
  pose proof (Rabs_pos (cos ((p + q) / 2))).
  pose proof (Rabs_pos (sin ((p - q) / 2))).
  pose proof (Rabs_pos (p - q)). nra.
Qed.

Lemma cos_lipschitz (p q : R) : Rabs (cos p - cos q) <= Rabs (p - q).
Proof.
  rewrite form2, !Rabs_mult.
  pose proof (Rabs_sin_le ((p - q) / 2)) as Hs.
  pose proof (SIN_bound ((p + q) / 2)) as Hc.
  assert (Hc' : Rabs (sin ((p + q) / 2)) <= 1) by (apply Rabs_le_iff; lra).
  replace (Rabs ((p - q) / 2)) with (Rabs (p - q) / 2) in Hs.
  2:{ unfold Rdiv. rewrite Rabs_mult. f_equal. rewrite Rabs_right; lra. }
  replace (Rabs (-2)) with 2 by (rewrite Rabs_left; lra).
  pose proof (Rabs_pos (sin ((p + q) / 2))).
  pose proof (Rabs_pos (sin ((p - q) / 2))).
  pose proof (Rabs_pos (p - q)). nra.
Qed.

Lemma sin_half_lower (x : R) : 0 <= x <= 1 -> x / 2 <= sin x.
Proof.
  intros [H0 H1]. pose proof PI_3.
  destruct (SIN x H0 ltac:(lra)) as [Hlb _].
  apply Rle_trans with (2 := Hlb).
  unfold sin_lb, sin_approx, sin_term. simpl sum_f_R0.
  simpl Factorial.fact. simpl INR. simpl pow.
  assert (0 <= x * x <= 1) by nra.
  assert (0 <= x * x * x <= x) by nra.
  assert (0 <= x * x * x * x * x <= x) by nra.
  assert (0 <= x * x * x * x * x * x * x <= x) by nra.
  field_simplify. nra.
Qed.

Lemma atan_small (y k : R) :
  0 <= k <= 1 / 2 -> Rabs y <= k -> Rabs (atan y) <= 2 * k.
Proof.
  intros Hk Hy. pose proof PI_3 as HPI.
  assert (Hpos : forall z, 0 <= z <= k -> atan z <= 2 * k).
  { intros z Hz. destruct (Rle_dec (atan z) (2 * k)) as [H|H]; [exact H|].
    exfalso. apply Rnot_le_lt in H.
    pose proof (atan_bound z) as [_ Hub].
    assert (Hsin : sin (2 * k) < sin (atan z))
      by (apply sin_increasing_1; lra).
    pose proof (sin_half_lower (2 * k) ltac:(lra)) as Hlow.
    rewrite sin_atan in Hsin.
    assert (Hs : 1 <= R_sqrt.sqrt (1 + z²)).
    { rewrite <- sqrt_1 at 1. apply sqrt_le_1_alt.
      pose proof (Rle_0_sqr z). lra. }
    assert (z / R_sqrt.sqrt (1 + z²) <= z).
    { apply Rle_trans with (z / 1); [|lra].
      unfold Rdiv. apply Rmult_le_compat_l; [lra|].
      apply Rinv_le_contravar; lra. }
    lra. }
  apply Rabs_le_iff in Hy. apply Rabs_le_iff.
  destruct (Rle_dec 0 y) as [H0|H0].
  - split; [|apply Hpos; lra].
    assert (atan 0 <= atan y).
    { destruct (Req_dec y 0) as [->|]; [lra|]. left. apply atan_increasing. lra. }
    rewrite atan_0 in *. lra.
  - assert (atan (- y) <= 2 * k) by (apply Hpos; lra).
    rewrite atan_opp in *.
    assert (atan y < atan 0) by (apply atan_increasing; lra).
    rewrite atan_0 in *. lra.
Qed.

Lemma arctan2_bound (y x : R) : - PI <= arctan2 y x <= PI.
Proof.
  pose proof PI_RGT_0 as HPI. pose proof (atan_bound (y / x)) as [Hl Hu].
  unfold arctan2.
  destruct (Rlt_dec 0 x); [lra|].
  destruct (Rlt_dec x 0) as [Hx|Hx].
  - assert (Hx' : / x < 0) by now apply Rinv_lt_0_compat.
    destruct (Rle_dec 0 y) as [Hy|Hy].
    + assert (y / x <= 0) by (unfold Rdiv; nra).
      assert (atan (y / x) <= atan 0).
      { destruct (Req_dec (y / x) 0) as [->|]; [lra|].
        left. apply atan_increasing. lra. }
      rewrite atan_0 in *. lra.
    + assert (0 < y / x) by (unfold Rdiv; nra).
      assert (atan 0 < atan (y / x)) by now apply atan_increasing.
      rewrite atan_0 in *. lra.
  - destruct (Rlt_dec 0 y); [lra|]. destruct (Rlt_dec y 0); lra.
Qed.

Lemma sum_close {A : Type} (f g : A -> R) (l : list A) (delta : R) :
  (forall a, In a l -> Rabs (f a - g a) <= delta) ->
  Rabs (sum (map f l) - sum (map g l)) <= INR (List.length l) * delta.
Proof.
  induction l as [|a l IH]; intros H.
  - simpl. rewrite Rminus_diag, Rabs_R0. lra.
  - change (List.length (a :: l)) with (S (List.length l)). rewrite S_INR.
    simpl map. simpl sum.
    specialize (IH (fun b Hb => H b (or_intror Hb))).
    pose proof (H a (or_introl eq_refl)) as Ha.
    apply Rabs_le_iff in IH, Ha. apply Rabs_le_iff. lra.
Qed.

Section Accuracy.

Variable lib : numerics.
Variable e : R.
Hypothesis He : 0 <= e <= 1 / 1000.
Hypothesis Hacc : accurate e lib.

Local Set Warnings "-notation-for-abbreviation".

(** The angle that reaches [sin] and [cos] for a direction of [d]
    degrees. *)
Local Notation reached d :=
  (recast lib (cast_Float32 lib (radians lib d))).

Lemma reached_close (d : R) :
  0 <= d <= 360 ->
  Rabs (reached d - d * (PI / 180)) <= 4 * e /\ Rabs (reached d) <= 100.
Proof.
  intros Hd. pose proof PI_3 as HPI3. pose proof PI_4 as HPI4.
  unfold recast.
  set (x := d * (PI / 180)).
  assert (Hx : 0 <= x <= 8) by (unfold x; nra).
  pose proof (radians_accurate e lib Hacc d Hd) as Hr. fold x in Hr.
  apply Rabs_le_iff in Hr.
  set (r := radians lib d) in *.
  pose proof (cast_Float32_accurate e lib Hacc r) as Hs.
  specialize (Hs ltac:(apply Rabs_le_iff; lra)). apply Rabs_le_iff in Hs.
  set (s := cast_Float32 lib r) in *.
  pose proof (pi_array_accurate e lib Hacc) as Hp. apply Rabs_le_iff in Hp.
  set (p := pi_array lib) in *.
  pose proof (fl_array_accurate e lib Hacc ((s - 0) * 2 * p)) as H3.
  specialize (H3 ltac:(apply Rabs_le_iff; nra)). apply Rabs_le_iff in H3.
  set (u3 := fl_array lib ((s - 0) * 2 * p)) in *.
  assert (Hq : u3 / (2 * p - 0) = s + (u3 - (s - 0) * 2 * p) / (2 * p))
    by (field; lra).
  assert (Hd4 : - (e / 4) <= (u3 - (s - 0) * 2 * p) / (2 * p) <= e / 4).
  { assert (H2p : 0 < / (2 * p)) by (apply Rinv_0_lt_compat; lra).
    assert (/ (2 * p) <= / 4) by (apply Rinv_le_contravar; lra).
    unfold Rdiv. split; nra. }
  pose proof (fl_array_accurate e lib Hacc (u3 / (2 * p - 0))) as H4.
  specialize (H4 ltac:(apply Rabs_le_iff; lra)). apply Rabs_le_iff in H4.
  split; apply Rabs_le_iff; lra.
Qed.

Lemma np_sin_close (d : R) :
  0 <= d <= 360 ->
  Rabs (np_sin lib (reached d) - sin (d * (PI / 180))) <= 5 * e
  /\ Rabs (np_sin lib (reached d)) <= 2.
Proof.
  intros Hd. destruct (reached_close d Hd) as [Ha Hb].
  pose proof (np_sin_accurate e lib Hacc _ Hb) as H1.
  pose proof (sin_lipschitz (reached d) (d * (PI / 180))) as H2.
  pose proof (SIN_bound (d * (PI / 180))) as H3.
  apply Rabs_le_iff in H1. apply Rabs_le_iff in Ha.
  assert (H2' : - (4 * e) <= sin (reached d) - sin (d * (PI / 180)) <= 4 * e).
  { apply Rabs_le_iff. eapply Rle_trans; [exact H2|]. apply Rabs_le_iff. lra. }
  split; apply Rabs_le_iff; lra.
Qed.

Lemma np_cos_close (d : R) :
  0 <= d <= 360 ->
  Rabs (np_cos lib (reached d) - cos (d * (PI / 180))) <= 5 * e
  /\ Rabs (np_cos lib (reached d)) <= 2.
Proof.
  intros Hd. destruct (reached_close d Hd) as [Ha Hb].
  pose proof (np_cos_accurate e lib Hacc _ Hb) as H1.
  pose proof (cos_lipschitz (reached d) (d * (PI / 180))) as H2.
  pose proof (COS_bound (d * (PI / 180))) as H3.
  apply Rabs_le_iff in H1. apply Rabs_le_iff in Ha.
  assert (H2' : - (4 * e) <= cos (reached d) - cos (d * (PI / 180)) <= 4 * e).
  { apply Rabs_le_iff. eapply Rle_trans; [exact H2|]. apply Rabs_le_iff. lra. }
  split; apply Rabs_le_iff; lra.
Qed.

Lemma sums_close (dirs : list R) :
  (forall d, In d dirs -> 0 <= d <= 360) ->
  let n := INR (List.length dirs) in
  Rabs (sin_sum lib (samples lib dirs)
        - sum (map (fun d => sin (d * (PI / 180))) dirs))
  <= e * (5 * n + n * n)
  /\ Rabs (cos_sum lib (samples lib dirs)
           - sum (map (fun d => cos (d * (PI / 180))) dirs))
     <= e * (5 * n + n * n).
Proof.
  intros Hd n. unfold sin_sum, cos_sum, samples. rewrite !map_map. split.
  - pose proof (np_sum_accurate e lib Hacc
                  (map (fun d => np_sin lib (reached d)) dirs)) as H1.
    rewrite length_map in H1. fold n in H1.
    assert (Hb : forall x,
               In x (map (fun d => np_sin lib (reached d)) dirs) ->
               Rabs x <= 2).
    { intros x Hx. apply in_map_iff in Hx as (d & <- & Hin).
      now apply np_sin_close, Hd. }
    specialize (H1 Hb).
    pose proof (sum_close (fun d => np_sin lib (reached d))
                  (fun d => sin (d * (PI / 180))) dirs (5 * e)) as H2.
    specialize (H2 (fun d Hin => proj1 (np_sin_close d (Hd d Hin)))).
    fold n in H2. apply Rabs_le_iff in H1, H2. apply Rabs_le_iff. lra.
  - pose proof (np_sum_accurate e lib Hacc
                  (map (fun d => np_cos lib (reached d)) dirs)) as H1.
    rewrite length_map in H1. fold n in H1.
    assert (Hb : forall x,
               In x (map (fun d => np_cos lib (reached d)) dirs) ->
               Rabs x <= 2).
    { intros x Hx. apply in_map_iff in Hx as (d & <- & Hin).
      now apply np_cos_close, Hd. }
    specialize (H1 Hb).
    pose proof (sum_close (fun d => np_cos lib (reached d))
                  (fun d => cos (d * (PI / 180))) dirs (5 * e)) as H2.
    specialize (H2 (fun d Hin => proj1 (np_cos_close d (Hd d Hin)))).
    fold n in H2. apply Rabs_le_iff in H1, H2. apply Rabs_le_iff. lra.
Qed.

(** From the angle [arctan2] returns to the mean in degrees. *)
Lemma WIND_DIRECTION_agg_close (dirs : list R) :
  let C := cos_sum lib (samples lib dirs) in
  let S := sin_sum lib (samples lib dirs) in
  C <> 0 \/ S <> 0 ->
  let theta := arctan2 S C * (180 / PI) in
  Rabs (WIND_DIRECTION_agg lib dirs - theta) <= 500 * e
  \/ Rabs (WIND_DIRECTION_agg lib dirs - (theta + 360)) <= 500 * e.
Proof.
  intros C S Hnz theta. pose proof PI_3 as HPI3. pose proof PI_4 as HPI4.
  unfold WIND_DIRECTION_agg, circmean. fold C S.
  pose proof (arctan2_bound S C) as Hth.
  set (t := arctan2 S C) in *.
  pose proof (np_arctan2_accurate e lib Hacc _ _ Hnz) as Hres. fold t in Hres.
  set (res := np_arctan2 lib S C) in *.
  pose proof (pi_scalar_accurate e lib Hacc) as Hp. apply Rabs_le_iff in Hp.
  set (p := pi_scalar lib) in *.
  (* the angle after the wrap *)
  set (w := if Rlt_dec res 0 then fl_scalar lib (res + 2 * p) else res).
  assert (Hw : - 1 <= w <= 9
               /\ (- (4 * e) <= w - t <= 4 * e
                   \/ - (4 * e) <= w - (t + 2 * PI) <= 4 * e)).
  { unfold w. destruct (Rlt_dec res 0) as [Hneg|Hpos].
    - pose proof (fl_scalar_accurate e lib Hacc (res + 2 * p)) as Hf.
      destruct Hres as [Hres|(Hy & Hx & Hres)]; apply Rabs_le_iff in Hres.
      + specialize (Hf ltac:(apply Rabs_le_iff; lra)).
        apply Rabs_le_iff in Hf. split; [lra|]. right. lra.
      + specialize (Hf ltac:(apply Rabs_le_iff; lra)).
        apply Rabs_le_iff in Hf.
        assert (Et : t = PI).
        { unfold t, arctan2. rewrite Hy.
          destruct (Rlt_dec 0 C); [lra|].
          destruct (Rlt_dec C 0); [|lra].
          destruct (Rle_dec 0 0); [|lra].
          unfold Rdiv. rewrite Rmult_0_l, atan_0. lra. }
        split; [lra|]. left. lra.
    - destruct Hres as [Hres|(Hy & Hx & Hres)]; apply Rabs_le_iff in Hres;
        [split; [lra|]; left; lra|].
      exfalso. lra. }
  destruct Hw as [Hwb Hw].
  pose proof (fl_scalar_accurate e lib Hacc (w * (2 * p - 0))) as H1.
  specialize (H1 ltac:(apply Rabs_le_iff; nra)). apply Rabs_le_iff in H1.
  set (t1 := fl_scalar lib (w * (2 * p - 0))) in *.
  assert (Hq : t1 / 2 / p = w + (t1 - w * (2 * p - 0)) / (2 * p))
    by (field; lra).
  assert (Hd4 : - (e / 4) <= (t1 - w * (2 * p - 0)) / (2 * p) <= e / 4).
  { assert (H2p : 0 < / (2 * p)) by (apply Rinv_0_lt_compat; lra).
    assert (/ (2 * p) <= / 4) by (apply Rinv_le_contravar; lra).
    unfold Rdiv. split; nra. }
  pose proof (fl_scalar_accurate e lib Hacc (t1 / 2 / p)) as H2.
  specialize (H2 ltac:(apply Rabs_le_iff; lra)). apply Rabs_le_iff in H2.
  set (out := fl_scalar lib (t1 / 2 / p)) in *.
  pose proof (degrees_accurate e lib Hacc (out + 0)) as H3.
  specialize (H3 ltac:(apply Rabs_le_iff; lra)). apply Rabs_le_iff in H3.
  assert (Hk : 0 < 180 / PI <= 60).
  { split; [apply Rdiv_lt_0_compat; lra|].
    apply Rle_trans with (180 / 3); [|lra].
    unfold Rdiv. apply Rmult_le_compat_l; [lra|].
    apply Rinv_le_contravar; lra. }
  assert (Ek : 2 * PI * (180 / PI) = 360) by (field; lra).
  unfold theta.
  destruct Hw as [Hw|Hw]; [left|right]; apply Rabs_le_iff; nra.
Qed.

End Accuracy.

Lemma directions_complete (g : list weather_row) :
  (forall r, In r g -> WIND_DIRECTION r <> None) ->
  directions g = Some (map bearing g).
Proof.
  induction g as [|r g IH]; intros H; [reflexivity|]. simpl.
  rewrite IH by (intros r' Hr'; apply H; now right).
  unfold bearing. pose proof (H r (or_introl eq_refl)) as Hr.
  destruct (WIND_DIRECTION r); [reflexivity | contradiction].
Qed.

Lemma exact_numerics_accurate (e : R) : 0 <= e -> accurate e exact_numerics.
Proof.
  intros He.
  constructor; simpl; intros; rewrite Rminus_diag, Rabs_R0; nra.
Qed.

Lemma cos_10_degrees : 1 / 2 < cos (10 * (PI / 180)).
Proof.
  pose proof PI_3. rewrite <- cos_PI3.
  apply cos_decreasing_1; lra.
Qed.

Lemma sin_350_degrees : sin (350 * (PI / 180)) = - sin (10 * (PI / 180)).
Proof.
  replace (350 * (PI / 180)) with (- (10 * (PI / 180)) + 2 * INR 1 * PI)
    by (simpl; field).
  now rewrite sin_period, sin_neg.
Qed.

Lemma cos_350_degrees : cos (350 * (PI / 180)) = cos (10 * (PI / 180)).
Proof.
  replace (350 * (PI / 180)) with (- (10 * (PI / 180)) + 2 * INR 1 * PI)
    by (simpl; field).
  now rewrite cos_period, cos_neg.
Qed.

(** C6, for functions accurate to [e]. On a bucket whose rows all have a
    direction between 0 and 360 degrees, the wind direction is, within
    [500 e] degrees and up to a full turn, the angle of a vector each of
    whose components is within [e (5 n + n^2)] of the sum of the unit
    vectors of the [n] directions: the circular mean, up to rounding. For
    the directions 350 and 10 it is within [2500 e] degrees of 0 or of 360,
    where the linear mean is 180. *)
Theorem WIND_DIRECTION_agg_circular_mean :
  forall (lib : numerics) (e : R),
    0 <= e <= 1 / 1000 ->
    accurate e lib ->
    (forall g : list weather_row,
       (forall r, In r g ->
          WIND_DIRECTION r <> None /\ 0 <= bearing r <= 360) ->
       let n := INR (List.length g) in
       exists mean C S,
         bucket_WIND_DIRECTION lib g = Some mean
         /\ Rabs (C - resultant_cos g) <= e * (5 * n + n * n)
         /\ Rabs (S - resultant_sin g) <= e * (5 * n + n * n)
         /\ (C <> 0 \/ S <> 0 ->
             let theta := arctan2 S C * (180 / PI) in
             Rabs (mean - theta) <= 500 * e
             \/ Rabs (mean - (theta + 360)) <= 500 * e))
    /\ (exists mean,
          bucket_WIND_DIRECTION lib
            [blowing (make 2024 1 10 12 0 0 0) 350;
             blowing (make 2024 1 10 12 1 0 0) 10] = Some mean
          /\ (Rabs mean <= 2500 * e \/ Rabs (mean - 360) <= 2500 * e))
    /\ linear_mean [350; 10] = 180.
Proof.
  intros lib e He Hacc.
  assert (General : forall g : list weather_row,
       (forall r, In r g ->
          WIND_DIRECTION r <> None /\ 0 <= bearing r <= 360) ->
       let n := INR (List.length g) in
       exists mean C S,
         bucket_WIND_DIRECTION lib g = Some mean
         /\ Rabs (C - resultant_cos g) <= e * (5 * n + n * n)
         /\ Rabs (S - resultant_sin g) <= e * (5 * n + n * n)
         /\ (C <> 0 \/ S <> 0 ->
             let theta := arctan2 S C * (180 / PI) in
             Rabs (mean - theta) <= 500 * e
             \/ Rabs (mean - (theta + 360)) <= 500 * e)).
  { intros g Hg n.
    exists (WIND_DIRECTION_agg lib (map bearing g)),
           (cos_sum lib (samples lib (map bearing g))),
           (sin_sum lib (samples lib (map bearing g))).
    unfold bucket_WIND_DIRECTION.
    rewrite (directions_complete g (fun r Hr => proj1 (Hg r Hr))).
    split; [reflexivity|].
    destruct (sums_close lib e He Hacc (map bearing g)) as [Hs Hc].
    { intros d Hd. apply in_map_iff in Hd as (r & <- & Hr).
      now apply Hg. }
    rewrite length_map, map_map in Hs, Hc. fold n in Hs, Hc.
    split; [exact Hc|]. split; [exact Hs|].
    intros Hnz. now apply (WIND_DIRECTION_agg_close lib e He Hacc). }
  split; [exact General|]. split.
  - pose proof PI_3 as HPI3. pose proof PI_4 as HPI4.
    destruct (General [blowing (make 2024 1 10 12 0 0 0) 350;
                       blowing (make 2024 1 10 12 1 0 0) 10])
      as (mean & C & S & Em & HC & HS & Hm).
    { intros r [<- | [<- | []]]; (split; [discriminate|]);
        unfold bearing, Q2R; simpl; lra. }
    exists mean. split; [exact Em|].
    assert (EC : resultant_cos [blowing (make 2024 1 10 12 0 0 0) 350;
                                blowing (make 2024 1 10 12 1 0 0) 10]
                 = 2 * cos (10 * (PI / 180))).
    { unfold resultant_cos, bearing, sum. simpl.
      replace (Q2R 350) with 350 by (unfold Q2R; simpl; field).
      replace (Q2R 10) with 10 by (unfold Q2R; simpl; field).
      rewrite cos_350_degrees. ring. }
    assert (ES : resultant_sin [blowing (make 2024 1 10 12 0 0 0) 350;
                                blowing (make 2024 1 10 12 1 0 0) 10]
                 = 0).
    { unfold resultant_sin, bearing, sum. simpl.
      replace (Q2R 350) with 350 by (unfold Q2R; simpl; field).
      replace (Q2R 10) with 10 by (unfold Q2R; simpl; field).
      rewrite sin_350_degrees. ring. }
    rewrite EC in HC. rewrite ES in HS. simpl in HC, HS.
    pose proof cos_10_degrees as Hcos.
    apply Rabs_le_iff in HC, HS.
    assert (HCpos : 98 / 100 <= C) by lra.
    specialize (Hm ltac:(left; lra)). cbv zeta in Hm.
    assert (Ea : arctan2 S C = atan (S / C)).
    { unfold arctan2. destruct (Rlt_dec 0 C); [reflexivity | lra]. }
    rewrite Ea in Hm.
    assert (Hq : Rabs (S / C) <= 15 * e).
    { apply Rabs_le_iff.
      assert (HiC : 0 < / C <= 100 / 98).
      { split; [apply Rinv_0_lt_compat; lra|].
        replace (100 / 98) with (/ (98 / 100)) by field.
        apply Rinv_le_contravar; lra. }
      unfold Rdiv. split; nra. }
    pose proof (atan_small (S / C) (15 * e) ltac:(lra) Hq) as Hatan.
    apply Rabs_le_iff in Hatan.
    assert (Hk : 0 < 180 / PI <= 60).
    { split; [apply Rdiv_lt_0_compat; lra|].
      apply Rle_trans with (180 / 3); [|lra].
      unfold Rdiv. apply Rmult_le_compat_l; [lra|].
      apply Rinv_le_contravar; lra. }
    assert (Hth : - (1800 * e) <= atan (S / C) * (180 / PI) <= 1800 * e)
      by nra.
    destruct Hm as [Hm|Hm]; apply Rabs_le_iff in Hm; [left|right];
      apply Rabs_le_iff; lra.
  - unfold linear_mean, sum; simpl. field.
Qed.

Lemma WIND_DIRECTION_agg_circular_mean_witness :
  exists mean,
    bucket_WIND_DIRECTION exact_numerics
      [blowing (make 2024 1 10 12 0 0 0) 350;
       blowing (make 2024 1 10 12 1 0 0) 10] = Some mean
    /\ (Rabs mean <= 2500 * (1 / 262144)
        \/ Rabs (mean - 360) <= 2500 * (1 / 262144)).
Proof.
  apply (WIND_DIRECTION_agg_circular_mean exact_numerics (1 / 262144)).
  - lra.
  - apply exact_numerics_accurate. lra.
Defined.

(** C6 as stated fails on a bucket in which a row has no direction, as a
    forecast row has when the service names one of the eight intermediate
    winds: the bucket gets no mean, although its other row has a
    direction. *)
Lemma bucket_WIND_DIRECTION_null :
  let g := [predicted (make 2024 1 10 13 0 0 0) 33 6;
            intermediate_wind (make 2024 1 10 13 1 0 0)] in
  map WIND_DIRECTION g = [Some 180%Q; None]
  /\ bucket_WIND_DIRECTION exact_numerics g = None.
Proof. split; reflexivity. Qed.

End CircularFacts.

(** * Properties of the rest of the pipeline *)

(** ** Day and night shading *)

Ltac split_shapes :=
  repeat match goal with
         | H : Exists _ (_ :: _) |- _ => apply Exists_cons in H; destruct H as [H | H]
         | H : Exists _ [] |- _ => apply Exists_nil in H; contradiction
         | H : Exists _ (_ ++ _) |- _ => apply Exists_app in H; destruct H as [H | H]
         end.

Lemma shade_day_night (sunrise sunset : datetime -> datetime)
    (plot_start_date plot_end_date day t : datetime) :
  sun_in_day sunrise sunset day ->
  plot_start_date < t < plot_end_date ->
  Exists (fun s => covers s t)
    (shade_day sunrise sunset plot_start_date plot_end_date day)
  <-> night_of sunrise sunset day t.
Proof.
  intros (H1 & H2 & H3) Ht. unfold shade_day, night_of.
  set (AM := replace_hms day 0 0 0) in *.
  set (PM := replace_hms day 23 59 59) in *.
  set (sr := sunrise day) in *. set (ss := sunset day) in *.
  split.
  - intros H.
    destruct (Z.leb_spec plot_start_date AM);
      destruct (Z.leb_spec sr plot_end_date);
      destruct (Z.leb_spec plot_start_date ss);
      destruct (Z.leb_spec PM plot_end_date);
      destruct (Z.ltb_spec PM plot_end_date);
      split_shapes; simpl in H; lia.
  - intros H.
    destruct (Z.leb_spec plot_start_date AM);
      destruct (Z.leb_spec sr plot_end_date);
      destruct (Z.leb_spec plot_start_date ss);
      destruct (Z.leb_spec PM plot_end_date);
      destruct (Z.ltb_spec PM plot_end_date);
      try lia;
      (destruct H as [H | H]; [apply Exists_app; left | apply Exists_app; right]);
      repeat (first [ apply Exists_cons_hd; simpl; lia
                    | apply Exists_cons_tl ]).
Qed.

Lemma in_shaded_days (plot_start_date plot_end_date k : Z) :
  In k (shaded_days plot_start_date plot_end_date)
  <-> 0 <= k < (plot_end_date - plot_start_date) / us_per_day + 2.
Proof.
  unfold shaded_days. rewrite in_map_iff. split.
  - intros (n & <- & Hn). apply in_seq in Hn. lia.
  - intros Hk. exists (Z.to_nat k). split; [lia|]. apply in_seq. lia.
Qed.

Lemma midnight_of_day (t k : Z) :
  replace_hms (t + timedelta k 0) 0 0 0
  = (date_ordinal t + k) * us_per_day + microsecond t.
Proof.
  unfold replace_hms, timedelta.
  replace (t + (k * us_per_day + 0 * us_per_minute))
    with (t + k * us_per_day) by ring.
  rewrite date_ordinal_shift, microsecond_shift. unfold datetime. ring.
Qed.

Lemma day_of_instant (plot_start_date plot_end_date t : datetime) :
  plot_start_date <= t <= plot_end_date ->
  exists k, In k (shaded_days plot_start_date plot_end_date)
    /\ replace_hms (plot_start_date + timedelta k 0) 0 0 0 <= t
       < replace_hms (plot_start_date + timedelta k 0) 0 0 0 + us_per_day.
Proof.
  intros Ht.
  set (AM := date_ordinal plot_start_date * us_per_day
             + microsecond plot_start_date).
  assert (HAM : AM <= plot_start_date < AM + us_per_day).
  { unfold AM, date_ordinal, microsecond, us_per_day, us_per_hour,
      us_per_minute, us_per_second, datetime in *.
    Z.div_mod_to_equations. lia. }
  exists ((t - AM) / us_per_day). rewrite in_shaded_days, midnight_of_day.
  fold AM.
  replace ((date_ordinal plot_start_date + (t - AM) / us_per_day) * us_per_day
           + microsecond plot_start_date)
    with (AM + (t - AM) / us_per_day * us_per_day) by (unfold AM; ring).
  unfold us_per_day, us_per_hour, us_per_minute, us_per_second, datetime in *.
  Z.div_mod_to_equations. lia.
Qed.

(** Inside the visible window, an instant lies under a shading rectangle
    exactly when it is in the night of one of the days the loop runs over,
    and every instant of the window belongs to one of these days. The
    rectangles that spill over are outside the window. *)
Theorem shading_is_night :
  forall (sunrise sunset : datetime -> datetime)
         (plot_start_date plot_end_date t : datetime),
    let first_minute := replace_second plot_start_date 0 in
    let day k := first_minute + timedelta k 0 in
    (forall k, In k (shaded_days first_minute plot_end_date) ->
       sun_in_day sunrise sunset (day k)) ->
    first_minute < t < plot_end_date ->
    exists shapes,
      add_background_shading_to_figure sunrise sunset
        (Some plot_start_date) (Some plot_end_date) = Some shapes
      /\ (Exists (fun s => covers s t) shapes
          <-> exists k, In k (shaded_days first_minute plot_end_date)
                /\ night_of sunrise sunset (day k) t)
      /\ exists k, In k (shaded_days first_minute plot_end_date)
           /\ replace_hms (day k) 0 0 0 <= t
              < replace_hms (day k) 0 0 0 + us_per_day.
Proof.
  intros sunrise sunset s e t first_minute day Hsun Ht.
  eexists. split; [reflexivity|]. fold first_minute. split.
  - rewrite Exists_exists. split.
    + intros (sh & Hin & Hc). apply in_flat_map in Hin as (k & Hk & Hin).
      exists k. split; [exact Hk|].
      apply (shade_day_night sunrise sunset first_minute e (day k) t);
        [now apply Hsun | exact Ht |].
      apply Exists_exists. eauto.
    + intros (k & Hk & Hn).
      apply (shade_day_night sunrise sunset first_minute e (day k) t) in Hn;
        [| now apply Hsun | exact Ht].
      apply Exists_exists in Hn as (sh & Hin & Hc).
      exists sh. split; [|exact Hc]. apply in_flat_map. eauto.
  - apply day_of_instant. lia.
Qed.

Lemma shading_is_night_witness :
  exists shapes,
    add_background_shading_to_figure sunrise_at_7 sunset_at_17
      (Some (make 2024 1 10 10 0 30 0)) (Some (make 2024 1 11 15 0 0 0))
    = Some shapes
    /\ Exists (fun s => covers s (make 2024 1 10 20 0 0 0)) shapes.
Proof.
  destruct (shading_is_night sunrise_at_7 sunset_at_17
              (make 2024 1 10 10 0 30 0) (make 2024 1 11 15 0 0 0)
              (make 2024 1 10 20 0 0 0)) as (shapes & E & Hiff & _).
  - intros k Hk. apply in_shaded_days in Hk.
    assert (Hc : k = 0 \/ k = 1 \/ k = 2)
      by (revert Hk; vm_compute; intros [H1 H2];
          destruct k as [|[p|p|]|]; try (now auto); try discriminate;
          destruct p; try discriminate; now auto).
    destruct Hc as [-> | [-> | ->]]; vm_compute; repeat split; discriminate.
  - vm_compute. split; reflexivity.
  - exists shapes. split; [exact E|]. apply Hiff.
    exists 0. split; [vm_compute; now left|].
    right. vm_compute. split; discriminate.
Defined.

(** ** Order of the frames *)

Lemma insert_asc_sorted {A : Type} (key : A -> Z) (a : A) (l : list A) :
  StronglySorted (fun x y => key x <= key y) l ->
  StronglySorted (fun x y => key x <= key y) (insert_asc key a l).
Proof.
  induction 1 as [|b l Hl IH Hb]; simpl.
  - constructor; constructor.
  - destruct (Z.ltb_spec (key a) (key b)) as [Hlt|Hge].
    + constructor; [constructor; assumption|].
      constructor; [lia|]. eapply Forall_impl; [|exact Hb].
      intros c Hc. simpl in Hc. lia.
    + constructor; [exact IH|].
      apply (Permutation_Forall (Permutation_sym (insert_asc_perm key a l))).
      constructor; [exact Hge | exact Hb].
Qed.

Lemma sort_asc_sorted {A : Type} (key : A -> Z) (l : list A) :
  StronglySorted (fun x y => key x <= key y) (sort_asc key l).
Proof.
  induction l as [|a l IH]; simpl; [constructor|].
  now apply insert_asc_sorted.
Qed.

Lemma insert_desc_sorted {A : Type} (key : A -> Z) (a : A) (l : list A) :
  StronglySorted (fun x y => key y <= key x) l ->
  StronglySorted (fun x y => key y <= key x) (insert_desc key a l).
Proof.
  induction 1 as [|b l Hl IH Hb]; simpl.
  - constructor; constructor.
  - destruct (Z.ltb_spec (key b) (key a)) as [Hlt|Hge].
    + constructor; [constructor; assumption|].
      constructor; [lia|]. eapply Forall_impl; [|exact Hb].
      intros c Hc. simpl in Hc. lia.
    + constructor; [exact IH|].
      apply (Permutation_Forall (Permutation_sym (insert_desc_perm key a l))).
      constructor; [exact Hge | exact Hb].
Qed.

Lemma sort_desc_sorted {A : Type} (key : A -> Z) (l : list A) :
  StronglySorted (fun x y => key y <= key x) (sort_desc key l).
Proof.
  induction l as [|a l IH]; simpl; [constructor|].
  now apply insert_desc_sorted.
Qed.

Lemma col_max_ids (rows : list observation) (m : Q) :
  col_max (map (fun r => Some (id r)) rows) = Some m ->
  forall r, In r rows -> (id r <= m)%Q.
Proof.
  intros H r Hr. apply (proj2 (col_max_spec _ _ H)).
  apply in_map_iff. now exists r.
Qed.

(** The frame of observations is sorted newest first; each of its rows has
    a local timestamp later than the clock reading minus three days, and
    comes from a log row whose id is within 4000 of the largest id of the
    log. *)
Theorem read_weather_observations_newest_first :
  forall (convert_time_zone : datetime -> datetime) (utcnow : datetime)
         (rows : list observation),
  exists out,
    read_weather_observations convert_time_zone utcnow (Some rows) = Some out
    /\ StronglySorted (fun a b => o_DATE b <= o_DATE a) out
    /\ forall o, In o out ->
         utcnow - 3 * us_per_day < o_DATE o
         /\ exists r, In r rows
              /\ o_TEMP o = tempf r
              /\ (forall r', In r' rows -> (id r' - 4000 <= id r)%Q).
Proof.
  intros tz utcnow rows. eexists. split; [reflexivity|].
  split; [apply sort_desc_sorted|].
  intros o Ho. apply (Permutation_in _ (sort_desc_perm _ _)) in Ho.
  apply in_filter_map in Ho as (r & Hr & Hf).
  apply recent_row_iff in Hf as (t & Ht & Hlt & ->). split.
  - cbn [o_DATE to_observation_row].
    unfold timedelta, us_per_day, us_per_hour, us_per_minute, us_per_second,
      datetime in *. lia.
  - exists r. unfold last_4000 in Hr.
    destruct (col_max (map (fun r0 => Some (id r0)) rows)) as [m|] eqn:Em;
      [|contradiction].
    apply filter_In in Hr as [Hr Hid]. apply Qle_bool_iff in Hid.
    split; [exact Hr|]. split; [reflexivity|].
    intros r' Hr'. pose proof (col_max_ids rows m Em r' Hr') as Hle.
    apply Qle_trans with (m - 4000)%Q; [|exact Hid].
    unfold Qminus. apply Qplus_le_compat; [exact Hle | apply Qle_refl].
Qed.

(** The frame of predictions is sorted by start time, oldest first. *)
Lemma read_weather_predictions_oldest_first :
  forall (convert_time_zone : datetime -> datetime) (utcnow1 utcnow2 : datetime)
         (log : list prediction),
  exists out,
    read_weather_predictions convert_time_zone utcnow1 utcnow2 (Some log)
    = Some out
    /\ StronglySorted (fun a b => p_DATE a <= p_DATE b) out.
Proof.
  intros tz now1 now2 log. eexists. split; [reflexivity|].
  apply sort_asc_sorted.
Qed.

(** The merged series is two runs, not one ordered series: the observed
    rows first, from the newest to the oldest, then the forecast rows, from
    the oldest to the newest. *)
Theorem make_weather_df_two_runs :
  forall (convert_time_zone : datetime -> datetime)
         (utcnow utcnow1 utcnow2 : datetime)
         (observations : list observation) (predictions : list prediction),
  exists o p,
    make_weather_df
      (read_weather_observations convert_time_zone utcnow (Some observations))
      (read_weather_predictions convert_time_zone utcnow1 utcnow2
         (Some predictions))
    = Some (map of_observation_row o ++ map of_prediction_row p)
    /\ StronglySorted (fun a b => o_DATE b <= o_DATE a) o
    /\ StronglySorted (fun a b => p_DATE a <= p_DATE b) p
    /\ observed_rows (map of_observation_row o ++ map of_prediction_row p)
       = map of_observation_row o
    /\ predicted_rows (map of_observation_row o ++ map of_prediction_row p)
       = map of_prediction_row p.
Proof.
  intros tz now now1 now2 obs preds.
  destruct (read_weather_predictions_oldest_first tz now1 now2 preds)
    as (p & Ep & Hp).
  exists (sort_desc o_DATE
            (filter_map (recent_row tz now) (last_4000 obs))), p.
  rewrite Ep. split; [reflexivity|]. split; [apply sort_desc_sorted|].
  split; [exact Hp|].
  pose proof (read_weather_predictions_flag _ _ _ _ _ Ep) as Hflag.
  set (o := sort_desc o_DATE _). clearbody o. clear Ep Hp.
  unfold observed_rows, predicted_rows. rewrite !filter_app. split.
  - replace (filter _ (map of_prediction_row p)) with (@nil weather_row).
    + rewrite app_nil_r. induction o as [|a o IH]; simpl; [reflexivity|].
      now rewrite IH.
    + induction p as [|a p IH]; simpl; [reflexivity|].
      rewrite (Hflag a (or_introl eq_refl)). simpl.
      apply IH. intros r Hr. apply Hflag. now right.
  - replace (filter _ (map of_observation_row o)) with (@nil weather_row).
    + simpl. induction p as [|a p IH]; simpl; [reflexivity|].
      rewrite (Hflag a (or_introl eq_refl)). f_equal.
      apply IH. intros r Hr. apply Hflag. now right.
    + induction o as [|a o IH]; simpl; [reflexivity|]. exact IH.
Qed.

(** ** The wind chart: one marker per window, in time order *)

Lemma gb_min_at_least_2 (plot_df : list weather_row) : 2 <= gb_min plot_df.
Proof.
  unfold gb_min.
  match goal with |- 2 <= (if ?g <? 2 then _ else _) =>
    destruct (Z.ltb_spec g 2); lia end.
Qed.

Lemma window_start_monotone (every t1 t2 : Z) :
  0 < every -> t1 <= t2 -> window_start every t1 <= window_start every t2.
Proof.
  intros He Ht. unfold window_start.
  apply Z.mul_le_mono_nonneg_r; [lia|]. now apply Z.div_le_mono.
Qed.

Lemma window_start_bounds (every t : Z) :
  0 < every -> window_start every t <= t < window_start every t + every.
Proof.
  intros He. unfold window_start.
  pose proof (Z.div_mod t every ltac:(lia)) as E.
  pose proof (Z.mod_pos_bound t every He). lia.
Qed.

Lemma groupby_dynamic_increasing (every : Z) (sorted : list weather_row) :
  0 < every ->
  StronglySorted (fun a b => DATE a <= DATE b) sorted ->
  StronglySorted Z.lt (map fst (groupby_dynamic every sorted)).
Proof.
  intros He. induction 1 as [|r l Hl IH Hr]; simpl; [constructor|].
  pose proof (groupby_dynamic_groups every l) as G.
  destruct (groupby_dynamic every l) as [|[k g] rest]; simpl in *.
  - constructor; constructor.
  - assert (Hk : window_start every (DATE r) <= k).
    { inversion G as [|? ? [Hne Hg] _]; subst. simpl in *.
      destruct g as [|r0 g]; [contradiction|].
      destruct (Hg r0 (or_introl eq_refl)) as [Hin <-].
      apply window_start_monotone; [exact He|].
      rewrite Forall_forall in Hr. now apply Hr. }
    destruct (Z.eqb_spec (window_start every (DATE r)) k) as [Ek|Ek]; simpl.
    + exact IH.
    + constructor; [exact IH|].
      inversion IH as [|? ? _ Hrest]; subst.
      constructor; [lia|]. eapply Forall_impl; [|exact Hrest].
      intros k' Hk'. simpl in Hk'. lia.
Qed.

(** The markers of the wind chart come in strictly increasing time, one
    for each window of [gb_min] minutes that holds a visible row; the
    abscissa of a marker is the start of its window, and each visible row
    lies in the window of one marker. *)
Theorem wind_scatters_one_per_window :
  forall (weather_df : list weather_row)
         (plot_start_date plot_end_date : option datetime)
         (now1 now2 : datetime),
    let plot_df :=
      filter_weather_df_by_date weather_df plot_start_date plot_end_date
        now1 now2 in
    let every := gb_min plot_df * us_per_minute in
    StronglySorted Z.lt
      (map s_x (wind_scatters weather_df plot_start_date plot_end_date
                  now1 now2))
    /\ (forall m,
          In m (wind_scatters weather_df plot_start_date plot_end_date
                  now1 now2) ->
          exists r, In r plot_df /\ s_x m = window_start every (DATE r))
    /\ (forall r, In r plot_df ->
          exists m,
            In m (wind_scatters weather_df plot_start_date plot_end_date
                    now1 now2)
            /\ s_x m <= DATE r < s_x m + every).
Proof.
  intros weather_df s e now1 now2 plot_df every.
  assert (He : 0 < every).
  { unfold every. pose proof (gb_min_at_least_2 plot_df).
    unfold us_per_minute, us_per_second. lia. }
  assert (Ex : forall g, s_x (wind_scatter (agg_bucket g)) = fst g).
  { intros g. unfold wind_scatter. destruct (b_PREDICTION (agg_bucket g))
      as [[|]|]; reflexivity. }
  unfold wind_scatters. fold plot_df. unfold wind_buckets. fold every.
  pose proof (groupby_dynamic_groups every (sort_asc DATE plot_df)) as G.
  rewrite Forall_forall in G. split; [|split].
  - rewrite map_map. rewrite (map_ext _ fst) by exact Ex.
    apply groupby_dynamic_increasing; [exact He | apply sort_asc_sorted].
  - intros m Hm. apply in_map_iff in Hm as (g & <- & Hg).
    destruct (G g Hg) as [Hne Hrows]. rewrite Ex.
    destruct (snd g) as [|r0 rest] eqn:Eg; [contradiction|].
    destruct (Hrows r0 (or_introl eq_refl)) as [Hin Hw].
    exists r0. split; [|now rewrite Hw].
    eapply Permutation_in; [apply sort_asc_perm | exact Hin].
  - intros r Hr.
    assert (Hin : In r (List.concat
                          (map snd (groupby_dynamic every
                                      (sort_asc DATE plot_df))))).
    { rewrite groupby_dynamic_concat.
      eapply Permutation_in; [apply Permutation_sym, sort_asc_perm|].
      exact Hr. }
    apply in_concat in Hin as (rows & Hrows & Hrin).
    apply in_map_iff in Hrows as (g & <- & Hg).
    exists (wind_scatter (agg_bucket g)). split.
    + apply in_map_iff. now exists g.
    + rewrite Ex. destruct (G g Hg) as [_ Hw].
      destruct (Hw r Hrin) as [_ <-]. now apply window_start_bounds.
Qed.

(** ** The window filter with an explicit range *)

Lemma filter_filter_and {A : Type} (f g : A -> bool) (l : list A) :
  filter f (filter g l) = filter (fun a => g a && f a) l.
Proof.
  induction l as [|a l IH]; simpl; [reflexivity|].
  destruct (g a); simpl; [destruct (f a)|]; now rewrite IH.
Qed.

(** Filtering to one explicit range and then to another keeps the rows of
    the intersection of the two ranges; in particular filtering twice to
    the same range changes nothing the second time. The clock is not read
    when both ends are given. *)
Theorem filter_weather_df_by_date_explicit :
  forall (weather_df : list weather_row) (s1 e1 s2 e2 : datetime)
         (now1 now2 now3 now4 : datetime),
    filter_weather_df_by_date
      (filter_weather_df_by_date weather_df (Some s1) (Some e1) now1 now2)
      (Some s2) (Some e2) now3 now4
    = filter_weather_df_by_date weather_df
        (Some (Z.max s1 s2)) (Some (Z.min e1 e2)) now1 now2
    /\ filter_weather_df_by_date
         (filter_weather_df_by_date weather_df (Some s1) (Some e1) now1 now2)
         (Some s1) (Some e1) now3 now4
       = filter_weather_df_by_date weather_df (Some s1) (Some e1) now3 now4.
Proof.
  intros weather_df s1 e1 s2 e2 now1 now2 now3 now4.
  unfold filter_weather_df_by_date. rewrite !filter_filter_and.
  split; apply filter_ext; intros r;
    repeat match goal with
           | |- context [?a <=? ?b] =>
               destruct (Z.leb_spec a b)
           end; simpl; try reflexivity; lia.
Qed.

(** With no explicit range, the window holds the clock readings
    themselves: it starts before the first and ends after the second. *)
Theorem default_window_holds_now :
  forall now1 now2 : datetime,
    default_plot_start_date now1 < now1
    /\ now2 < default_plot_end_date now2
    /\ now1 - 2 * us_per_day < default_plot_start_date now1
    /\ default_plot_end_date now2 < now2 + 2 * us_per_day.
Proof.
  intros now1 now2.
  rewrite default_plot_start_date_eq, default_plot_end_date_eq.
  unfold date_ordinal, microsecond, us_per_day, us_per_hour, us_per_minute,
    us_per_second, datetime.
  Z.div_mod_to_equations. lia.
Qed.

(** ** The three charts *)

Lemma Zcol_min_none (c : list Z) : Zcol_min c = None <-> c = [].
Proof.
  destruct c as [|a c]; simpl; [tauto|].
  destruct (Zcol_min c); split; discriminate.
Qed.

Lemma Zcol_max_none (c : list Z) : Zcol_max c = None <-> c = [].
Proof.
  destruct c as [|a c]; simpl; [tauto|].
  destruct (Zcol_max c); split; discriminate.
Qed.

Lemma col_max_none (c : list cell) :
  col_max c = None <-> forall o, In o c -> o = None.
Proof.
  induction c as [|[x|] c IH]; simpl.
  - split; [intros _ o [] | reflexivity].
  - split; [destruct (col_max c); discriminate|].
    intros H. specialize (H (Some x) (or_introl eq_refl)). discriminate.
  - rewrite IH. split; [intros H o [<- | Ho]; auto | auto].
Qed.

Lemma col_min_none (c : list cell) :
  col_min c = None <-> forall o, In o c -> o = None.
Proof.
  induction c as [|[x|] c IH]; simpl.
  - split; [intros _ o [] | reflexivity].
  - split; [destruct (col_min c); discriminate|].
    intros H. specialize (H (Some x) (or_introl eq_refl)). discriminate.
  - rewrite IH. split; [intros H o [<- | Ho]; auto | auto].
Qed.

Lemma column_none (col : weather_row -> cell) (weather_df : list weather_row) :
  (forall o, In o (map col weather_df) -> o = None)
  <-> forall r, In r weather_df -> col r = None.
Proof.
  split.
  - intros H r Hr. apply H. now apply in_map.
  - intros H o Ho. apply in_map_iff in Ho as (r & <- & Hr). now apply H.
Qed.

Lemma shading_none (sunrise sunset : datetime -> datetime)
    (plot_df : list weather_row) :
  add_background_shading_to_figure sunrise sunset
    (Zcol_min (map DATE plot_df)) (Zcol_max (map DATE plot_df)) = None
  <-> plot_df = [].
Proof.
  destruct plot_df as [|r l]; simpl; [tauto|].
  destruct (Zcol_min (map DATE l)), (Zcol_max (map DATE l));
    split; discriminate.
Qed.

(** A type with a value on some row is a key of the dictionary. *)
Lemma dict_key_present (weather_df : list weather_row) (d : annotations_dict)
    (a : anno_type) (r : weather_row) (x : Q) :
  make_high_low_annotations_dict weather_df = Some d ->
  In r weather_df -> HIGH_LOW_ALIAS_COL_DICT a r = Some x ->
  exists l, dict_get d a = Some l.
Proof.
  intros Ed Hr Ex.
  destruct (make_high_low_annotations_dict_points weather_df)
    as (d' & Ed' & H).
  rewrite Ed in Ed'. injection Ed' as <-.
  destruct (agg_day_some weather_df (day_key r) a r x Hr eq_refl Ex) as [v Ev].
  pose proof (agg_day_attained weather_df (day_key r) a v Ev) as Hne.
  destruct (this_df weather_df (agg_day weather_df (day_key r)) a v)
    as [|r0 rest] eqn:Ef; [contradiction|].
  assert (Hp : In (DATE r0, v) (annotations d a)).
  { rewrite H. unfold high_low_df. apply points_in. exists (day_key r).
    split; [apply unique_In; now apply in_map|].
    unfold day_point. rewrite Ev, Ef. now left. }
  unfold annotations in Hp. destruct (dict_get d a) as [l|]; [eauto|].
  contradiction.
Qed.

(** When each chart function returns a figure: the rain chart whenever the
    window holds a row; the wind chart when, besides, some row of the
    series has a wind speed; the temperature chart when, besides, some row
    of the series has a temperature and some row a dew point. Otherwise
    the function returns nothing. *)
Theorem charts_returned :
  forall (sunrise sunset : datetime -> datetime)
         (weather_df : list weather_row)
         (plot_start_date plot_end_date : option datetime)
         (now1 now2 : datetime),
    let plot_df :=
      filter_weather_df_by_date weather_df plot_start_date plot_end_date
        now1 now2 in
    (make_rain_fig sunrise sunset weather_df plot_start_date plot_end_date
       now1 now2 = None
     <-> plot_df = [])
    /\ (make_wind_fig sunrise sunset weather_df plot_start_date plot_end_date
          now1 now2 = None
        <-> plot_df = []
            \/ forall r, In r weather_df -> WIND_SPEED r = None)
    /\ (make_temp_fig sunrise sunset weather_df plot_start_date plot_end_date
          now1 now2 = None
        <-> plot_df = []
            \/ (forall r, In r weather_df -> TEMP r = None)
            \/ (forall r, In r weather_df -> DEWPOINT r = None)).
Proof.
  intros sunrise sunset weather_df s e now1 now2 plot_df.
  pose proof (shading_none sunrise sunset plot_df) as Hsh.
  pose proof (Zcol_min_none (map DATE plot_df)) as Hmin.
  pose proof (Zcol_max_none (map DATE plot_df)) as Hmax.
  assert (Hnil : map DATE plot_df = [] <-> plot_df = []).
  { destruct plot_df; simpl; split; intros; congruence. }
  split; [|split].
  - unfold make_rain_fig. fold plot_df.
    destruct (Zcol_min (map DATE plot_df)) as [x0|];
      destruct (Zcol_max (map DATE plot_df)) as [x1|];
      destruct (add_background_shading_to_figure sunrise sunset _ _);
      intuition congruence.
  - unfold make_wind_fig. fold plot_df.
    rewrite <- (column_none WIND_SPEED), <- col_max_none.
    destruct (col_max (map WIND_SPEED weather_df));
      destruct (Zcol_min (map DATE plot_df)) as [x0|];
      destruct (Zcol_max (map DATE plot_df)) as [x1|];
      destruct (add_background_shading_to_figure sunrise sunset _ _);
      intuition congruence.
  - unfold make_temp_fig. fold plot_df.
    rewrite <- (column_none TEMP), <- (column_none DEWPOINT),
      <- col_max_none, <- col_min_none.
    destruct (col_min (map DEWPOINT weather_df)) as [lowest|];
      [|intuition congruence].
    destruct (col_max (map TEMP weather_df)) as [highest|] eqn:Et;
      [|intuition congruence].
    destruct (add_background_shading_to_figure sunrise sunset _ _);
      [|intuition congruence].
    destruct (Zcol_min (map DATE plot_df)) as [x0|]; [|intuition congruence].
    destruct (Zcol_max (map DATE plot_df)) as [x1|]; [|intuition congruence].
    destruct (make_high_low_annotations_dict_points weather_df)
      as (d & Ed & _). rewrite Ed.
    pose proof (proj1 (col_max_spec _ _ Et)) as Hin.
    apply in_map_iff in Hin as (r & Er & Hr).
    destruct (dict_key_present weather_df d High_Temp r highest Ed Hr Er)
      as [l1 E1].
    destruct (dict_key_present weather_df d Low_Temp r highest Ed Hr Er)
      as [l2 E2].
    simpl. rewrite E1, E2. intuition congruence.
Qed.

Lemma make_temp_fig_parts (sunrise sunset : datetime -> datetime)
    (weather_df : list weather_row) (s e : option datetime)
    (now1 now2 : datetime) (fig : temp_figure) :
  make_temp_fig sunrise sunset weather_df s e now1 now2 = Some fig ->
  let plot_df := filter_weather_df_by_date weather_df s e now1 now2 in
  exists lowest highest x0 x1 d markers,
    col_min (map DEWPOINT weather_df) = Some lowest
    /\ col_max (map TEMP weather_df) = Some highest
    /\ Zcol_min (map DATE plot_df) = Some x0
    /\ Zcol_max (map DATE plot_df) = Some x1
    /\ make_high_low_annotations_dict weather_df = Some d
    /\ all_temp_markers x0 x1 d TEMP_ANNOTATIONS = Some markers
    /\ tf_yaxis fig
       = ((lowest - TEMP_PLOT_PADDING)%Q, (highest + TEMP_PLOT_PADDING)%Q)
    /\ tf_xaxis fig = (x0, x1)
    /\ tf_markers fig = markers
    /\ tf_temp fig = line TEMP (observed_rows plot_df)
    /\ tf_dew fig = line DEWPOINT (observed_rows plot_df)
    /\ tf_predicted_temp fig = line TEMP (predicted_rows plot_df)
    /\ tf_predicted_dew fig = line DEWPOINT (predicted_rows plot_df).
Proof.
  intros H. cbv zeta. unfold make_temp_fig in H.
  set (plot_df := filter_weather_df_by_date weather_df s e now1 now2) in *.
  destruct (col_min (map DEWPOINT weather_df)) as [lowest|]; [|discriminate].
  destruct (col_max (map TEMP weather_df)) as [highest|]; [|discriminate].
  destruct (add_background_shading_to_figure sunrise sunset _ _);
    [|discriminate].
  destruct (Zcol_min (map DATE plot_df)) as [x0|]; [|discriminate].
  destruct (Zcol_max (map DATE plot_df)) as [x1|]; [|discriminate].
  destruct (make_high_low_annotations_dict weather_df) as [d|]; [|discriminate].
  destruct (all_temp_markers x0 x1 d TEMP_ANNOTATIONS) as [markers|] eqn:Em;
    [|discriminate].
  injection H as <-. exists lowest, highest, x0, x1, d, markers.
  repeat split; try reflexivity; exact Em.
Qed.

Lemma in_temp_markers (x0 x1 : datetime) (a : anno_type)
    (points : list (datetime * Q)) (m : temp_marker) :
  In m (temp_markers x0 x1 a points)
  <-> exists t v, In (t, v) points /\ x0 < t <= x1
        /\ m = {| mk_x := t; mk_y := v;
                  mk_textposition :=
                    if is_high a then "bottom center" else "top center" |}.
Proof.
  unfold temp_markers. rewrite in_map_iff. split.
  - intros ([t v] & <- & Hp). apply filter_In in Hp as [Hp Hc].
    apply andb_true_iff in Hc as [H0 H1]. simpl in *.
    exists t, v. repeat split; [exact Hp | lia | lia].
  - intros (t & v & Hp & Ht & ->). exists (t, v). split; [reflexivity|].
    apply filter_In. split; [exact Hp|]. simpl.
    apply andb_true_iff. split; [apply Z.ltb_lt | apply Z.leb_le]; lia.
Qed.

(** The markers of the temperature chart are the daily highs and lows of
    the whole series whose timestamp is strictly after the first visible
    timestamp and not after the last one: a high or low on the first
    visible row is not marked. A high is labelled below its marker, a low
    above. *)
Theorem make_temp_fig_markers :
  forall (sunrise sunset : datetime -> datetime)
         (weather_df : list weather_row)
         (plot_start_date plot_end_date : option datetime)
         (now1 now2 : datetime) (fig : temp_figure),
    make_temp_fig sunrise sunset weather_df plot_start_date plot_end_date
      now1 now2 = Some fig ->
    exists d,
      make_high_low_annotations_dict weather_df = Some d
      /\ forall m, In m (tf_markers fig) <->
           exists a t v,
             (a = High_Temp \/ a = Low_Temp)
             /\ In (t, v) (annotations d a)
             /\ fst (tf_xaxis fig) < t <= snd (tf_xaxis fig)
             /\ m = {| mk_x := t; mk_y := v;
                       mk_textposition :=
                         if is_high a then "bottom center"
                         else "top center" |}.
Proof.
  intros sunrise sunset weather_df s e now1 now2 fig H.
  destruct (make_temp_fig_parts _ _ _ _ _ _ _ _ H)
    as (lowest & highest & x0 & x1 & d & markers & _ & _ & _ & _ & Ed & Em
        & _ & Ex & Emk & _).
  exists d. split; [exact Ed|]. rewrite Ex, Emk. simpl fst. simpl snd.
  unfold TEMP_ANNOTATIONS in Em. simpl in Em.
  destruct (dict_get d High_Temp) as [l1|] eqn:E1; [|discriminate].
  destruct (dict_get d Low_Temp) as [l2|] eqn:E2; [|discriminate].
  injection Em as <-. intros m.
  rewrite app_nil_r, in_app_iff, !in_temp_markers. unfold annotations. split.
  - intros [(t & v & Hp & Ht & ->) | (t & v & Hp & Ht & ->)].
    + exists High_Temp, t, v. rewrite E1. auto.
    + exists Low_Temp, t, v. rewrite E2. auto.
  - intros (a & t & v & [-> | ->] & Hp & Ht & ->).
    + left. rewrite E1 in Hp. eauto.
    + right. rewrite E2 in Hp. eauto.
Qed.

Lemma make_temp_fig_markers_witness :
  exists fig d,
    make_temp_fig sunrise_at_7 sunset_at_17 winter_day None None
      winter_noon winter_noon = Some fig
    /\ make_high_low_annotations_dict winter_day = Some d
    /\ In {| mk_x := make 2024 1 10 11 0 0 0; mk_y := 34%Q;
             mk_textposition := "bottom center" |} (tf_markers fig).
Proof.
  destruct (make_temp_fig sunrise_at_7 sunset_at_17 winter_day None None
              winter_noon winter_noon) as [fig|] eqn:E;
    [|vm_compute in E; discriminate].
  destruct (make_temp_fig_markers _ _ _ _ _ _ _ fig E) as (d & Ed & Hm).
  exists fig, d. split; [reflexivity|]. split; [exact Ed|].
  apply Hm. exists High_Temp, (make 2024 1 10 11 0 0 0), 34%Q.
  split; [now left|].
  vm_compute in Ed. injection Ed as <-.
  vm_compute in E. injection E as <-.
  split; [vm_compute; now left|]. split; [vm_compute; split; congruence|].
  reflexivity.
Defined.

(** For a series merged from the two readers' frames, the solid lines of
    the temperature chart are the observation rows of the window and the
    dashed lines its forecast rows, each in the order of its frame: every
    visible row is drawn once. *)
Theorem make_temp_fig_lines :
  forall (sunrise sunset : datetime -> datetime)
         (observation_df : list observation_row)
         (predictions_df : list prediction_row)
         (plot_start_date plot_end_date : option datetime)
         (now1 now2 : datetime) (fig : temp_figure),
    (forall p, In p predictions_df -> p_PREDICTION p = Some true) ->
    make_temp_fig sunrise sunset
      (concat_diagonal observation_df predictions_df)
      plot_start_date plot_end_date now1 now2 = Some fig ->
    let visible rows :=
      filter_weather_df_by_date rows plot_start_date plot_end_date
        now1 now2 in
    tf_temp fig = line TEMP (visible (map of_observation_row observation_df))
    /\ tf_dew fig
       = line DEWPOINT (visible (map of_observation_row observation_df))
    /\ tf_predicted_temp fig
       = line TEMP (visible (map of_prediction_row predictions_df))
    /\ tf_predicted_dew fig
       = line DEWPOINT (visible (map of_prediction_row predictions_df))
    /\ (List.length (tf_temp fig) + List.length (tf_predicted_temp fig))%nat
       = List.length
           (visible (concat_diagonal observation_df predictions_df)).
Proof.
  intros sunrise sunset o p s e now1 now2 fig Hflag H visible.
  destruct (make_temp_fig_parts _ _ _ _ _ _ _ _ H)
    as (_ & _ & _ & _ & _ & _ & _ & _ & _ & _ & _ & _ & _ & _ & _
        & E1 & E2 & E3 & E4).
  assert (Eapp : filter_weather_df_by_date (concat_diagonal o p) s e now1 now2
                 = visible (map of_observation_row o)
                   ++ visible (map of_prediction_row p)).
  { unfold visible, filter_weather_df_by_date, concat_diagonal.
    apply filter_app. }
  assert (Eo : forall l, observed_rows (visible (map of_observation_row l))
                         = visible (map of_observation_row l)).
  { intros l. unfold observed_rows, visible, filter_weather_df_by_date.
    rewrite filter_filter_and. apply filter_ext_in.
    intros r Hr. apply in_map_iff in Hr as (r0 & <- & _).
    simpl. now rewrite andb_true_r. }
  assert (Eo' : forall l, predicted_rows (visible (map of_observation_row l))
                          = []).
  { intros l. unfold predicted_rows, visible, filter_weather_df_by_date.
    rewrite filter_filter_and.
    induction l as [|a l IH]; simpl; [reflexivity|].
    rewrite andb_false_r. exact IH. }
  assert (Ep : predicted_rows (visible (map of_prediction_row p))
               = visible (map of_prediction_row p)).
  { unfold predicted_rows, visible, filter_weather_df_by_date.
    rewrite filter_filter_and. apply filter_ext_in.
    intros r Hr. apply in_map_iff in Hr as (r0 & <- & Hr0).
    simpl. rewrite (Hflag r0 Hr0). now rewrite andb_true_r. }
  assert (Ep' : observed_rows (visible (map of_prediction_row p)) = []).
  { unfold observed_rows, visible, filter_weather_df_by_date.
    rewrite filter_filter_and.
    assert (G : forall l, (forall r, In r l -> p_PREDICTION r = Some true) ->
                filter (fun a => ((match s with
                                   | Some s0 => s0
                                   | None => default_plot_start_date now1
                                   end <=? DATE a)
                                  && (DATE a <=? match e with
                                                 | Some e0 => e0
                                                 | None =>
                                                     default_plot_end_date now2
                                                 end))
                                 && is_null (PREDICTION a))
                       (map of_prediction_row l) = []).
    { induction l as [|a l IH]; intros Hl; simpl; [reflexivity|].
      rewrite (Hl a (or_introl eq_refl)). simpl. rewrite andb_false_r.
      apply IH. intros r Hr. apply Hl. now right. }
    now apply G. }
  change (visible (concat_diagonal o p))
    with (filter_weather_df_by_date (concat_diagonal o p) s e now1 now2).
  rewrite E1, E2, E3, E4, Eapp. unfold observed_rows, predicted_rows in *.
  rewrite !filter_app, Eo, Eo', Ep, Ep', app_nil_r. simpl.
  repeat split; try reflexivity.
  unfold line. now rewrite !length_map, length_app.
Qed.

Lemma make_temp_fig_lines_witness :
  exists fig,
    make_temp_fig sunrise_at_7 sunset_at_17
      (concat_diagonal []
         [to_prediction_row central_standard_time
            (forecast (make 2024 1 10 19 0 0 0) (make 2024 1 10 17 40 0 0) 33)])
      None None winter_noon winter_noon
    = Some fig
    /\ tf_temp fig = []
    /\ tf_predicted_temp fig = [(make 2024 1 10 13 0 0 0, Some 33%Q)].
Proof.
  destruct (make_temp_fig sunrise_at_7 sunset_at_17
      (concat_diagonal []
         [to_prediction_row central_standard_time
            (forecast (make 2024 1 10 19 0 0 0) (make 2024 1 10 17 40 0 0) 33)])
      None None winter_noon winter_noon) as [fig|] eqn:E;
    [|vm_compute in E; discriminate].
  exists fig. split; [reflexivity|].
  assert (Hflag : forall p,
             In p [to_prediction_row central_standard_time
                     (forecast (make 2024 1 10 19 0 0 0)
                        (make 2024 1 10 17 40 0 0) 33)] ->
             p_PREDICTION p = Some true)
    by (intros p [<- | []]; reflexivity).
  destruct (make_temp_fig_lines _ _ _ _ _ _ _ _ fig Hflag E)
    as (E1 & _ & E3 & _).
  rewrite E1, E3. split; vm_compute; reflexivity.
Defined.

(** The vertical axis of the temperature chart is read off the whole
    series, not off the window: whatever the window, it is the same, every
    temperature of the series is below its upper end and every dew point
    above its lower end, by the padding of five degrees. *)
Theorem make_temp_fig_yaxis :
  forall (sunrise sunset : datetime -> datetime)
         (weather_df : list weather_row)
         (plot_start_date plot_end_date : option datetime)
         (now1 now2 : datetime) (fig : temp_figure),
    make_temp_fig sunrise sunset weather_df plot_start_date plot_end_date
      now1 now2 = Some fig ->
    (forall r x, In r weather_df -> TEMP r = Some x ->
       (x + 5 <= snd (tf_yaxis fig))%Q)
    /\ (forall r x, In r weather_df -> DEWPOINT r = Some x ->
          (fst (tf_yaxis fig) <= x - 5)%Q)
    /\ (forall s' e' now3 now4 fig',
          make_temp_fig sunrise sunset weather_df s' e' now3 now4 = Some fig' ->
          tf_yaxis fig' = tf_yaxis fig).
Proof.
  intros sunrise sunset weather_df s e now1 now2 fig H.
  destruct (make_temp_fig_parts _ _ _ _ _ _ _ _ H)
    as (lowest & highest & _ & _ & _ & _ & El & Eh & _ & _ & _ & _ & Ey & _).
  rewrite Ey. simpl fst. simpl snd. unfold TEMP_PLOT_PADDING.
  split; [|split].
  - intros r x Hr Ex.
    assert (x <= highest)%Q.
    { apply (proj2 (col_max_spec _ _ Eh)). rewrite <- Ex. now apply in_map. }
    Lqa.lra.
  - intros r x Hr Ex.
    assert (lowest <= x)%Q.
    { apply (proj2 (col_min_spec _ _ El)). rewrite <- Ex. now apply in_map. }
    Lqa.lra.
  - intros s' e' now3 now4 fig' H'.
    destruct (make_temp_fig_parts _ _ _ _ _ _ _ _ H')
      as (lowest' & highest' & _ & _ & _ & _ & El' & Eh' & _ & _ & _ & _
          & Ey' & _).
    rewrite Ey'. unfold TEMP_PLOT_PADDING. congruence.
Qed.

Lemma make_temp_fig_yaxis_witness :
  exists fig,
    make_temp_fig sunrise_at_7 sunset_at_17 winter_day None None
      winter_noon winter_noon = Some fig
    /\ (34 + 5 <= snd (tf_yaxis fig))%Q.
Proof.
  destruct (make_temp_fig sunrise_at_7 sunset_at_17 winter_day None None
              winter_noon winter_noon) as [fig|] eqn:E;
    [|vm_compute in E; discriminate].
  exists fig. split; [reflexivity|].
  destruct (make_temp_fig_yaxis _ _ _ _ _ _ _ fig E) as (Ht & _).
  apply (Ht (observed (make 2024 1 10 11 0 0 0) 34 9) 34%Q);
    [right; now left | reflexivity].
Defined.

Lemma wind_bucket_rows (plot_df : list weather_row) :
  Forall (fun g => forall r, In r (snd g) -> In r plot_df)
         (wind_buckets plot_df).
Proof.
  unfold wind_buckets. eapply Forall_impl; [|apply groupby_dynamic_groups].
  intros g [_ Hg] r Hr. destruct (Hg r Hr) as [Hin _].
  eapply Permutation_in; [apply sort_asc_perm | exact Hin].
Qed.

(** ** The wind chart's vertical axis *)

(** Every marker of the wind chart sits at the largest wind speed of its
    window, which is at least two below the upper end of the axis; with
    wind speeds that are not negative it is not below the lower end. *)
Theorem make_wind_fig_yaxis :
  forall (sunrise sunset : datetime -> datetime)
         (weather_df : list weather_row)
         (plot_start_date plot_end_date : option datetime)
         (now1 now2 : datetime) (fig : wind_figure),
    make_wind_fig sunrise sunset weather_df plot_start_date plot_end_date
      now1 now2 = Some fig ->
    (forall r x, In r weather_df -> WIND_SPEED r = Some x -> (0 <= x)%Q) ->
    fst (wf_yaxis fig) = 0%Q
    /\ forall m v, In m (wf_scatters fig) -> s_y m = Some v ->
         (fst (wf_yaxis fig) <= v)%Q /\ (v + 2 <= snd (wf_yaxis fig))%Q.
Proof.
  intros sunrise sunset weather_df s e now1 now2 fig H Hpos.
  unfold make_wind_fig in H.
  set (plot_df := filter_weather_df_by_date weather_df s e now1 now2) in *.
  destruct (col_max (map WIND_SPEED weather_df)) as [fastest|] eqn:Ef;
    [|discriminate].
  destruct (Zcol_min (map DATE plot_df)) as [x0|]; [|discriminate].
  destruct (Zcol_max (map DATE plot_df)) as [x1|]; [|discriminate].
  destruct (add_background_shading_to_figure sunrise sunset _ _);
    [|discriminate].
  injection H as <-. simpl. split; [reflexivity|].
  intros m v Hm Hv. apply in_map_iff in Hm as (g & <- & Hg).
  assert (Ey : s_y (wind_scatter (agg_bucket g))
               = col_max (map WIND_SPEED (snd g))).
  { unfold wind_scatter. destruct (b_PREDICTION (agg_bucket g)) as [[|]|];
      reflexivity. }
  rewrite Ey in Hv. destruct (col_max_spec _ _ Hv) as [Hin _].
  apply in_map_iff in Hin as (r & Er & Hr).
  pose proof (wind_bucket_rows plot_df) as G.
  rewrite Forall_forall in G. specialize (G g Hg r Hr).
  assert (Hdf : In r weather_df).
  { unfold plot_df, filter_weather_df_by_date in G.
    now apply filter_In in G as [G _]. }
  split; [now apply (Hpos r v)|].
  assert (v <= fastest)%Q.
  { apply (proj2 (col_max_spec _ _ Ef)). rewrite <- Er. now apply in_map. }
  unfold WIND_PLOT_PADDING. Lqa.lra.
Qed.

Lemma winter_day_wind_not_negative :
  forall r x, In r winter_day -> WIND_SPEED r = Some x -> (0 <= x)%Q.
Proof.
  intros r x Hr Hx. unfold winter_day in Hr. simpl in Hr.
  repeat destruct Hr as [<- | Hr]; try contradiction;
    injection Hx as <-; discriminate.
Defined.

Lemma make_wind_fig_yaxis_witness :
  exists fig,
    make_wind_fig sunrise_at_7 sunset_at_17 winter_day None None
      winter_noon winter_noon = Some fig
    /\ fst (wf_yaxis fig) = 0%Q.
Proof.
  destruct (make_wind_fig sunrise_at_7 sunset_at_17 winter_day None None
              winter_noon winter_noon) as [fig|] eqn:E;
    [|vm_compute in E; discriminate].
  exists fig. split; [reflexivity|].
  exact (proj1 (make_wind_fig_yaxis _ _ _ _ _ _ _ fig E
                  winter_day_wind_not_negative)).
Defined.

(** ** The rain chart: probability on the rain axis *)

Lemma max_rain_positive (weather_df : list weather_row) :
  (forall r x, In r weather_df -> RAIN_DAILIY r = Some x -> (0 <= x)%Q) ->
  (1 <= max_rain weather_df)%Q
  /\ forall r x, In r weather_df -> RAIN_DAILIY r = Some x ->
       (x + 1 <= max_rain weather_df)%Q.
Proof.
  intros Hpos. unfold max_rain, RAIN_PLOT_PADDING.
  destruct (col_max (map RAIN_DAILIY weather_df)) as [wettest|] eqn:E.
  - destruct (col_max_spec _ _ E) as [Hin Hub]. split.
    + apply in_map_iff in Hin as (r & Er & Hr).
      pose proof (Hpos r wettest Hr Er). Lqa.lra.
    + intros r x Hr Ex.
      assert (x <= wettest)%Q by (apply Hub; rewrite <- Ex; now apply in_map).
      Lqa.lra.
  - split; [Lqa.lra|]. intros r x Hr Ex.
    pose proof (proj1 (col_max_none _) E (Some x)) as Hn.
    assert (Some x = None) by (apply Hn; rewrite <- Ex; now apply in_map).
    discriminate.
Qed.

(** On the rain chart the probability of precipitation shares the axis of
    the daily rain. With rain amounts that are not negative, the axis ends
    at least one above every amount of the series, a probability between 0
    and 100 is drawn between the two ends of the axis, 100 at the upper
    end, and the percentage itself is kept as hover data, from which the
    drawn value can be computed back. *)
Theorem make_rain_fig_probability :
  forall (sunrise sunset : datetime -> datetime)
         (weather_df : list weather_row)
         (plot_start_date plot_end_date : option datetime)
         (now1 now2 : datetime) (fig : rain_figure),
    make_rain_fig sunrise sunset weather_df plot_start_date plot_end_date
      now1 now2 = Some fig ->
    (forall r x, In r weather_df -> RAIN_DAILIY r = Some x -> (0 <= x)%Q) ->
    let top := snd (rf_yaxis fig) in
    fst (rf_yaxis fig) = 0%Q
    /\ (1 <= top)%Q
    /\ (forall r x, In r weather_df -> RAIN_DAILIY r = Some x ->
          (x + 1 <= top)%Q)
    /\ (forall pt, In pt (rf_probability fig) ->
          match pp_customdata pt, pp_y pt with
          | Some p, Some y =>
              (y == inject_Z p / 100 * top)%Q
              /\ (0 <= p <= 100 -> (0 <= y)%Q /\ (y <= top)%Q)
              /\ (p = 100 -> (y == top)%Q)
          | None, None => True
          | _, _ => False
          end).
Proof.
  intros sunrise sunset weather_df s e now1 now2 fig H Hpos top.
  destruct (max_rain_positive weather_df Hpos) as [Htop Hrain].
  unfold make_rain_fig in H.
  set (plot_df := filter_weather_df_by_date weather_df s e now1 now2) in *.
  destruct (Zcol_min (map DATE plot_df)) as [x0|]; [|discriminate].
  destruct (Zcol_max (map DATE plot_df)) as [x1|]; [|discriminate].
  destruct (add_background_shading_to_figure sunrise sunset _ _);
    [|discriminate].
  injection H as <-. subst top. simpl.
  split; [reflexivity|]. split; [exact Htop|]. split; [exact Hrain|].
  intros pt Hpt. apply in_map_iff in Hpt as (r & <- & _). simpl.
  unfold PRECIP_PROB_SCALED. destruct (PRECIP_PROB r) as [p|]; simpl; [|exact I].
  set (t := max_rain weather_df) in *.
  split; [reflexivity|]. split.
  - intros [H0 H100].
    assert (Hp0 : (0 <= inject_Z p)%Q)
      by (unfold Qle, inject_Z; simpl; lia).
    assert (Hp1 : (inject_Z p <= 100)%Q)
      by (unfold Qle, inject_Z; simpl; lia).
    assert (Hq0 : (0 <= inject_Z p / 100)%Q)
      by (unfold Qle, Qdiv, Qmult, Qinv, inject_Z; simpl; lia).
    assert (Hq1 : (inject_Z p / 100 <= 1)%Q)
      by (unfold Qle, Qdiv, Qmult, Qinv, inject_Z; simpl; lia).
    set (q := (inject_Z p / 100)%Q) in *. split.
    + apply Qmult_le_0_compat; [exact Hq0 | Lqa.lra].
    + rewrite <- (Qmult_1_l t) at 2.
      apply Qmult_le_compat_r; [exact Hq1 | Lqa.lra].
  - intros ->. change (inject_Z 100) with 100%Q. field.
Qed.

Lemma winter_day_rain_not_negative :
  forall r x, In r winter_day -> RAIN_DAILIY r = Some x -> (0 <= x)%Q.
Proof.
  intros r x Hr Hx. unfold winter_day in Hr. simpl in Hr.
  repeat destruct Hr as [<- | Hr]; try contradiction;
    first [discriminate Hx | injection Hx as <-; discriminate].
Defined.

Lemma make_rain_fig_probability_witness :
  exists fig,
    make_rain_fig sunrise_at_7 sunset_at_17 winter_day None None
      winter_noon winter_noon = Some fig
    /\ fst (rf_yaxis fig) = 0%Q /\ (1 <= snd (rf_yaxis fig))%Q.
Proof.
  destruct (make_rain_fig sunrise_at_7 sunset_at_17 winter_day None None
              winter_noon winter_noon) as [fig|] eqn:E;
    [|vm_compute in E; discriminate].
  exists fig. split; [reflexivity|].
  destruct (make_rain_fig_probability _ _ _ _ _ _ _ fig E
              winter_day_rain_not_negative) as (H0 & H1 & _).
  split; assumption.
Defined.

(** ** The range of the wind and rain charts *)

Example python_strptime_fraction :
  python_strptime "2024-01-10 09:30:00.5" "%Y-%m-%d %H:%M:%S.%f"
  = Some (make 2024 1 10 9 30 0 500000).
Proof. reflexivity. Qed.

Lemma first_range_spec (strptime : string -> string -> option datetime)
    (d : relayout) (formats : list string) (w : datetime * datetime) :
  first_range strptime d formats = Some w
  <-> exists earlier fmt later,
        formats = earlier ++ fmt :: later
        /\ parse_range strptime d fmt = Some w
        /\ forall f, In f earlier -> parse_range strptime d f = None.
Proof.
  induction formats as [|f formats IH]; simpl.
  - split; [discriminate|]. intros (earlier & fmt & later & E & _).
    destruct earlier; discriminate.
  - destruct (parse_range strptime d f) as [w'|] eqn:Ef.
    + split.
      * intros H. injection H as <-. exists [], f, formats.
        repeat split; [exact Ef | intros f' []].
      * intros (earlier & fmt & later & E & Hw & Hnone).
        destruct earlier as [|f' earlier]; simpl in E; injection E as <- _.
        -- congruence.
        -- rewrite (Hnone f (or_introl eq_refl)) in Ef. discriminate.
    + rewrite IH. split.
      * intros (earlier & fmt & later & -> & Hw & Hnone).
        exists (f :: earlier), fmt, later. repeat split; [exact Hw|].
        intros f' [<- | Hf']; [exact Ef | now apply Hnone].
      * intros (earlier & fmt & later & E & Hw & Hnone).
        destruct earlier as [|f' earlier]; simpl in E; injection E as <- E.
        -- congruence.
        -- exists earlier, fmt, later. repeat split; [exact E | exact Hw|].
           intros f0 Hf0. apply Hnone. now right.
Qed.

Lemma parse_range_spec (strptime : string -> string -> option datetime)
    (d : relayout) (fmt : string) (a b : datetime) :
  parse_range strptime d fmt = Some (a, b)
  <-> exists lo hi,
        relayout_get d "xaxis.range[0]" = Some lo
        /\ relayout_get d "xaxis.range[1]" = Some hi
        /\ strptime lo fmt = Some a /\ strptime hi fmt = Some b.
Proof.
  unfold parse_range.
  destruct (relayout_get d "xaxis.range[0]") as [lo|];
    [|split; [discriminate | intros (? & ? & ? & _); discriminate]].
  destruct (relayout_get d "xaxis.range[1]") as [hi|].
  - destruct (strptime lo fmt) as [x|] eqn:Ex;
      destruct (strptime hi fmt) as [y|] eqn:Ey; split;
      try discriminate;
      try (intros H; injection H as <- <-; exists lo, hi; auto);
      intros (lo' & hi' & E1 & E2 & E3 & E4);
      injection E1 as <-; injection E2 as <-; congruence.
  - destruct (strptime lo fmt); split; try discriminate;
      intros (? & ? & _ & ? & _); discriminate.
Qed.

(** The wind and rain charts are drawn on an explicit range exactly when
    the relayout data holds both ends and some format of the list parses
    both of them; the range is then the one read in the first such format.
    In every other case (no relayout data, an end missing, no common
    format) both charts are drawn on the default range. *)
Theorem filter_other_plots_range :
  forall (sunrise sunset : datetime -> datetime)
         (strptime : string -> string -> option datetime)
         (relayoutdata : option relayout) (weather_df : list weather_row)
         (now1 now2 now3 now4 : datetime),
  exists w,
    filter_other_plots sunrise sunset strptime relayoutdata weather_df
      now1 now2 now3 now4
    = (make_wind_fig sunrise sunset weather_df
         (option_map fst w) (option_map snd w) now1 now2,
       make_rain_fig sunrise sunset weather_df
         (option_map fst w) (option_map snd w) now3 now4)
    /\ forall a b,
         w = Some (a, b)
         <-> exists d lo hi earlier fmt later,
               relayoutdata = Some d
               /\ relayout_get d "xaxis.range[0]" = Some lo
               /\ relayout_get d "xaxis.range[1]" = Some hi
               /\ RANGE_FORMATS = earlier ++ fmt :: later
               /\ strptime lo fmt = Some a /\ strptime hi fmt = Some b
               /\ forall f, In f earlier ->
                    strptime lo f = None \/ strptime hi f = None.
Proof.
  intros sunrise sunset strptime relayoutdata weather_df now1 now2 now3 now4.
  exists (requested_range strptime relayoutdata). split; [reflexivity|].
  intros a b. unfold requested_range. split.
  - destruct relayoutdata as [d|]; [|discriminate].
    destruct (relayout_get d "xaxis.range[0]") as [lo0|] eqn:E0;
      [|discriminate].
    intros H. apply first_range_spec in H
      as (earlier & fmt & later & Ef & Hw & Hnone).
    apply parse_range_spec in Hw as (lo & hi & El & Eh & Ea & Eb).
    exists d, lo, hi, earlier, fmt, later. repeat split; try assumption.
    intros f Hf. specialize (Hnone f Hf). unfold parse_range in Hnone.
    rewrite El, Eh in Hnone.
    destruct (strptime lo f); [|now left].
    destruct (strptime hi f); [discriminate | now right].
  - intros (d & lo & hi & earlier & fmt & later & -> & El & Eh & Ef & Ea & Eb
            & Hnone).
    rewrite El. apply first_range_spec. exists earlier, fmt, later.
    split; [exact Ef|]. split.
    + apply parse_range_spec. exists lo, hi. auto.
    + intros f Hf. unfold parse_range. rewrite El, Eh.
      destruct (Hnone f Hf) as [H | H]; rewrite H; [reflexivity|].
      destruct (strptime lo f); reflexivity.
Qed.

(** The two ends must parse in one and the same format: a range whose
    start has a fraction of a second and whose end has none is not read,
    and the charts fall back to the default range. *)
Example requested_range_mixed_formats :
  requested_range python_strptime
    (Some [("xaxis.range[0]", "2024-01-10 09:30:00.5");
           ("xaxis.range[1]", "2024-01-10 12:00:00")]%string)
  = None
  /\ requested_range python_strptime
       (Some [("xaxis.range[0]", "2024-01-10 09:30:00.5");
              ("xaxis.range[1]", "2024-01-10 12:00:00.0")]%string)
     = Some (make 2024 1 10 9 30 0 500000, make 2024 1 10 12 0 0 0).
Proof. split; vm_compute; reflexivity. Qed.

(** ** Today's high and low *)

(** On a log that can be read the three values are returned, null when no
    row of the last 4000 has a local timestamp at or after midnight (the
    clock reading with hour, minute and second set to zero). Otherwise the
    high is the temperature of one of today's rows and no row of today is
    warmer, the low likewise, and the low is not above the high. Rows
    whose timestamp does not parse are not counted. *)
Theorem query_high_low_today :
  forall (convert_time_zone : datetime -> datetime) (now : datetime)
         (rows : list observation),
    let today r :=
      In r (last_4000 rows)
      /\ exists t, Strptime.strptime " " (dateutc r) = Some t
           /\ replace_hms now 0 0 0 <= convert_time_zone t in
    exists high low gust,
      query_high_low convert_time_zone now (Some rows)
      = Some (high, low, gust)
      /\ (high = None <-> forall r, today r -> tempf r = None)
      /\ (low = None <-> high = None)
      /\ (forall h, high = Some h ->
            (exists r, today r /\ tempf r = Some h)
            /\ forall r x, today r -> tempf r = Some x -> (x <= h)%Q)
      /\ (forall l, low = Some l ->
            (exists r, today r /\ tempf r = Some l)
            /\ forall r x, today r -> tempf r = Some x -> (l <= x)%Q)
      /\ (forall h l, high = Some h -> low = Some l -> (l <= h)%Q)
      /\ (forall g, gust = Some g ->
            (exists r, today r /\ windspeedmph r = Some g)
            /\ forall r x, today r -> windspeedmph r = Some x -> (x <= g)%Q).
Proof.
  intros tz now rows today. unfold query_high_low.
  set (rows_today := filter _ (last_4000 rows)).
  assert (T : forall r, In r rows_today <-> today r).
  { intros r. unfold rows_today, today, datect. rewrite filter_In.
    destruct (Strptime.strptime " " (dateutc r)) as [t|]; simpl.
    - rewrite Z.leb_le. split.
      + intros [Hr Ht]. split; [exact Hr|]. eauto.
      + intros [Hr (t' & Et & Ht)]. injection Et as <-. auto.
    - split; [intros [_ H]; discriminate|].
      intros [_ (t' & Et & _)]. discriminate. }
  assert (M : forall (col : observation -> cell) x,
             In (Some x) (map col rows_today)
             <-> exists r, today r /\ col r = Some x).
  { intros col x. rewrite in_map_iff. split.
    - intros (r & E & Hr). exists r. split; [now apply T | exact E].
    - intros (r & Hr & E). exists r. split; [exact E | now apply T]. }
  assert (N : forall (col : observation -> cell),
             (forall o, In o (map col rows_today) -> o = None)
             <-> forall r, today r -> col r = None).
  { intros col. split.
    - intros H r Hr. apply H, in_map. now apply T.
    - intros H o Ho. apply in_map_iff in Ho as (r & <- & Hr).
      apply H. now apply T. }
  do 3 eexists. split; [reflexivity|].
  split; [rewrite col_max_none; apply N|].
  split; [rewrite col_min_none, col_max_none; reflexivity|].
  assert (Hhigh : forall h, col_max (map tempf rows_today) = Some h ->
            (exists r, today r /\ tempf r = Some h)
            /\ forall r x, today r -> tempf r = Some x -> (x <= h)%Q).
  { intros h Eh. destruct (col_max_spec _ _ Eh) as [Hin Hub].
    split; [now apply M|]. intros r x Hr Ex. apply Hub, M. eauto. }
  assert (Hlow : forall l, col_min (map tempf rows_today) = Some l ->
            (exists r, today r /\ tempf r = Some l)
            /\ forall r x, today r -> tempf r = Some x -> (l <= x)%Q).
  { intros l El. destruct (col_min_spec _ _ El) as [Hin Hlb].
    split; [now apply M|]. intros r x Hr Ex. apply Hlb, M. eauto. }
  split; [exact Hhigh|]. split; [exact Hlow|]. split.
  - intros h l Eh El. destruct (Hhigh h Eh) as [(r & Hr & Er) _].
    now apply (proj2 (Hlow l El) r h).
  - intros g Eg. destruct (col_max_spec _ _ Eg) as [Hin Hub].
    split; [now apply M|]. intros r x Hr Ex. apply Hub, M. eauto.
Qed.

(** ** The ingest endpoint and the current conditions *)

Module StationFacts.

Import Station.

Lemma max_id_bound (log : list row) (m : Q) :
  max_id log = Some m ->
  forall r i, In r log -> id r = Some i -> (i <= m)%Q.
Proof.
  intros H r i Hr Ei. apply (proj2 (col_max_spec _ _ H)).
  rewrite <- Ei. now apply in_map.
Qed.

Lemma max_id_append (log : list row) (m : Q) (r : row) :
  max_id log = Some m -> id r = Some (m + 1)%Q ->
  max_id (log ++ [r]) = Some (m + 1)%Q.
Proof.
  intros Hm Er. unfold max_id in *.
  destruct (col_max_some (map id (log ++ [r])) (m + 1)%Q) as [v Ev].
  { rewrite map_app. apply in_or_app. right. left. exact Er. }
  rewrite Ev. destruct (col_max_spec _ _ Ev) as [Hin Hub].
  rewrite map_app in Hin. apply in_app_or in Hin as [Hin | [Hin | []]].
  - exfalso. pose proof (proj2 (col_max_spec _ _ Hm) v Hin) as Hv.
    assert (H1 : (m + 1 <= v)%Q).
    { apply Hub. rewrite map_app. apply in_or_app. right. left. exact Er. }
    Lqa.lra.
  - congruence.
Qed.

Lemma older_rows_filtered (log : list row) (m : Q) :
  max_id log = Some m -> filter (has_id (m + 1)%Q) log = [].
Proof.
  intros Hm.
  assert (H : forall r, In r log -> has_id (m + 1)%Q r = false).
  { intros r Hr. unfold has_id. destruct (id r) as [i|] eqn:Ei; [|reflexivity].
    pose proof (max_id_bound log m Hm r i Hr Ei) as Hi.
    destruct (Qeq_bool i (m + 1)) eqn:E; [|reflexivity].
    apply Qeq_bool_iff in E. Lqa.lra. }
  clear Hm. induction log as [|r log IH]; [reflexivity|]. simpl.
  rewrite (H r (or_introl eq_refl)). apply IH. intros r' Hr'. apply H.
  now right.
Qed.

(** A report fails, and leaves the log as it was, exactly when the dew
    point divides by zero or the log holds no id: the endpoint cannot
    start a log that has no row yet. An accepted report leaves the earlier
    rows as they were and appends one row, whose id is above every id of
    the log; the response echoes the timestamp, and the nine current
    values read back from the log are then the ones of the report. *)
Theorem add_observation_most_recent :
  forall (np_log : float -> float) (log : list row) (rep : report),
    (add_observation np_log log rep = None
     <-> get_dew_point_f np_log (r_tempf rep) (r_humidity rep) = None
         \/ forall r, In r log -> id r = None)
    /\ forall log' response,
         add_observation np_log log rep = Some (log', response) ->
         response = r_dateutc rep
         /\ (exists n dew_point,
               log' = log ++ [new_row n dew_point rep]
               /\ get_dew_point_f np_log (r_tempf rep) (r_humidity rep)
                  = Some dew_point
               /\ forall r i, In r log -> id r = Some i -> (i < n)%Q)
         /\ query_most_recent_data (Some log')
            = Some (Some (r_tempf rep), Some (r_windspeedmph rep),
                    Some (r_winddir rep), Some (r_humidity rep),
                    Some (r_windgustmph rep), Some (r_baromrelin rep),
                    Some (r_dailyrainin rep), Some (r_uv rep),
                    Some (r_solarradiation rep)).
Proof.
  intros np_log log rep. unfold add_observation. split.
  - destruct (get_dew_point_f np_log (r_tempf rep) (r_humidity rep)) as [dp|].
    + destruct (max_id log) as [m|] eqn:Em.
      * split; [discriminate|]. intros [H | H]; [discriminate|].
        exfalso. unfold max_id in Em.
        assert (N : col_max (map id log) = None).
        { apply col_max_none. intros o Ho.
          apply in_map_iff in Ho as (r & <- & Hr). now apply H. }
        congruence.
      * split; [|reflexivity]. intros _. right. intros r Hr.
        unfold max_id in Em. apply (proj1 (col_max_none _) Em).
        now apply in_map.
    + split; [auto | reflexivity].
  - intros log' response H.
    destruct (get_dew_point_f np_log (r_tempf rep) (r_humidity rep)) as [dp|];
      [|discriminate].
    destruct (max_id log) as [m|] eqn:Em; [|discriminate].
    injection H as <- <-. split; [reflexivity|]. split.
    + exists (m + 1)%Q, dp. split; [reflexivity|]. split; [reflexivity|].
      intros r i Hr Ei. pose proof (max_id_bound log m Em r i Hr Ei).
      Lqa.lra.
    + unfold query_most_recent_data.
      rewrite (max_id_append log m (new_row (m + 1)%Q dp rep) Em eq_refl).
      rewrite filter_app, (older_rows_filtered log m Em). simpl.
      unfold has_id. simpl. rewrite Qeq_bool_refl. reflexivity.
Qed.

(** The sample report is accepted on the log with one row and gets the id
    42; on a log without rows it fails. *)
Example add_observation_saturated :
  option_map (fun out => (map id (fst out), snd out))
    (add_observation log_of_one one_row_log saturated_report)
  = Some ([Some 41%Q; Some 42%Q], "2024-01-10 18:00:00"%string)
  /\ add_observation log_of_one [] saturated_report = None.
Proof. split; vm_compute; reflexivity. Qed.

End StationFacts.

(** ** The forecast task *)

Module ForecastFacts.

Import Forecast.

Lemma unique_strings_In (l : list string) (t : string) :
  In t (unique String.eqb l) <-> In t l.
Proof.
  induction l as [|a l IH]; simpl; [tauto|].
  rewrite filter_In, IH, negb_true_iff.
  destruct (String.eqb a t) eqn:E.
  - apply String.eqb_eq in E. split; intros _; now left.
  - apply String.eqb_neq in E. intuition.
Qed.

Lemma unique_strings_NoDup (l : list string) : NoDup (unique String.eqb l).
Proof.
  induction l as [|a l IH]; simpl; constructor.
  - rewrite filter_In, negb_true_iff. intros [_ H].
    now rewrite String.eqb_refl in H.
  - now apply NoDup_filter.
Qed.

Lemma with_row_count_snd {A : Type} (n : Z) (l : list A) :
  map snd (with_row_count n l) = l.
Proof.
  revert n. induction l as [|a l IH]; intros n; simpl; [reflexivity|].
  now rewrite IH.
Qed.

(** *** The lookup tables after the two functions *)

Section Tables.

Variable text : nws_period -> string.
Variable text_id : nws_period -> option Z.
Variable NWS_df : list nws_period.
Variable table : lookup_table.

Lemma written_eq :
  written table (add_new_texts text text_id NWS_df table)
  = table
    ++ map (fun p => (fst p + match Zcol_max (map fst table) with
                              | Some m => m
                              | None => 0
                              end, snd p))
         (with_row_count 0
            (unique String.eqb
               (map text (filter (fun r => is_null (text_id r)) NWS_df)))).
Proof.
  unfold written, add_new_texts.
  destruct (unique String.eqb _) as [|t l]; simpl.
  - now rewrite app_nil_r.
  - destruct (Z.pos (Pos.of_succ_nat (List.length l))); reflexivity.
Qed.

Lemma written_snd :
  map snd (written table (add_new_texts text text_id NWS_df table))
  = map snd table
    ++ unique String.eqb
         (map text (filter (fun r => is_null (text_id r)) NWS_df)).
Proof.
  rewrite written_eq, map_app, map_map. simpl. f_equal.
  apply with_row_count_snd.
Qed.

Lemma written_covers (r : nws_period) :
  In r NWS_df ->
  (forall i, text_id r = Some i -> In (text r) (map snd table)) ->
  In (text r)
     (map snd (written table (add_new_texts text text_id NWS_df table))).
Proof.
  intros Hr H. rewrite written_snd. apply in_or_app.
  destruct (text_id r) as [i|] eqn:E; [left; now apply (H i)|].
  right. apply unique_strings_In, in_map, filter_In.
  split; [exact Hr | now rewrite E].
Qed.

Lemma written_NoDup :
  NoDup (map snd table) ->
  (forall r, In r NWS_df -> text_id r = None ->
             ~ In (text r) (map snd table)) ->
  NoDup (map snd (written table (add_new_texts text text_id NWS_df table))).
Proof.
  intros Hnd H. rewrite written_snd.
  apply NoDup_app; [exact Hnd | apply unique_strings_NoDup|].
  intros t Ht Hin. apply unique_strings_In, in_map_iff in Hin
    as (r & <- & Hr).
  apply filter_In in Hr as [Hr Hnull].
  apply (H r Hr); [|exact Ht]. now destruct (text_id r).
Qed.

End Tables.

(** *** The left join *)

Lemma join_left_In (o : option Z) (t : string) (table : lookup_table) :
  In o (join_left t table) ->
  match o with
  | Some i => In (i, t) table
  | None => ~ In t (map snd table)
  end.
Proof.
  unfold join_left.
  destruct (filter (fun e => String.eqb (snd e) t) table) as [|e l] eqn:E.
  - intros [<- | []]. intros Hin.
    apply in_map_iff in Hin as ((i, t') & Heq & Hin). simpl in Heq. subst t'.
    assert (H : In (i, t) (filter (fun e => String.eqb (snd e) t) table))
      by (apply filter_In; split; [exact Hin | apply String.eqb_refl]).
    now rewrite E in H.
  - rewrite <- E. intros Hin. apply in_map_iff in Hin as ((i, t') & <- & He).
    apply filter_In in He as [He Ht]. simpl in Ht.
    apply String.eqb_eq in Ht. now subst t'.
Qed.

Lemma join_left_inhabited (t : string) (table : lookup_table) :
  exists o, In o (join_left t table).
Proof.
  unfold join_left.
  destruct (filter (fun e => String.eqb (snd e) t) table) as [|e l].
  - exists None. now left.
  - exists (Some (fst e)). now left.
Qed.

Lemma filter_absent (t : string) (table : lookup_table) :
  ~ In t (map snd table) ->
  filter (fun e => String.eqb (snd e) t) table = [].
Proof.
  induction table as [|(j, t') table IH]; simpl; [reflexivity|].
  intros H. destruct (String.eqb t' t) eqn:E.
  - apply String.eqb_eq in E. tauto.
  - apply IH. tauto.
Qed.

Lemma join_left_unique (t : string) (table : lookup_table) (i : Z) :
  NoDup (map snd table) -> In (i, t) table -> join_left t table = [Some i].
Proof.
  intros Hnd Hin. unfold join_left.
  assert (E : filter (fun e => String.eqb (snd e) t) table = [(i, t)]).
  { induction table as [|(j, t') table IH]; [contradiction|].
    simpl in *. apply NoDup_cons_iff in Hnd as [Hhd Hnd].
    destruct (String.eqb t' t) eqn:Et.
    - apply String.eqb_eq in Et. subst t'.
      rewrite (filter_absent t table Hhd).
      destruct Hin as [Heq | Hin]; [now rewrite Heq|].
      exfalso. apply Hhd, in_map_iff. now exists (i, t).
    - apply String.eqb_neq in Et.
      destruct Hin as [Heq | Hin]; [congruence | now apply IH]. }
  now rewrite E.
Qed.

(** *** The frames, the log and the script *)

Section Task.

Variable strptime : string -> option datetime.
Variable fromisoformat : string -> option datetime.
Variable cast_Int16 : string -> option Z.
Variable float_cast_Int16 : float -> option Z.

Local Set Warnings "-notation-for-abbreviation".

Local Notation with_columns :=
  (Forecast.with_columns strptime cast_Int16 float_cast_Int16).
Local Notation store := (Forecast.store strptime cast_Int16 float_cast_Int16).
Local Notation task :=
  (Forecast.task strptime fromisoformat cast_Int16 float_cast_Int16).

Lemma collect_Forall2 {A B : Type} (f : A -> option B) (l : list A)
    (bs : list B) :
  collect f l = Some bs -> Forall2 (fun a b => f a = Some b) l bs.
Proof.
  revert bs. induction l as [|a l IH]; simpl; intros bs H.
  - injection H as <-. constructor.
  - destruct (f a) as [b|] eqn:E; [|discriminate].
    destruct (collect f l) as [bs'|]; [|discriminate].
    injection H as <-. constructor; [exact E | now apply IH].
Qed.

Lemma collect_some {A B : Type} (f : A -> option B) (l : list A) :
  (forall a, In a l -> f a <> None) -> exists bs, collect f l = Some bs.
Proof.
  induction l as [|a l IH]; simpl; intros H; [eauto|].
  destruct (f a) as [b|] eqn:E; [|now destruct (H a (or_introl eq_refl))].
  destruct IH as [bs ->]; [intros a' Ha'; apply H; now right|]. eauto.
Qed.

Lemma with_columns_fields (updated : string) (p : NWS.period)
    (r : Frame.row) :
  with_columns updated p = Some r ->
  Frame.number r = NWS.number p
  /\ Frame.forecast_updated_time r = strptime updated
  /\ shortForecast (Frame.texts r) = NWS.shortForecast p
  /\ icon (Frame.texts r) = NWS.icon p.
Proof.
  unfold Forecast.with_columns.
  destruct (cast_Int16 _); [|discriminate].
  destruct (cast_cell float_cast_Int16 _); [|discriminate].
  destruct (cast_cell cast_Int8 _); [|discriminate].
  intros H. injection H as <-. simpl. auto.
Qed.

Lemma join_tables_In (D I : lookup_table) (r r' : Frame.row) :
  In r' (join_tables D I r) ->
  exists d i,
    r' = joined r d i
    /\ In d (join_left (shortForecast (Frame.texts r)) D)
    /\ In i (join_left (icon (Frame.texts r)) I).
Proof.
  unfold join_tables. intros H. apply in_flat_map in H as (d & Hd & H).
  apply in_map_iff in H as (i & <- & Hi). eauto.
Qed.

Lemma join_tables_inhabited (D I : lookup_table) (r : Frame.row) :
  exists d i, In (joined r d i) (join_tables D I r).
Proof.
  destruct (join_left_inhabited (shortForecast (Frame.texts r)) D) as [d Hd].
  destruct (join_left_inhabited (icon (Frame.texts r)) I) as [i Hi].
  exists d, i. unfold join_tables. apply in_flat_map. exists d.
  split; [exact Hd|]. apply in_map_iff. eauto.
Qed.

(** What the joins put in a row of the frame. *)
Lemma frame_ids (D I : lookup_table) (rows : list Frame.row)
    (n : nws_period) :
  In n (map Frame.texts (flat_map (join_tables D I) rows)) ->
  match forecast_descriptions_id n with
  | Some d => In (d, shortForecast n) D
  | None => ~ In (shortForecast n) (map snd D)
  end
  /\ match icon_id n with
     | Some i => In (i, icon n) I
     | None => ~ In (icon n) (map snd I)
     end.
Proof.
  intros H. apply in_map_iff in H as (r' & <- & H).
  apply in_flat_map in H as (r & _ & H).
  apply join_tables_In in H as (d & i & -> & Hd & Hi). simpl.
  split; [exact (join_left_In _ _ _ Hd) | exact (join_left_In _ _ _ Hi)].
Qed.

Lemma frame_has_row (D I : lookup_table) (rows : list Frame.row)
    (r : Frame.row) :
  In r rows ->
  exists n,
    In n (map Frame.texts (flat_map (join_tables D I) rows))
    /\ shortForecast n = shortForecast (Frame.texts r)
    /\ icon n = icon (Frame.texts r).
Proof.
  intros Hr. destruct (join_tables_inhabited D I r) as (d & i & H).
  exists (Frame.texts (joined r d i)). split; [|split; reflexivity].
  apply in_map, in_flat_map. eauto.
Qed.

(** The two tables after [add_new_forecast_descriptions] and
    [add_new_forecast_icons] on the frame joined with the tables as they
    were. *)
Lemma tables_updated (D I : lookup_table) (rows : list Frame.row) :
  let df := flat_map (join_tables D I) rows in
  let D' := written D (add_new_forecast_descriptions
                         (map Frame.texts df) D) in
  let I' := written I (add_new_forecast_icons (map Frame.texts df) I) in
  (forall r, In r rows ->
     In (shortForecast (Frame.texts r)) (map snd D')
     /\ In (icon (Frame.texts r)) (map snd I'))
  /\ (NoDup (map snd D) -> NoDup (map snd D'))
  /\ (NoDup (map snd I) -> NoDup (map snd I')).
Proof.
  intros df D' I'. split; [|split].
  - intros r Hr. destruct (frame_has_row D I rows r Hr) as (n & Hn & <- & <-).
    destruct (frame_ids D I rows n Hn) as [Hd Hi]. split.
    + apply written_covers; [exact Hn|]. intros d E. rewrite E in Hd.
      apply in_map_iff. now exists (d, shortForecast n).
    + apply written_covers; [exact Hn|]. intros i E. rewrite E in Hi.
      apply in_map_iff. now exists (i, icon n).
  - intros Hnd. apply written_NoDup; [exact Hnd|]. intros n Hn E.
    destruct (frame_ids D I rows n Hn) as [Hd _]. now rewrite E in Hd.
  - intros Hnd. apply written_NoDup; [exact Hnd|]. intros n Hn E.
    destruct (frame_ids D I rows n Hn) as [_ Hi]. now rewrite E in Hi.
Qed.

Lemma store_collected (NWS_r : NWS.response) (st : files)
    (rows : list Frame.row) :
  collect (with_columns (NWS.updated NWS_r)) (NWS.periods NWS_r) = Some rows ->
  let df := flat_map (join_tables (descriptions st) (icons st)) rows in
  let D' := written (descriptions st)
              (add_new_forecast_descriptions (map Frame.texts df)
                 (descriptions st)) in
  let I' := written (icons st)
              (add_new_forecast_icons (map Frame.texts df) (icons st)) in
  store NWS_r st
  = {| predictions :=
         add_new_predictions (flat_map (join_tables D' I') rows)
           (predictions st);
       descriptions := D';
       icons := I' |}.
Proof.
  intros H. unfold Forecast.store, make_forecast_frames. rewrite H. cbv zeta.
  destruct (add_new_forecast_descriptions _ _);
    destruct (add_new_forecast_icons _ _); simpl; rewrite ?H; reflexivity.
Qed.

Lemma store_failed (NWS_r : NWS.response) (st : files) :
  collect (with_columns (NWS.updated NWS_r)) (NWS.periods NWS_r) = None ->
  store NWS_r st = st.
Proof.
  intros H. unfold Forecast.store, make_forecast_frames. now rewrite H.
Qed.

Lemma task_either (utcnow : datetime) (request : option NWS.response)
    (st : files) :
  task utcnow request st = st
  \/ exists NWS_r, request = Some NWS_r /\ task utcnow request st = store NWS_r st.
Proof.
  unfold Forecast.task. destruct request as [NWS_r|]; [|now left].
  destruct (NWS.status_code NWS_r =? 200); [|now left].
  destruct (fromisoformat (NWS.updated NWS_r)) as [u|]; [|now left].
  destruct (u <=? _); [now left|]. right. eauto.
Qed.

Lemma store_appends (NWS_r : NWS.response) (st : files) :
  (exists batch, predictions (store NWS_r st) = predictions st ++ batch)
  /\ (exists new, descriptions (store NWS_r st) = descriptions st ++ new)
  /\ (exists new, icons (store NWS_r st) = icons st ++ new)
  /\ (NoDup (map snd (descriptions st)) ->
      NoDup (map snd (descriptions (store NWS_r st))))
  /\ (NoDup (map snd (icons st)) ->
      NoDup (map snd (icons (store NWS_r st)))).
Proof.
  destruct (collect (with_columns (NWS.updated NWS_r)) (NWS.periods NWS_r))
    as [rows|] eqn:E.
  - rewrite (store_collected NWS_r st rows E). simpl.
    destruct (tables_updated (descriptions st) (icons st) rows)
      as (_ & HD & HI).
    repeat split.
    + unfold add_new_predictions. eauto.
    + unfold add_new_forecast_descriptions. rewrite written_eq. eauto.
    + unfold add_new_forecast_icons. rewrite written_eq. eauto.
    + exact HD.
    + exact HI.
  - rewrite (store_failed NWS_r st E).
    repeat split; try (exists []; now rewrite app_nil_r); auto.
Qed.

(** Whatever the response and the clock, a run only appends to the three
    files: the rows they had are kept, in place. A lookup table in which
    no text occurs twice is left in that state. *)
Theorem task_appends :
  forall (utcnow : datetime) (request : option NWS.response) (st : files),
    let st' := task utcnow request st in
    (exists batch, predictions st' = predictions st ++ batch)
    /\ (exists new, descriptions st' = descriptions st ++ new)
    /\ (exists new, icons st' = icons st ++ new)
    /\ (NoDup (map snd (descriptions st)) ->
        NoDup (map snd (descriptions st')))
    /\ (NoDup (map snd (icons st)) -> NoDup (map snd (icons st'))).
Proof.
  intros utcnow request st st'. subst st'.
  destruct (task_either utcnow request st) as [-> | (NWS_r & _ & ->)].
  - repeat split; try (exists []; now rewrite app_nil_r); auto.
  - apply store_appends.
Qed.

Lemma joined_rows (D' I' : lookup_table) (updated : string) (m : Q)
    (periods : list NWS.period) (rows : list Frame.row) :
  Forall2 (fun p r => with_columns updated p = Some r) periods rows ->
  NoDup (map snd D') -> NoDup (map snd I') ->
  (forall r, In r rows ->
     In (shortForecast (Frame.texts r)) (map snd D')
     /\ In (icon (Frame.texts r)) (map snd I')) ->
  Forall2
    (fun p r =>
       Log.number r = NWS.number p
       /\ Log.id r = Some (inject_Z (NWS.number p) + m)%Q
       /\ Log.forecast_updated_time r = strptime updated
       /\ (exists d, Log.forecast_descriptions_id r = Some d
                     /\ In (d, NWS.shortForecast p) D')
       /\ (exists i, Log.icon_id r = Some i /\ In (i, NWS.icon p) I'))
    periods
    (map (to_prediction m) (flat_map (join_tables D' I') rows)).
Proof.
  intros HF HD HI. induction HF as [|p r periods rows Hp HF IH];
    intros Hin; simpl; [constructor|].
  destruct (with_columns_fields updated p r Hp) as (En & Eu & Es & Ei).
  destruct (Hin r (or_introl eq_refl)) as [Hs Hi].
  apply in_map_iff in Hs as ((d, t) & Et & Hd). simpl in Et. subst t.
  apply in_map_iff in Hi as ((i, t) & Et & Hi). simpl in Et. subst t.
  unfold join_tables at 1.
  rewrite (join_left_unique _ D' d HD Hd), (join_left_unique _ I' i HI Hi).
  simpl. constructor.
  - simpl. rewrite En, Eu, <- Es, <- Ei. repeat split; eauto.
  - apply IH. intros r' Hr'. apply Hin. now right.
Qed.

(** A forecast that is newer than the log's and whose periods all pass the
    casts is stored: on lookup tables in which no text occurs twice, the
    log gains one row per period, in order, with the period's number; its
    two ids are not null and stand, in the tables as the run leaves them,
    beside the period's description and its icon; and when the period's
    number is positive its id is above every id the log had. *)
Theorem task_stores_forecast :
  forall (utcnow : datetime) (NWS_r : NWS.response) (st : files)
         (u : datetime),
    NoDup (map snd (descriptions st)) ->
    NoDup (map snd (icons st)) ->
    NWS.status_code NWS_r = 200 ->
    fromisoformat (NWS.updated NWS_r) = Some u ->
    max_forecast_updated_time_in_CSV utcnow (predictions st) < u ->
    (forall p, In p (NWS.periods NWS_r) ->
               with_columns (NWS.updated NWS_r) p <> None) ->
    let st' := task utcnow (Some NWS_r) st in
    exists batch,
      predictions st' = predictions st ++ batch
      /\ Forall2
           (fun p r =>
              Log.number r = NWS.number p
              /\ Log.forecast_updated_time r = strptime (NWS.updated NWS_r)
              /\ (exists d, Log.forecast_descriptions_id r = Some d
                            /\ In (d, NWS.shortForecast p) (descriptions st'))
              /\ (exists i, Log.icon_id r = Some i
                            /\ In (i, NWS.icon p) (icons st'))
              /\ (0 < NWS.number p ->
                  exists y, Log.id r = Some y
                    /\ forall old x, In old (predictions st) ->
                         Log.id old = Some x -> (x < y)%Q))
           (NWS.periods NWS_r) batch.
Proof.
  intros utcnow NWS_r st u HD HI Hstatus Hu Hnew Hcast st'. subst st'.
  destruct (collect_some (with_columns (NWS.updated NWS_r))
              (NWS.periods NWS_r) Hcast) as [rows Hrows].
  assert (E : task utcnow (Some NWS_r) st = store NWS_r st).
  { unfold Forecast.task. rewrite Hstatus, Hu. simpl.
    destruct (u <=? _) eqn:L; [|reflexivity].
    apply Z.leb_le in L. lia. }
  rewrite E, (store_collected NWS_r st rows Hrows). simpl.
  destruct (tables_updated (descriptions st) (icons st) rows)
    as (Hcov & HD' & HI').
  unfold add_new_predictions.
  set (m := match col_max (map Log.id (predictions st)) with
            | Some m => m
            | None => 0%Q
            end).
  eexists. split; [reflexivity|].
  pose proof (joined_rows _ _ (NWS.updated NWS_r) m _ _
                (collect_Forall2 _ _ _ Hrows) (HD' HD) (HI' HI) Hcov) as HF.
  eapply Forall2_impl; [|exact HF]. simpl.
  intros p r (En & Eid & Eu & Hd & Hi).
  split; [exact En|]. split; [exact Eu|]. split; [exact Hd|].
  split; [exact Hi|]. intros Hpos. eexists. split; [exact Eid|].
  intros old x Hold Ex. subst m.
  destruct (col_max (map Log.id (predictions st))) as [m|] eqn:Em.
  - assert (Hx : (x <= m)%Q).
    { apply (proj2 (col_max_spec _ _ Em)). rewrite <- Ex. now apply in_map. }
    assert (Hn : (0 < inject_Z (NWS.number p))%Q)
      by (unfold Qlt, inject_Z; simpl; lia).
    Lqa.lra.
  - exfalso.
    assert (H : Log.id old = None)
      by (apply (proj1 (col_max_none _) Em); now apply in_map).
    congruence.
Qed.

Lemma max_forecast_updated_time_in_CSV_bound (utcnow u : datetime)
    (log : list Log.prediction) (r : Log.prediction) :
  In r log -> Log.forecast_updated_time r = Some u ->
  u <= max_forecast_updated_time_in_CSV utcnow log.
Proof.
  intros Hr Eu. unfold max_forecast_updated_time_in_CSV.
  assert (Hin : In u (filter_map Log.forecast_updated_time log))
    by (apply in_filter_map; eauto).
  destruct (Zcol_max_some _ _ Hin) as [m Em]. rewrite Em.
  exact (Zcol_max_ge _ _ Em u Hin).
Qed.

Lemma max_forecast_updated_time_in_CSV_clock (utcnow utcnow' : datetime)
    (log : list Log.prediction) :
  utcnow <= utcnow' ->
  max_forecast_updated_time_in_CSV utcnow log
  <= max_forecast_updated_time_in_CSV utcnow' log.
Proof.
  intros H. unfold max_forecast_updated_time_in_CSV.
  destruct (Zcol_max _); unfold datetime in *; lia.
Qed.

(** A second run on the same response, at the same time or later, changes
    nothing, provided the update time the log stores is the one the script
    compares: on the time stamp of this response, the two parsers agree. *)
Theorem task_idempotent :
  forall (utcnow utcnow' : datetime) (request : option NWS.response)
         (st : files),
    utcnow <= utcnow' ->
    (forall NWS_r u,
       request = Some NWS_r ->
       fromisoformat (NWS.updated NWS_r) = Some u ->
       strptime (NWS.updated NWS_r) = Some u) ->
    task utcnow' request (task utcnow request st) = task utcnow request st.
Proof.
  intros utcnow utcnow' request st Hclock Hagree.
  destruct request as [NWS_r|]; [|reflexivity].
  specialize (Hagree NWS_r).
  assert (Hnoop : forall st0, store NWS_r st0 = st0 ->
            task utcnow' (Some NWS_r) st0 = st0).
  { intros st0 H0.
    destruct (task_either utcnow' (Some NWS_r) st0)
      as [-> | (r & Er & ->)]; [reflexivity|].
    injection Er as <-. exact H0. }
  destruct (NWS.status_code NWS_r =? 200) eqn:Hstatus;
    [|unfold Forecast.task; now rewrite Hstatus].
  destruct (fromisoformat (NWS.updated NWS_r)) as [u|] eqn:Hu;
    [|unfold Forecast.task; now rewrite Hstatus, Hu].
  destruct (u <=? max_forecast_updated_time_in_CSV utcnow (predictions st))
    eqn:L.
  - assert (E1 : task utcnow (Some NWS_r) st = st)
      by (unfold Forecast.task; now rewrite Hstatus, Hu, L).
    rewrite !E1. unfold Forecast.task. rewrite Hstatus, Hu.
    apply Z.leb_le in L.
    pose proof (max_forecast_updated_time_in_CSV_clock utcnow utcnow'
                  (predictions st) Hclock) as Hmax.
    destruct (u <=? max_forecast_updated_time_in_CSV utcnow' (predictions st))
      eqn:L'; [reflexivity|].
    apply Z.leb_gt in L'. unfold datetime in *. lia.
  - assert (E1 : task utcnow (Some NWS_r) st = store NWS_r st)
      by (unfold Forecast.task; now rewrite Hstatus, Hu, L).
    rewrite !E1.
    destruct (collect (with_columns (NWS.updated NWS_r)) (NWS.periods NWS_r))
      as [rows|] eqn:E.
    + destruct rows as [|r rows].
      * assert (E0 : store NWS_r st = st).
        { rewrite (store_collected NWS_r st [] E). destruct st as [P D I].
          simpl. unfold add_new_predictions. simpl.
          now rewrite app_nil_r. }
        rewrite !E0. now apply Hnoop.
      * unfold Forecast.task. rewrite Hstatus, Hu.
        destruct (join_tables_inhabited
                    (descriptions (store NWS_r st)) (icons (store NWS_r st)) r)
          as (d & i & Hin).
        assert (Hlog : In (to_prediction
                             match col_max (map Log.id (predictions st)) with
                             | Some m => m
                             | None => 0%Q
                             end (joined r d i))
                          (predictions (store NWS_r st))).
        { revert Hin. rewrite (store_collected NWS_r st (r :: rows) E).
          simpl. intros Hin. unfold add_new_predictions.
          apply in_or_app. right. apply in_map, in_or_app. now left. }
        assert (Eu : Log.forecast_updated_time
                       (to_prediction
                          match col_max (map Log.id (predictions st)) with
                          | Some m => m
                          | None => 0%Q
                          end (joined r d i)) = Some u).
        { simpl. apply collect_Forall2 in E. inversion E as [|? ? ? ? Hp _].
          subst. destruct (with_columns_fields _ _ _ Hp) as (_ & -> & _).
          now apply Hagree. }
        pose proof (max_forecast_updated_time_in_CSV_bound utcnow' u _ _
                      Hlog Eu) as Hmax.
        destruct (u <=? max_forecast_updated_time_in_CSV utcnow'
                          (predictions (store NWS_r st))) eqn:L';
          [reflexivity|].
        apply Z.leb_gt in L'. unfold datetime in *. lia.
    + rewrite (store_failed NWS_r st E). apply Hnoop.
      exact (store_failed NWS_r st E).
Qed.

End Task.

(** The sample run: the three periods are stored with ids 1, 2 and 3; the
    wind speed is the first number of its text, the direction outside the
    eight of the dictionary is null, and the second table, empty before,
    holds the two icons. *)
Example task_three_hours :
  let st' := Forecast.task iso_utc iso_utc decimal_Int16 truncated_Int16
               winter_noon (Some three_hours) one_description in
  map Log.id (predictions st') = [Some 1%Q; Some 2%Q; Some 3%Q]
  /\ map Log.windSpeed (predictions st') = [Some 5; Some 5; Some 10]
  /\ map Log.windDirection (predictions st') = [Some 315; None; Some 0]
  /\ map Log.dewpoint (predictions st') = [Some 23; Some 23; Some 23]
  /\ map snd (descriptions st') = ["Sunny"; "Snow"]%string
  /\ map snd (icons st') = ["snow.png"; "sun.png"]%string.
Proof. vm_compute. repeat split. Qed.

Lemma task_stores_forecast_witness :
  let st' := Forecast.task iso_utc iso_utc decimal_Int16 truncated_Int16
               winter_noon (Some three_hours) one_description in
  exists batch,
    predictions st' = predictions one_description ++ batch
    /\ List.length batch = 3%nat.
Proof.
  destruct (task_stores_forecast iso_utc iso_utc decimal_Int16
              truncated_Int16 winter_noon three_hours one_description
              (make 2024 1 10 11 30 0 0))
    as (batch & E & HF).
  - constructor; [intros [] | constructor].
  - constructor.
  - reflexivity.
  - vm_compute. reflexivity.
  - vm_compute. reflexivity.
  - intros p [<- | [<- | [<- | []]]]; vm_compute; discriminate.
  - exists batch. split; [exact E|].
    rewrite <- (Forall2_length HF). reflexivity.
Defined.

Lemma task_idempotent_witness :
  let st' := Forecast.task iso_utc fromisoformat_utc decimal_Int16
               truncated_Int16 winter_noon (Some three_hours)
               one_description in
  Forecast.task iso_utc fromisoformat_utc decimal_Int16 truncated_Int16
    (winter_noon + us_per_hour) (Some three_hours) st' = st'.
Proof.
  apply (task_idempotent iso_utc fromisoformat_utc decimal_Int16
           truncated_Int16 winter_noon (winter_noon + us_per_hour)
           (Some three_hours) one_description).
  - vm_compute. discriminate.
  - intros NWS_r u E. injection E as <-. vm_compute. intros H. exact H.
Defined.

(** The proviso is needed. A time stamp with a space before the time is
    read by [fromisoformat] and not by the polars format: the stored
    update time is null, and a second run stores the periods again. *)
Example task_repeats_on_a_null_update_time :
  let reply :=
    {| NWS.status_code := 200;
       NWS.updated := "2024-01-10 11:30:00+00:00";
       NWS.periods := NWS.periods three_hours |} in
  let run := Forecast.task iso_utc fromisoformat_utc decimal_Int16
               truncated_Int16 winter_noon (Some reply) in
  fromisoformat_utc (NWS.updated reply) = Some (make 2024 1 10 11 30 0 0)
  /\ iso_utc (NWS.updated reply) = None
  /\ List.length (predictions (run one_description)) = 3%nat
  /\ List.length (predictions (run (run one_description))) = 6%nat.
Proof. vm_compute. repeat split. Qed.

End ForecastFacts.
